(** * package_llvm.py: the release script of the LLVM bundle

    A shallow embedding of [package_llvm.py] and the properties of its
    version values, its dependency scan, its retry wrapper and its
    publish routine.

    Python values are embedded as follows: [str] is [string] (ASCII),
    [int] is [Z], [None]-able values are [option], lists are [list],
    exceptions are the constructors of [exn] and a call that may raise
    returns a [result]. *)

From Stdlib Require Import ZArith List String Ascii Bool Lia.
From Stdlib Require Import DecimalString DecimalPos DecimalZ.
Import ListNotations.

Open Scope string_scope.
Open Scope Z_scope.
Open Scope list_scope.

Infix "+++" := String.append (right associativity, at level 60).

(** ** Python exceptions and results *)

Inductive exn : Type :=
| SystemExit (msg : string)          (* raised by [sys.exit( msg )] *)
| ValueError (msg : string)
| KeyError (key : string)
| IndexError
| TypeError (msg : string)
| FileNotFoundError (path : string)
| CalledProcessError (cmd : string).

Inductive result (A : Type) : Type :=
| Ok (a : A)
| Raise (e : exn).

Arguments Ok {A} a.
Arguments Raise {A} e.

Definition rbind {A B : Type} (r : result A) (k : A -> result B) : result B :=
  match r with
  | Ok a => k a
  | Raise e => Raise e
  end.

Notation "'try!' x <- r ; k" := (rbind r (fun x => k))
  (at level 10, x name, r at level 100, k at level 200).

(** ** The built-ins of Python the script relies on *)

Module Py.

(** [str( n )] for an [int]. *)
Definition str (n : Z) : string := NilEmpty.string_of_int (Z.to_int n).

Definition is_digit (c : ascii) : bool :=
  ((48 <=? nat_of_ascii c) && (nat_of_ascii c <=? 57))%nat.

Definition digit_value (c : ascii) : Z := Z.of_nat (nat_of_ascii c - 48).

(** ASCII whitespace as [int] sees it, which is the [isspace] of C: the
    tab, the newline, the vertical tab, the form feed, the carriage return
    and the space.  The separators 28 to 31, which [str.strip] drops, are
    not among them. *)
Definition is_space (c : ascii) : bool :=
  let n := nat_of_ascii c in
  (((9 <=? n) && (n <=? 13)) || (n =? 32))%nat.

(** The whitespace [int] skips before and after its literal. *)
Fixpoint lstrip (s : string) : string :=
  match s with
  | String c r => if is_space c then lstrip r else s
  | EmptyString => EmptyString
  end.

Fixpoint rstrip (s : string) : string :=
  match s with
  | String c r =>
      let r' := rstrip r in
      if is_space c && (r' =? "")%string then "" else String c r'
  | EmptyString => EmptyString
  end.

Definition strip (s : string) : string := rstrip (lstrip s).

(** The digits of an [int] literal: decimal digits, any two of them
    separated by at most one underscore.  [after_digit] tells whether
    the previous character was a digit. *)
Fixpoint int_digits (s : string) (acc : Z) (after_digit : bool) : option Z :=
  match s with
  | EmptyString => if after_digit then Some acc else None
  | String c r =>
      if is_digit c then int_digits r (10 * acc + digit_value c) true
      else if (c =? "_")%char && after_digit then int_digits r acc false
      else None
  end.

(** [c in s] *)
Fixpoint has (c : ascii) (s : string) : bool :=
  match s with
  | EmptyString => false
  | String d r => (d =? c)%char || has c r
  end.

Definition hexdigit (n : nat) : ascii :=
  nth n (list_ascii_of_string "0123456789abcdef") "0"%char.

(** One character under [repr]: the quote in use and the backslash (92)
    get a backslash, the tab, the newline and the carriage return their
    letter, the other control characters and 127 their code in two
    hexadecimal digits. *)
Definition repr_char (quote c : ascii) : string :=
  let n := nat_of_ascii c in
  if (c =? quote)%char || (c =? "092")%char then String "092" (String c "")
  else if (c =? "009")%char then String "092" "t"
  else if (c =? "010")%char then String "092" "n"
  else if (c =? "013")%char then String "092" "r"
  else if ((n <? 32) || (n =? 127))%nat
       then String "092" (String "x" (String (hexdigit (n / 16))
                                             (String (hexdigit (n mod 16)) "")))
       else String c "".

Fixpoint repr_chars (quote : ascii) (s : string) : string :=
  match s with
  | EmptyString => EmptyString
  | String c r => repr_char quote c +++ repr_chars quote r
  end.

(** [repr( s )] for an ASCII [str]: between apostrophes (39), or between
    double quotes (34) when the text holds an apostrophe and no double
    quote. *)
Definition repr (s : string) : string :=
  let quote := if has "039" s && negb (has "034" s)
               then "034"%char else "039"%char in
  String quote (repr_chars quote s +++ String quote "").

(** The [ValueError] of [int( s )]: its message ends with [repr( s )], cut
    after 200 characters. *)
Definition int_error (s : string) : exn :=
  ValueError ("invalid literal for int() with base 10: "
                +++ substring 0 200 (repr s)).

(** [int( s )] in base 10: surrounding whitespace is dropped, one sign is
    allowed.  Only ASCII text is modelled. *)
Definition int (s : string) : result Z :=
  let body := strip s in
  let parsed :=
    match body with
    | String c r =>
        if (c =? "-")%char then option_map Z.opp (int_digits r 0 false)
        else if (c =? "+")%char then int_digits r 0 false
        else int_digits body 0 false
    | EmptyString => None
    end in
  match parsed with
  | Some n => Ok n
  | None => Raise (int_error s)
  end.

(** [s.split( sep )] for a separator of one character. *)
Fixpoint split (sep : ascii) (s : string) : list string :=
  match s with
  | EmptyString => [""]
  | String c r =>
      if (c =? sep)%char then "" :: split sep r
      else match split sep r with
           | h :: t => String c h :: t
           | [] => [String c ""]
           end
  end.

(** [sep.join( parts )]. *)
Fixpoint join (sep : string) (parts : list string) : string :=
  match parts with
  | [] => ""
  | [p] => p
  | p :: rest => p +++ sep +++ join sep rest
  end.

(** [l[ i ]] for a non-negative index. *)
Definition getitem {A : Type} (l : list A) (i : nat) : result A :=
  match nth_error l i with
  | Some a => Ok a
  | None => Raise IndexError
  end.

Definition len {A : Type} (l : list A) : Z := Z.of_nat (List.length l).

Fixpoint is_prefix (p s : string) : bool :=
  match p, s with
  | EmptyString, _ => true
  | String a p', String b s' => (a =? b)%char && is_prefix p' s'
  | String _ _, EmptyString => false
  end.

(** [s.replace( old, new )] for a non-empty [old]: occurrences are
    replaced from the left and do not overlap.  [skip] counts the
    characters of a matched occurrence still to be dropped. *)
Fixpoint replace_from (old new : string) (skip : nat) (s : string) : string :=
  match s with
  | EmptyString => EmptyString
  | String c r =>
      match skip with
      | S k => replace_from old new k r
      | O =>
          if is_prefix old s
          then new +++ replace_from old new (String.length old - 1) r
          else String c (replace_from old new O r)
      end
  end.

Definition replace (s old new : string) : string := replace_from old new O s.

(** [s.splitlines()]: the ASCII line boundaries, with "\r\n" as one. *)
Definition is_linebreak (c : ascii) : bool :=
  let n := nat_of_ascii c in
  (((10 <=? n) && (n <=? 13)) || ((28 <=? n) && (n <=? 30)))%nat.

(** [cur] is the line being read, reversed; [after_cr] tells whether the
    previous character was a carriage return. *)
Fixpoint splitlines_from (s : string) (cur : list ascii) (after_cr : bool)
  : list string :=
  match s with
  | EmptyString =>
      match cur with
      | [] => []
      | _ => [string_of_list_ascii (rev cur)]
      end
  | String c r =>
      if after_cr && (c =? "010")%char then splitlines_from r [] false
      else if is_linebreak c
      then string_of_list_ascii (rev cur)
             :: splitlines_from r [] (c =? "013")%char
      else splitlines_from r (c :: cur) false
  end.

Definition splitlines (s : string) : list string := splitlines_from s [] false.

End Py.

(** ** class Version *)

Record Version : Type := mkVersion { major : Z; minor : Z; patch : Z }.

(** The values a [Version] may be compared with. *)
Inductive PyObj : Type :=
| PyVersion (v : Version)
| PyInt (n : Z)
| PyStr (s : string)
| PyNone.

Definition isinstance_Version (o : PyObj) : bool :=
  match o with
  | PyVersion _ => true
  | _ => false
  end.

(** Comparison of tuples of [int]: the first position where they differ
    decides, then the lengths. *)
Fixpoint tuple_eq (a b : list Z) : bool :=
  match a, b with
  | [], [] => true
  | x :: a', y :: b' => (x =? y) && tuple_eq a' b'
  | _, _ => false
  end.

Fixpoint tuple_lt (a b : list Z) : bool :=
  match a, b with
  | [], [] => false
  | [], _ :: _ => true
  | _ :: _, [] => false
  | x :: a', y :: b' => if x =? y then tuple_lt a' b' else x <? y
  end.

Module VersionImpl.

(** [Version.__init__] *)
Definition init (version : string) : result Version :=
  let split_version := Py.split "." version in
  try! major <- (try! item <- Py.getitem split_version 0; Py.int item);
  try! minor <- (if Py.len split_version >? 1
                 then try! item <- Py.getitem split_version 1; Py.int item
                 else Ok 0);
  try! patch <- (if Py.len split_version >? 2
                 then try! item <- Py.getitem split_version 2; Py.int item
                 else Ok 0);
  Ok (mkVersion major minor patch).

(** [Version.__eq__] *)
Definition eq (self : Version) (other : PyObj) : result bool :=
  match other with
  | PyVersion other =>
      Ok (tuple_eq [ major self; minor self; patch self ]
                   [ major other; minor other; patch other ])
  | _ => Raise (ValueError "Must be compared with a Version object.")
  end.

(** [Version.__lt__] *)
Definition lt (self : Version) (other : PyObj) : result bool :=
  match other with
  | PyVersion other =>
      Ok (tuple_lt [ major self; minor self; patch self ]
                   [ major other; minor other; patch other ])
  | _ => Raise (ValueError "Must be compared with a Version object.")
  end.

(** The comparisons [functools.total_ordering] derives from [__lt__] and
    [__eq__]; [!=] is the negation of [__eq__]. *)
Definition ne (self : Version) (other : PyObj) : result bool :=
  try! e <- eq self other; Ok (negb e).

Definition gt (self : Version) (other : PyObj) : result bool :=
  try! op_result <- lt self other;
  if negb op_result then ne self other else Ok false.

Definition le (self : Version) (other : PyObj) : result bool :=
  try! op_result <- lt self other;
  if op_result then Ok true else eq self other.

Definition ge (self : Version) (other : PyObj) : result bool :=
  try! op_result <- lt self other; Ok (negb op_result).

(** [Version.__repr__] *)
Definition repr (self : Version) : string :=
  Py.join "." [ Py.str (major self); Py.str (minor self); Py.str (patch self) ].

End VersionImpl.

(** ** The world the script runs in

    The script talks to three things outside itself: the release store of
    the hosting platform, the local filesystem and the console.  The world
    holds the state of the first two and the chronological log of what the
    script did. *)

Record Asset : Type := mkAsset {
  asset_id : Z;
  asset_name : string;
  asset_data : string
}.

Record Release : Type := mkRelease {
  release_id : Z;
  tag_name : string;
  release_name : string;
  release_body : string;
  prerelease : bool;
  assets : list Asset
}.

(** Modelled from the spec: the state of the release store of the hosting
    platform, which is not part of the repository.  It holds the releases
    in listing order, the next fresh identifier, and the outages to come
    ([true]: the next request is answered with a server error and changes
    nothing). *)
Record Remote : Type := mkRemote {
  releases : list Release;
  next_id : Z;
  faults : list bool
}.

(** The JSON bodies of the responses, typed by what the script reads. *)
Record AssetJson : Type := mkAssetJson {
  json_name : string;
  json_id : Z
}.

Record ReleaseJson : Type := mkReleaseJson {
  json_tag_name : string;
  json_upload_url : string;
  json_assets : list AssetJson
}.

Inductive Json : Type :=
| JReleases (l : list ReleaseJson)
| JRelease (r : ReleaseJson)
| JAsset (a : AssetJson)
| JMessage (message : string)
| JEmpty.

Record Response : Type := mkResponse {
  status_code : Z;
  body : Json
}.

(** The four requests of the script.  The first three are addressed by
    the owner, repository and asset the script formats into
    [GITHUB_RELEASES_URL] and [GITHUB_ASSETS_URL]; the upload goes to the
    URL the store handed out. *)
Inductive Request : Type :=
| GetReleases (owner repo : string) (auth : string * string)
| DeleteAsset (owner repo : string) (id : Z) (tag : string)
              (auth : string * string)
| PostRelease (owner repo : string) (tag name body : string) (pre : bool)
              (auth : string * string)
| PostAsset (url name content_type data : string) (auth : string * string).

Inductive Event : Type :=
| EPrint (line : string)
| ESleep (seconds : Z)
| ERequest (r : Request).

Record World : Type := mkWorld {
  remote : Remote;
  files : list (string * string);      (* path, content *)
  objdump : list (string * string);    (* path, output of [objdump -p] *)
  log : list Event
}.

Fixpoint lookup (key : string) (l : list (string * string)) : option string :=
  match l with
  | [] => None
  | (k, v) :: rest => if (k =? key)%string then Some v else lookup key rest
  end.

(** ** The release store

    The release API of the hosting platform is not part of the repository;
    the store below stands for the one project the requests of the script
    are addressed to. *)

Module Store.

Definition UPLOAD_PREFIX : string :=
  "https://uploads.github.com/repos/ycm-core/llvm/releases/".

(** Modelled from the spec: where the assets of a release are uploaded to
    (its upload endpoint), and the URI template the store advertises for
    it. *)
Definition upload_endpoint (id : Z) : string :=
  UPLOAD_PREFIX +++ Py.str id +++ "/assets".

Definition upload_url (id : Z) : string :=
  upload_endpoint id +++ "{?name,label}".

Definition asset_json (a : Asset) : AssetJson :=
  mkAssetJson (asset_name a) (asset_id a).

Definition release_json (r : Release) : ReleaseJson :=
  mkReleaseJson (tag_name r) (upload_url (release_id r))
                (map asset_json (assets r)).

Definition set_assets (r : Release) (l : list Asset) : Release :=
  mkRelease (release_id r) (tag_name r) (release_name r) (release_body r)
            (prerelease r) l.

Definition has_asset (id : Z) (r : Release) : bool :=
  existsb (fun a => asset_id a =? id) (assets r).

Definition drop_asset (id : Z) (r : Release) : Release :=
  set_assets r (filter (fun a => negb (asset_id a =? id)) (assets r)).

Fixpoint add_asset (url : string) (a : Asset) (rs : list Release)
  : option (list Release) :=
  match rs with
  | [] => None
  | r :: rest =>
      if (upload_endpoint (release_id r) =? url)%string
      then Some (set_assets r (assets r ++ [a]) :: rest)
      else option_map (cons r) (add_asset url a rest)
  end.

Definition not_found : Response := mkResponse 404 (JMessage "Not Found").

(** Modelled from the spec: a request the store is up for.  The store
    lists its releases, creates a release, deletes an asset by identifier
    and adds an uploaded asset to the release the upload URL belongs to;
    it does not enforce that asset names are unique within a release.
    Success is 200 for the listing, 201 for a creation or an upload, 204
    for a deletion; any other answer carries a message. *)
Definition handle (st : Remote) (req : Request) : Response * Remote :=
  match req with
  | GetReleases _ _ _ =>
      (mkResponse 200 (JReleases (map release_json (releases st))), st)
  | DeleteAsset _ _ id _ _ =>
      if existsb (has_asset id) (releases st)
      then (mkResponse 204 JEmpty,
            mkRemote (map (drop_asset id) (releases st)) (next_id st)
                     (faults st))
      else (not_found, st)
  | PostRelease _ _ tag name body pre _ =>
      let r := mkRelease (next_id st) tag name body pre [] in
      (mkResponse 201 (JRelease (release_json r)),
       mkRemote (releases st ++ [r]) (next_id st + 1) (faults st))
  | PostAsset url name _ data _ =>
      let a := mkAsset (next_id st) name data in
      match add_asset url a (releases st) with
      | Some rs =>
          (mkResponse 201 (JAsset (asset_json a)),
           mkRemote rs (next_id st + 1) (faults st))
      | None => (not_found, st)
      end
  end.

(** Modelled from the spec: a request to the store, which may be down. *)
Definition serve (st : Remote) (req : Request) : Response * Remote :=
  match faults st with
  | true :: rest =>
      (mkResponse 500 (JMessage "Server Error"),
       mkRemote (releases st) (next_id st) rest)
  | false :: rest =>
      handle (mkRemote (releases st) (next_id st) rest) req
  | [] => handle st req
  end.

End Store.

(** ** Running the script: state and exceptions *)

Definition M (A : Type) : Type := World -> result A * World.

Definition ret {A : Type} (a : A) : M A := fun w => (Ok a, w).

Definition raise {A : Type} (e : exn) : M A := fun w => (Raise e, w).

Definition bind {A B : Type} (m : M A) (k : A -> M B) : M B :=
  fun w =>
    match m w with
    | (Ok a, w') => k a w'
    | (Raise e, w') => (Raise e, w')
    end.

Notation "x <- m ;; k" := (bind m (fun x => k))
  (at level 61, m at next level, right associativity).
Notation "m ;; k" := (bind m (fun _ => k))
  (at level 61, right associativity).

Definition lift {A : Type} (r : result A) : M A := fun w => (r, w).

Definition emit (e : Event) (w : World) : World :=
  mkWorld (remote w) (files w) (objdump w) (log w ++ [e]).

(** [print( line )] *)
Definition print (line : string) : M unit :=
  fun w => (Ok tt, emit (EPrint line) w).

(** [time.sleep( seconds )] *)
Definition sleep (seconds : Z) : M unit :=
  fun w => (Ok tt, emit (ESleep seconds) w).

(** [sys.exit( msg )] *)
Definition sys_exit {A : Type} (msg : string) : M A := raise (SystemExit msg).

(** A request of the [requests] library, answered by the store. *)
Definition http (req : Request) : M Response :=
  fun w =>
    let (response, st) := Store.serve (remote w) req in
    (Ok response,
     mkWorld st (files w) (objdump w) (log w ++ [ERequest req])).

(** [open( path, 'rb' )], read when it is sent. *)
Definition open_rb (path : string) : M string :=
  fun w =>
    match lookup path (files w) with
    | Some data => (Ok data, w)
    | None => (Raise (FileNotFoundError path), w)
    end.

(** [subprocess.check_output( [ objdump, '-p', path ] ).decode( 'utf8' )] *)
Definition objdump_p (path : string) : M string :=
  fun w =>
    match lookup path (objdump w) with
    | Some output => (Ok output, w)
    | None => (Raise (CalledProcessError "objdump"), w)
    end.

(** [response.json()[ 'message' ]] *)
Definition json_message (response : Response) : M string :=
  match body response with
  | JMessage message => ret message
  | _ => raise (KeyError "message")
  end.

(** ** The script *)

Definition RETRY_INTERVAL : Z := 10.

(** [BUNDLE_NAME.format( version = ..., target = ... )] *)
Definition BUNDLE_NAME (version target : string) : string :=
  "clang+llvm-" +++ version +++ "-" +++ target.

(** *** The two patterns of the dependency scan

    Each pattern is compiled by hand into the matcher [search] runs on one
    line; the result holds the named groups. *)

Module Re.

Fixpoint strip_prefix (p s : string) : option string :=
  match p, s with
  | EmptyString, _ => Some s
  | String a p', String b s' =>
      if (a =? b)%char then strip_prefix p' s' else None
  | String _ _, EmptyString => None
  end.

(** A maximal run of characters of class [cls], and what follows it. *)
Fixpoint span (cls : ascii -> bool) (s : string) : string * string :=
  match s with
  | String c r =>
      if cls c then let (run, rest) := span cls r in (String c run, rest)
      else ("", s)
  | EmptyString => ("", "")
  end.

(** One or more characters of class [cls]; the patterns follow such a run
    by a space, which is in neither class, so the run is maximal. *)
Definition plus (cls : ascii -> bool) (s : string) : option string :=
  match span cls s with
  | (EmptyString, _) => None
  | (_, rest) => Some rest
  end.

(** [[0-9a-f]] *)
Definition is_lower_hex (c : ascii) : bool :=
  Py.is_digit c || ((97 <=? nat_of_ascii c) && (nat_of_ascii c <=? 102))%nat.

(** [.*$]: the rest of the text, which holds no newline but possibly a
    last one, left out of the group. *)
Fixpoint dot_star_eol (s : string) : option string :=
  match s with
  | EmptyString => Some ""
  | String c r =>
      if (c =? "010")%char
      then if (r =? "")%string then Some "" else None
      else option_map (String c) (dot_star_eol r)
  end.

(** Two groups [.*] around an underscore: the first group is greedy, so
    the text is cut at its last underscore. *)
Fixpoint cut_last_underscore (s : string) : option (string * string) :=
  match s with
  | EmptyString => None
  | String c r =>
      match cut_last_underscore r with
      | Some (before, after) => Some (String c before, after)
      | None => if (c =? "_")%char then Some ("", r) else None
      end
  end.

End Re.

(** From the start of the line: two spaces, [NEEDED], fifteen spaces, then
    the group [dependency], which is [.*] up to the end of the line. *)
Definition OBJDUMP_NEEDED_REGEX (line : string) : option string :=
  match Re.strip_prefix "  NEEDED               " line with
  | Some rest => Re.dot_star_eol rest
  | None => None
  end.

(** From the start of the line: four spaces, [0x[0-9a-f]+], [ 0x00 ],
    [\d+], a space, then the groups [library] and [version], each [.*],
    around an underscore and up to the end of the line.  [\d] is an ASCII
    digit here. *)
Definition OBJDUMP_VERSION_REGEX (line : string) : option (string * string) :=
  match Re.strip_prefix "    0x" line with
  | None => None
  | Some s1 =>
  match Re.plus Re.is_lower_hex s1 with
  | None => None
  | Some s2 =>
  match Re.strip_prefix " 0x00 " s2 with
  | None => None
  | Some s3 =>
  match Re.plus Py.is_digit s3 with
  | None => None
  | Some s4 =>
  match Re.strip_prefix " " s4 with
  | None => None
  | Some s5 =>
  match Re.dot_star_eol s5 with
  | None => None
  | Some text => Re.cut_last_underscore text
  end end end end end end.

(** *** Retries *)

(** The loop of [Retries]; [fuel] bounds its iterations and [None] is
    running out of it.  [function] stands for [function( *args )]. *)
Fixpoint Retries_loop {A : Type} (fuel : nat) (function : M A)
  (max_retries nb_retries : Z) (w : World) : option (result bool * World) :=
  match fuel with
  | O => None
  | S fuel' =>
      match function w with
      | (Ok _, w1) => Some (Ok true, w1)
      | (Raise (SystemExit error), w1) =>
          let nb_retries := nb_retries + 1 in
          let w2 := emit (EPrint ("ERROR: " +++ error +++ " Retry "
                                    +++ Py.str nb_retries +++ ". ")) w1 in
          if nb_retries >? max_retries
          then Some (Raise (SystemExit ("Number of retries exceeded ("
                                          +++ Py.str max_retries
                                          +++ "). Aborting.")), w2)
          else Retries_loop fuel' function max_retries nb_retries
                            (emit (ESleep RETRY_INTERVAL) w2)
      | (Raise e, w1) => Some (Raise e, w1)
      end
  end.

Definition Retries {A : Type} (fuel : nat) (function : M A) (w : World)
  : option (result bool * World) :=
  let max_retries := 3 in
  let nb_retries := 0 in
  Retries_loop fuel function max_retries nb_retries w.

(** *** GetBundleVersion *)

Record Args : Type := mkArgs {
  version : string;
  release_candidate : option Z;
  gh_user : string;
  gh_token : string;
  gh_org : string
}.

(** The truth value of an optional [int]: [None] and [0] are false. *)
Definition truthy (n : option Z) : bool :=
  match n with
  | Some n => negb (n =? 0)
  | None => false
  end.

Definition GetBundleVersion (args : Args) : string :=
  match release_candidate args with
  | Some rc => if truthy (Some rc)
               then version args +++ "-rc" +++ Py.str rc
               else version args
  | None => version args
  end.

(** *** CheckDependencies *)

(** [collections.defaultdict( list )], in insertion order. *)
Definition Versions : Type := list (string * list Version).

(** [versions[ library ].append( version )] *)
Fixpoint versions_append (library : string) (version : Version)
  (versions : Versions) : Versions :=
  match versions with
  | [] => [(library, [version])]
  | (key, values) :: rest =>
      if (key =? library)%string then (key, values ++ [version]) :: rest
      else (key, values) :: versions_append library version rest
  end.

(** The loop over the lines of the dump. *)
Fixpoint scan_lines (lines : list string) (dependencies : list string)
  (versions : Versions) : result (list string * Versions) :=
  match lines with
  | [] => Ok (dependencies, versions)
  | line :: rest =>
      let dependencies :=
        match OBJDUMP_NEEDED_REGEX line with
        | Some dependency => dependencies ++ [dependency]
        | None => dependencies
        end in
      try! versions <-
        match OBJDUMP_VERSION_REGEX line with
        | Some (library, version) =>
            try! version <- VersionImpl.init version;
            Ok (versions_append library version versions)
        | None => Ok versions
        end;
      scan_lines rest dependencies versions
  end.

Fixpoint print_all (lines : list string) : M unit :=
  match lines with
  | [] => ret tt
  | line :: rest => print line ;; print_all rest
  end.

(** [CheckDependencies] returns the lines it collected and [versions] as it
    leaves it. *)
Definition CheckDependencies (name path : string) (versions : Versions)
  : M (list string * Versions) :=
  output <- objdump_p path ;;
  found <- lift (scan_lines (Py.splitlines output) [] versions) ;;
  print ("List of " +++ name +++ " dependencies:") ;;
  print_all (fst found) ;;
  ret found.

(** *** UploadLlvm *)

(** [os.path.basename] *)
Fixpoint basename (path : string) : string :=
  match path with
  | EmptyString => ""
  | String c r =>
      if (c =? "/")%char then basename r
      else if existsb (fun d => (d =? "/")%char) (list_ascii_of_string r)
           then basename r
           else path
  end.

Fixpoint ends_with_slash (s : string) : bool :=
  match s with
  | EmptyString => false
  | String c EmptyString => (c =? "/")%char
  | String _ r => ends_with_slash r
  end.

(** [os.path.join] of two POSIX paths. *)
Definition path_join (a b : string) : string :=
  match b with
  | String "/" _ => b
  | _ => if (a =? "")%string || ends_with_slash a then a +++ b
         else a +++ "/" +++ b
  end.

Definition auth_of (args : Args) : string * string :=
  (gh_user args, gh_token args).

(** The loop over the assets of a release already there. *)
Fixpoint scan_assets (args : Args) (bundle_version bundle_name : string)
  (assets : list AssetJson) : M unit :=
  match assets with
  | [] => ret tt
  | asset :: rest =>
      if negb (json_name asset =? bundle_name)%string
      then scan_assets args bundle_version bundle_name rest
      else
        print ("Deleting " +++ bundle_name +++ " on GitHub.") ;;
        response <- http (DeleteAsset (gh_org args) "llvm" (json_id asset)
                                      bundle_version (auth_of args)) ;;
        if negb (status_code response =? 204)
        then message <- json_message response ;;
             sys_exit ("Creating release failed with message: " +++ message)
        else ret tt
  end.

(** The loop over the releases of the listing. *)
Fixpoint scan_releases (args : Args) (bundle_version bundle_name : string)
  (listing : list ReleaseJson) (upload_url : option string)
  : M (option string) :=
  match listing with
  | [] => ret upload_url
  | release :: rest =>
      if negb (json_tag_name release =? bundle_version)%string
      then scan_releases args bundle_version bundle_name rest upload_url
      else
        print ("Version " +++ bundle_version +++ " already released.") ;;
        let upload_url := Some (json_upload_url release) in
        scan_assets args bundle_version bundle_name (json_assets release) ;;
        scan_releases args bundle_version bundle_name rest upload_url
  end.

(** [not upload_url] *)
Definition unset (upload_url : option string) : bool :=
  match upload_url with
  | Some url => (url =? "")%string
  | None => true
  end.

Definition UploadLlvm (args : Args) (bundle_path : string) : M unit :=
  response <- http (GetReleases (gh_org args) "llvm" (auth_of args)) ;;
  (if negb (status_code response =? 200)
   then message <- json_message response ;;
        sys_exit ("Getting releases failed with message: " +++ message)
   else ret tt) ;;
  let bundle_version := GetBundleVersion args in
  let bundle_name := basename bundle_path in
  listing <- match body response with
             | JReleases l => ret l
             | _ => raise (TypeError "string indices must be integers")
             end ;;
  upload_url <- scan_releases args bundle_version bundle_name listing None ;;
  upload_url <-
    (if unset upload_url
     then
       print ("Releasing " +++ bundle_version +++ " on GitHub.") ;;
       let prerelease :=
         match release_candidate args with
         | Some _ => true
         | None => false
         end in
       let name := "LLVM and Clang " +++ version args in
       let name :=
         match release_candidate args with
         | Some rc => if truthy (Some rc)
                      then name +++ " RC" +++ Py.str rc
                      else name
         | None => name
         end in
       response <- http (PostRelease (gh_org args) "llvm" bundle_version name
                           (name +++ " without realtime, terminfo, and zlib dependencies.")
                           prerelease (auth_of args)) ;;
       (if negb (status_code response =? 201)
        then message <- json_message response ;;
             sys_exit ("Releasing failed with message: " +++ message)
        else ret tt) ;;
       match body response with
       | JRelease r => ret (json_upload_url r)
       | _ => raise (KeyError "upload_url")
       end
     else
       match upload_url with
       | Some url => ret url
       | None => ret ""
       end) ;;
  let upload_url := Py.replace upload_url "{?name,label}" "" in
  bundle <- open_rb bundle_path ;;
  print ("Uploading " +++ bundle_name +++ " on GitHub.") ;;
  response <- http (PostAsset upload_url bundle_name "application/x-xz" bundle
                              (auth_of args)) ;;
  if negb (status_code response =? 201)
  then message <- json_message response ;;
       sys_exit ("Uploading failed with message: " +++ message)
  else ret tt.

(** *** Main

    [Main] from the point where the toolchain is cloned, built, checked
    and bundled: those steps run external programs and do not touch the
    release store.  Their results are taken as given: [args] from
    [ParseArguments], [target] from [GetTarget], and the archive at
    [bundle_path] in the filesystem of the world. *)
Definition Main (DIR_OF_THIS_SCRIPT : string) (args : Args) (target : string)
  : M unit :=
  let bundle_version := GetBundleVersion args in
  let bundle_name := BUNDLE_NAME bundle_version target in
  let archive_name := bundle_name +++ ".tar.xz" in
  let bundle_path := path_join DIR_OF_THIS_SCRIPT archive_name in
  UploadLlvm args bundle_path.

(** ** The rest of the script *)

(** *** ParseArguments *)

(** What [parser.parse_args()] returns: the two credentials are [None]
    when their option is left out. *)
Record Namespace : Type := mkNamespace {
  ns_version : string;
  ns_release_candidate : option Z;
  ns_gh_user : option string;
  ns_gh_token : option string;
  ns_gh_org : string
}.

(** [ParseArguments], from the parsed command line [parsed] and
    [os.environ]: a credential that is left out or empty is looked up in
    the environment. *)
Definition ParseArguments (parsed : Namespace) (environ : list (string * string))
  : M Args :=
  gh_user <-
    (if unset (ns_gh_user parsed)
     then match lookup "GITHUB_USERNAME" environ with
          | None => sys_exit ("ERROR: Must specify either --gh-user or "
                                +++ "GITHUB_USERNAME in environment")
          | Some value => ret value
          end
     else match ns_gh_user parsed with
          | Some value => ret value
          | None => ret ""
          end) ;;
  gh_token <-
    (if unset (ns_gh_token parsed)
     then match lookup "GITHUB_TOKEN" environ with
          | None => sys_exit ("ERROR: Must specify either --gh-token or "
                                +++ "GITHUB_TOKEN in environment")
          | Some value => ret value
          end
     else match ns_gh_token parsed with
          | Some value => ret value
          | None => ret ""
          end) ;;
  ret (mkArgs (ns_version parsed) (ns_release_candidate parsed)
              gh_user gh_token (ns_gh_org parsed)).

(** *** CheckLlvm *)

(** [max( values )] on versions: the first item, replaced by each later
    item that is [>] the best so far. *)
Fixpoint max_from (best : Version) (rest : list Version) : result Version :=
  match rest with
  | [] => Ok best
  | item :: rest =>
      try! greater <- VersionImpl.gt item (PyVersion best);
      max_from (if greater then item else best) rest
  end.

Definition max_version (values : list Version) : result Version :=
  match values with
  | [] => Raise (ValueError "max() arg is an empty sequence")
  | first :: rest => max_from first rest
  end.

(** The loop over [versions.items()]. *)
Fixpoint print_maxima (items : Versions) : M unit :=
  match items with
  | [] => ret tt
  | (library, values) :: rest =>
      maximum <- lift (max_version values) ;;
      print (library +++ " " +++ VersionImpl.repr maximum) ;;
      print_maxima rest
  end.

Definition CheckLlvm (install_dir : string) : M unit :=
  print "Checking LLVM dependencies." ;;
  let versions := [] in
  found <- CheckDependencies
             "libclang"
             (path_join (path_join install_dir "lib") "libclang.so")
             versions ;;
  let versions := snd found in
  found <- CheckDependencies
             "clangd"
             (path_join (path_join install_dir "bin") "clangd")
             versions ;;
  let versions := snd found in
  print "Maximum versions required:" ;;
  print_maxima versions.

(** *** GetTarget *)

(** From the start of the line: [Target: ], then the group [target], which
    is [.*] up to the end of the line. *)
Definition TARGET_REGEX (line : string) : option string :=
  match Re.strip_prefix "Target: " line with
  | Some rest => Re.dot_star_eol rest
  | None => None
  end.

(** The loop over the lines of what the compiler wrote. *)
Fixpoint first_target (lines : list string) : M string :=
  match lines with
  | [] => sys_exit "Cannot deduce LLVM target."
  | line :: rest =>
      match TARGET_REGEX line with
      | Some target => ret target
      | None => first_target rest
      end
  end.

(** [GetTarget], from [output], the decoded output of [clang -###]. *)
Definition GetTarget (output : string) : M string :=
  first_target (Py.splitlines output).

(** *** BundleLlvm: the mode of the shared libraries *)

(** The tail [(.\d+)*$] of the pattern of the shared libraries: blocks of
    one character and one or more digits, up to the end of the name or to
    a last newline. *)
Fixpoint so_versions (s : string) : bool :=
  match s with
  | EmptyString => true
  | String c r =>
      ((c =? "010")%char && (r =? "")%string)
      || (negb (c =? "010")%char
          && (fix digits (t : string) : bool :=
                match t with
                | String d t' => Py.is_digit d && (so_versions t' || digits t')
                | EmptyString => false
                end) r)
  end.

(** [SHARED_LIBRARY_REGEX.match( filename )]: [.*], then [.so], then the
    tail above. *)
Fixpoint SHARED_LIBRARY_REGEX (filename : string) : bool :=
  match Re.strip_prefix ".so" filename with
  | Some rest => so_versions rest
  | None => false
  end
  || match filename with
     | String c r => negb (c =? "010")%char && SHARED_LIBRARY_REGEX r
     | EmptyString => false
     end.

(** The mode [BundleLlvm] leaves on a file of the install directory before
    it adds the file to the archive: [mode |= ( mode & 0o444 ) >> 2] for a
    shared library. *)
Definition BundleLlvm_mode (filename : string) (mode : Z) : Z :=
  if SHARED_LIBRARY_REGEX filename
  then Z.lor mode (Z.shiftr (Z.land mode 292) 2)
  else mode.

(** ** Vocabulary of the properties *)

(** *** Versions *)

(** The lexicographic order on (major, minor, patch). *)
Definition lex_lt (a b : Version) : Prop :=
  major a < major b \/
  (major a = major b /\
   (minor a < minor b \/ (minor a = minor b /\ patch a < patch b))).

(** A numeric component of a dotted version: one or more ASCII digits. *)
Fixpoint all_digits (s : string) : bool :=
  match s with
  | EmptyString => true
  | String c r => Py.is_digit c && all_digits r
  end.

Definition numeric (s : string) : bool :=
  negb (s =? "")%string && all_digits s.

(** The number a string of digits denotes, by the weight of each digit. *)
Fixpoint numeral (s : string) : Z :=
  match s with
  | EmptyString => 0
  | String c r => Py.digit_value c * 10 ^ Z.of_nat (String.length r) + numeral r
  end.

(** Parse, then format. *)
Definition parse_format (text : string) : result string :=
  try! v <- VersionImpl.init text; Ok (VersionImpl.repr v).

(** *** Strings *)

(** No character of [s] is [c]. *)
Fixpoint free_of (c : ascii) (s : string) : bool :=
  match s with
  | EmptyString => true
  | String d r => negb (d =? c)%char && free_of c r
  end.

(** [sub in s] *)
Fixpoint is_infix (sub s : string) : bool :=
  Py.is_prefix sub s
  || match s with
     | String _ r => is_infix sub r
     | EmptyString => false
     end.

(** [s.endswith( suffix )] *)
Fixpoint is_suffix (suffix s : string) : bool :=
  (s =? suffix)%string
  || match s with
     | String _ r => is_suffix suffix r
     | EmptyString => false
     end.

(** *** The log *)

Definition requests_of (events : list Event) : list Request :=
  flat_map (fun e => match e with ERequest r => [r] | _ => [] end) events.

Definition sleeps_of (events : list Event) : list Z :=
  flat_map (fun e => match e with ESleep s => [s] | _ => [] end) events.

(** A step of the script only adds to the log. *)
Definition appends {A : Type} (m : M A) : Prop :=
  forall w, exists events, log (snd (m w)) = log w ++ events.

(** *** Retries *)

(** An operation that ends in [sys.exit] in every world. *)
Definition always_exits {A : Type} (function : M A) : Prop :=
  forall w, exists msg w', function w = (Raise (SystemExit msg), w').

(** The world [Retries] leaves after the failure [msg] of its attempt
    number [nb], when it goes on: the error line and the pause. *)
Definition after_failure (msg : string) (nb : Z) (w : World) : World :=
  emit (ESleep 10)
       (emit (EPrint ("ERROR: " +++ msg +++ " Retry " +++ Py.str nb +++ ". ")) w).

(** *** The dependency scan *)

(** The groups the two patterns capture over all the lines of a dump. *)
Definition needed_of (lines : list string) : list string :=
  flat_map (fun line => match OBJDUMP_NEEDED_REGEX line with
                        | Some dependency => [dependency]
                        | None => []
                        end) lines.

Definition versioned_of (lines : list string) : list (string * string) :=
  flat_map (fun line => match OBJDUMP_VERSION_REGEX line with
                        | Some found => [found]
                        | None => []
                        end) lines.

(** Recording (library, version text) pairs in order; the first text that
    is not a version raises. *)
Fixpoint record_all (found : list (string * string)) (versions : Versions)
  : result Versions :=
  match found with
  | [] => Ok versions
  | (library, text) :: rest =>
      try! version <- VersionImpl.init text;
      record_all rest (versions_append library version versions)
  end.

(** *** The state of the store *)

Definition named (name : string) (a : Asset) : bool :=
  (asset_name a =? name)%string.

Definition tagged (tag : string) (r : Release) : bool :=
  (tag_name r =? tag)%string.

(** How many assets of a release bear a name. *)
Definition count_named (name : string) (r : Release) : nat :=
  List.length (filter (named name) (assets r)).

Definition asset_ids (rs : list Release) : list Z :=
  flat_map (fun r => map asset_id (assets r)) rs.

(** The identifiers of a store are in order: no two releases and no two
    assets share one, and the next identifier is above them all. *)
Record store_ok (st : Remote) : Prop := mk_store_ok {
  release_ids_unique : NoDup (map release_id (releases st));
  asset_ids_unique : NoDup (asset_ids (releases st));
  release_ids_below : Forall (fun id => id < next_id st)
                             (map release_id (releases st));
  asset_ids_below : Forall (fun id => id < next_id st)
                           (asset_ids (releases st))
}.

(** A list of assets without the first that bears the name. *)
Fixpoint remove_first_named (name : string) (l : list Asset) : list Asset :=
  match l with
  | [] => []
  | a :: rest => if named name a then rest
                 else a :: remove_first_named name rest
  end.

(** What the loop over the listing asks the store to delete: in each
    release with the tag, the first asset with the name. *)
Definition doomed_in (name : string) (r : Release) : list Z :=
  match find (named name) (assets r) with
  | Some a => [asset_id a]
  | None => []
  end.

Definition doomed (tag name : string) (rs : list Release) : list Z :=
  flat_map (fun r => if tagged tag r then doomed_in name r else []) rs.

(** A release after that loop. *)
Definition reconcile (tag name : string) (r : Release) : Release :=
  if tagged tag r
  then Store.set_assets r (remove_first_named name (assets r))
  else r.

(** The release the upload goes to: the last of the listing with the tag. *)
Fixpoint last_tagged (tag : string) (rs : list Release) : option Z :=
  match rs with
  | [] => None
  | r :: rest =>
      match last_tagged tag rest with
      | Some id => Some id
      | None => if tagged tag r then Some (release_id r) else None
      end
  end.

(** A release after the upload of [a] to the release [id]. *)
Definition receive (id : Z) (a : Asset) (r : Release) : Release :=
  if release_id r =? id then Store.set_assets r (assets r ++ [a]) else r.

(** The world with the releases of its store replaced and its log extended. *)
Definition with_store (rs : list Release) (events : list Event) (w : World)
  : World :=
  mkWorld (mkRemote rs (next_id (remote w)) (faults (remote w)))
          (files w) (objdump w) (log w ++ events).

(** *** The requests of a publish run *)

(** The name and the flag the script gives the release it creates. *)
Definition created_name (args : Args) : string :=
  match release_candidate args with
  | Some rc => if truthy (Some rc)
               then ("LLVM and Clang " +++ version args) +++ " RC" +++ Py.str rc
               else "LLVM and Clang " +++ version args
  | None => "LLVM and Clang " +++ version args
  end.

Definition created_prerelease (args : Args) : bool :=
  match release_candidate args with
  | Some _ => true
  | None => false
  end.

Definition created_body (args : Args) : string :=
  created_name args +++ " without realtime, terminfo, and zlib dependencies.".

(** The request that creates the release of [args]. *)
Definition create_request (args : Args) : Request :=
  PostRelease (gh_org args) "llvm" (GetBundleVersion args) (created_name args)
              (created_body args) (created_prerelease args) (auth_of args).

(** The request that uploads the archive to the release [id]. *)
Definition upload_request (args : Args) (bundle_path data : string) (id : Z)
  : Request :=
  PostAsset (Store.upload_endpoint id) (basename bundle_path)
            "application/x-xz" data (auth_of args).

(** *** Worlds and arguments of the examples *)

(** A run of the script used in the examples: version 18.1.0, no release
    candidate, the archive in place, a store with no release yet and the
    given outages ahead. *)
Definition example_args : Args :=
  mkArgs "18.1.0" None "user" "token" "ycm-core".

Definition example_target : string := "x86_64-unknown-linux-gnu".

Definition example_name : string :=
  "clang+llvm-18.1.0-x86_64-unknown-linux-gnu.tar.xz".

Definition example_path : string := "/work/" +++ example_name.

Definition example_auth : string * string := ("user", "token").

Definition example_world (outages : list bool) : World :=
  mkWorld (mkRemote [] 1 outages) [(example_path, "archive")] [] [].

(** An operation that asks for the listing and exits, whatever the answer. *)
Definition failing_listing : M unit :=
  http (GetReleases "ycm-core" "llvm" example_auth) ;;
  sys_exit "Getting releases failed".

(** A store where the release of the example already holds the archive
    twice over. *)
Definition duplicated_world : World :=
  mkWorld
    (mkRemote
       [mkRelease 1 "18.1.0" "LLVM and Clang 18.1.0"
                  "LLVM and Clang 18.1.0 without realtime, terminfo, and zlib dependencies."
                  false
                  [mkAsset 2 example_name "first"; mkAsset 3 example_name "second"]]
       4 [])
    [(example_path, "archive")] [] [].

(** The arguments of a run with [--release-candidate 0]. *)
Definition candidate_zero_args : Args :=
  mkArgs "18.1.0" (Some 0) "user" "token" "ycm-core".

Definition newline : string := String "010" "".

(** The two lines of the example of the dependency scan. *)
Definition example_dump : string :=
  "  NEEDED               libc.so.6" +++ newline +++
  "    0x00000001 0x00 12 GLIBC_2.34" +++ newline.

(** *** Further vocabulary *)

(** [versions[ library ]], read without creating the entry. *)
Fixpoint values_of (library : string) (versions : Versions) : list Version :=
  match versions with
  | [] => []
  | (key, values) :: rest =>
      if (key =? library)%string then values else values_of library rest
  end.

(** The world with more in its log. *)
Definition logged (events : list Event) (w : World) : World :=
  mkWorld (remote w) (files w) (objdump w) (log w ++ events).

(** Every character of [s] is of class [cls]. *)
Fixpoint all_in (cls : ascii -> bool) (s : string) : bool :=
  match s with
  | EmptyString => true
  | String c r => cls c && all_in cls r
  end.

(** [m] is a greatest item of [values]. *)
Definition greatest_of (values : list Version) (m : Version) : Prop :=
  In m values /\ forall v, In v values -> ~ lex_lt m v.

(** The lines [CheckLlvm] ends with: per library, its name, a space and
    the version [maxima] holds for it. *)
Definition maxima_lines (items : Versions) (maxima : list Version)
  : list string :=
  map (fun found => fst (fst found) +++ " " +++ VersionImpl.repr (snd found))
      (combine items maxima).

(** The dump of a second binary, which needs an older GLIBC and the C++
    library. *)
Definition example_dump_clangd : string :=
  "  NEEDED               libstdc++.so.6" +++ newline +++
  "    0x06969197 0x00 07 GLIBC_2.17" +++ newline +++
  "    0x0297f871 0x00 05 GLIBCXX_3.4.21" +++ newline.

(** A world where the two binaries [CheckLlvm] looks at have their dumps. *)
Definition example_install : World :=
  mkWorld (mkRemote [] 1 []) []
          [("/work/install/lib/libclang.so", example_dump);
           ("/work/install/bin/clangd", example_dump_clangd)] [].

(** *** The command line *)

(** The credential the script works with: the option of the command line
    when it is given and not empty, else the variable of the environment. *)
Definition credential (given : option string) (variable : string)
  (environ : list (string * string)) : option string :=
  match given with
  | Some (String c r) => Some (String c r)
  | _ => lookup variable environ
  end.

(** The release candidate as the tag shows it: none for [None] and for 0. *)
Definition candidate (args : Args) : option Z :=
  if truthy (release_candidate args) then release_candidate args else None.

(** A command line without credentials. *)
Definition example_parsed : Namespace :=
  mkNamespace "18.1.0" (Some 2) (Some "") None "ycm-core".

(** *** Retries *)

(** The world after [n] attempts in a row that each ended in [sys.exit],
    the counter of [Retries] being at [nb] before the first of them;
    [None] when one of them ended otherwise. *)
Fixpoint failures {A : Type} (function : M A) (n : nat) (nb : Z) (w : World)
  : option World :=
  match n with
  | O => Some w
  | S n' =>
      match function w with
      | (Raise (SystemExit msg), w1) =>
          failures function n' (nb + 1) (after_failure msg (nb + 1) w1)
      | _ => None
      end
  end.

(** An operation that never pauses. *)
Definition never_sleeps {A : Type} (function : M A) : Prop :=
  forall w, sleeps_of (log (snd (function w))) = sleeps_of (log w).

(** *** Publishing *)

(** The releases a publish run under [tag] is not about. *)
Definition untagged (tag : string) (r : Release) : bool := negb (tagged tag r).

(** The release the script creates, before anything is uploaded to it. *)
Definition created_release (args : Args) (id : Z) : Release :=
  mkRelease id (GetBundleVersion args) (created_name args) (created_body args)
            (created_prerelease args) [].

(** The store that holds the archive twice over, on a machine where the
    archive is gone. *)
Definition archive_lost_world : World :=
  mkWorld (remote duplicated_world) [] [] [].

(** The requests a publish run of [args] and [bundle_path] may send: the
    listing, a deletion and a creation in the repository [llvm] of the
    organisation, an upload of the archive under its name, each with the
    credentials of the run. *)
Definition own_request (args : Args) (bundle_path : string) (req : Request)
  : Prop :=
  match req with
  | GetReleases owner repo auth =>
      owner = gh_org args /\ repo = "llvm" /\ auth = auth_of args
  | DeleteAsset owner repo _ tag auth =>
      owner = gh_org args /\ repo = "llvm" /\ tag = GetBundleVersion args /\
      auth = auth_of args
  | PostRelease owner repo tag name body pre auth =>
      owner = gh_org args /\ repo = "llvm" /\ tag = GetBundleVersion args /\
      name = created_name args /\ body = created_body args /\
      pre = created_prerelease args /\ auth = auth_of args
  | PostAsset _ name content_type _ auth =>
      name = basename bundle_path /\ content_type = "application/x-xz" /\
      auth = auth_of args
  end.

(** A step of the script that sends only requests of [P], adds to the log
    and leaves the files of the machine alone. *)
Definition sends_only {A : Type} (P : Request -> Prop) (m : M A) : Prop :=
  forall w, exists events,
    log (snd (m w)) = log w ++ events /\
    Forall P (requests_of events) /\
    files (snd (m w)) = files w /\ objdump (snd (m w)) = objdump w.

(** A store that holds an older release and the release of the example,
    which has the archive once, next to another file. *)
Definition published_world : World :=
  mkWorld
    (mkRemote
       [mkRelease 1 "17.0.6" "LLVM and Clang 17.0.6"
                  "LLVM and Clang 17.0.6 without realtime, terminfo, and zlib dependencies."
                  false
                  [mkAsset 2 "clang+llvm-17.0.6-x86_64-unknown-linux-gnu.tar.xz"
                           "older"];
        mkRelease 3 "18.1.0" "LLVM and Clang 18.1.0"
                  "LLVM and Clang 18.1.0 without realtime, terminfo, and zlib dependencies."
                  false
                  [mkAsset 4 example_name "stale"; mkAsset 5 "notes.txt" "notes"]]
       6 [])
    [(example_path, "archive")] [] [].

(** A dump whose version text holds the separator 31 before a component. *)
Definition separator_dump : string :=
  "    0x06969197 0x00 07 GLIBC_2." +++ String "031" "17" +++ newline.

(** * Properties *)

(** ** The built-ins on examples *)

Example Version_18_1 :
  VersionImpl.init "18.1" = Ok (mkVersion 18 1 0).
Proof. reflexivity. Qed.

Example Version_repr_18_1 :
  VersionImpl.repr (mkVersion 18 1 0) = "18.1.0".
Proof. reflexivity. Qed.

Example Version_four_components :
  VersionImpl.init "1.2.3.4" = Ok (mkVersion 1 2 3).
Proof. reflexivity. Qed.

Example Version_empty :
  VersionImpl.init ""
  = Raise (ValueError "invalid literal for int() with base 10: ''").
Proof. reflexivity. Qed.

Example int_examples :
  Py.int " 1_000 " = Ok 1000 /\ Py.int "-7" = Ok (-7) /\ Py.int "007" = Ok 7 /\
  Py.int "1__0"
  = Raise (ValueError "invalid literal for int() with base 10: '1__0'") /\
  Py.int "_1" = Raise (ValueError "invalid literal for int() with base 10: '_1'") /\
  Py.int (String "031" "18")
  = Raise (ValueError "invalid literal for int() with base 10: '\x1f18'") /\
  Py.int (String "009" "18" +++ String "010" "") = Ok 18.
Proof. repeat split; reflexivity. Qed.

Example repr_examples :
  Py.repr "2.x" = "'2.x'" /\
  Py.repr "it's" = String "034" ("it's" +++ String "034" "") /\
  Py.repr (String "009" (String "092" (String "127" "")))
  = "'" +++ String "092" "t" +++ String "092" (String "092" "")
        +++ String "092" "x7f" +++ "'".
Proof. repeat split; reflexivity. Qed.

Example replace_examples :
  Py.replace "https://u/releases/7/assets{?name,label}" "{?name,label}" ""
    = "https://u/releases/7/assets" /\
  Py.replace "aaaa" "aa" "b" = "bb" /\
  Py.replace "xaax" "a" "yy" = "xyyyyx".
Proof. repeat split; reflexivity. Qed.

Example splitlines_examples :
  Py.splitlines ("a" +++ String "010" "b" +++ String "013" (String "010" "c")
                   +++ String "010" "")
    = ["a"; "b"; "c"] /\
  Py.splitlines (String "010" (String "010" "x")) = [""; ""; "x"].
Proof. repeat split; reflexivity. Qed.

(** ** Version: order *)

Lemma Version_ext (a b : Version) :
  major a = major b -> minor a = minor b -> patch a = patch b -> a = b.
Proof. destruct a, b; simpl; intros; subst; reflexivity. Qed.

Lemma lt_Version_spec (a b : Version) :
  VersionImpl.lt a (PyVersion b) = Ok true <-> lex_lt a b.
Proof.
  unfold VersionImpl.lt, lex_lt, tuple_lt.
  destruct (Z.eqb_spec (major a) (major b)) as [Hm | Hm];
    [destruct (Z.eqb_spec (minor a) (minor b)) as [Hn | Hn];
     [destruct (Z.eqb_spec (patch a) (patch b)) as [Hp | Hp] |] |].
  - split; [discriminate | lia].
  - destruct (Z.ltb_spec (patch a) (patch b)); split;
      try discriminate; try reflexivity; lia.
  - destruct (Z.ltb_spec (minor a) (minor b)); split;
      try discriminate; try reflexivity; lia.
  - destruct (Z.ltb_spec (major a) (major b)); split;
      try discriminate; try reflexivity; lia.
Qed.

Lemma lt_Version_total (a b : Version) :
  exists r, VersionImpl.lt a (PyVersion b) = Ok r.
Proof. unfold VersionImpl.lt. eauto. Qed.

Lemma eq_Version_spec (a b : Version) :
  VersionImpl.eq a (PyVersion b) = Ok true <-> a = b.
Proof.
  unfold VersionImpl.eq, tuple_eq. split.
  - intros H. apply Version_ext;
      destruct (Z.eqb_spec (major a) (major b));
      destruct (Z.eqb_spec (minor a) (minor b));
      destruct (Z.eqb_spec (patch a) (patch b));
      simpl in H; congruence.
  - intros ->. now rewrite !Z.eqb_refl.
Qed.

Lemma lex_lt_trichotomy (a b : Version) :
  lex_lt a b \/ a = b \/ lex_lt b a.
Proof.
  unfold lex_lt.
  destruct (Z.lt_total (major a) (major b)) as [H | [H | H]]; [lia | | lia].
  destruct (Z.lt_total (minor a) (minor b)) as [H1 | [H1 | H1]]; [lia | | lia].
  destruct (Z.lt_total (patch a) (patch b)) as [H2 | [H2 | H2]]; [lia | | lia].
  right; left. now apply Version_ext.
Qed.

(** C8. On [Version] values [<] is the lexicographic order on
    (major, minor, patch): it always answers, it is irreflexive,
    asymmetric and transitive, any two versions are related or equal, and
    [==] holds exactly when the three components agree.  Comparing a
    [Version] with a value that is not one raises the [ValueError] of the
    class, whichever comparison is used. *)
Theorem Version_strict_total_order :
  (forall a b, VersionImpl.lt a (PyVersion b) = Ok true <-> lex_lt a b) /\
  (forall a b, exists r, VersionImpl.lt a (PyVersion b) = Ok r) /\
  (forall a, VersionImpl.lt a (PyVersion a) = Ok false) /\
  (forall a b, VersionImpl.lt a (PyVersion b) = Ok true ->
               VersionImpl.lt b (PyVersion a) = Ok false) /\
  (forall a b c, VersionImpl.lt a (PyVersion b) = Ok true ->
                 VersionImpl.lt b (PyVersion c) = Ok true ->
                 VersionImpl.lt a (PyVersion c) = Ok true) /\
  (forall a b, VersionImpl.lt a (PyVersion b) = Ok true \/ a = b \/
               VersionImpl.lt b (PyVersion a) = Ok true) /\
  (forall a b, VersionImpl.eq a (PyVersion b) = Ok true <->
               major a = major b /\ minor a = minor b /\ patch a = patch b) /\
  (forall a o, isinstance_Version o = false ->
     let mismatch := Raise (ValueError "Must be compared with a Version object.") in
     VersionImpl.eq a o = mismatch /\ VersionImpl.ne a o = mismatch /\
     VersionImpl.lt a o = mismatch /\ VersionImpl.le a o = mismatch /\
     VersionImpl.gt a o = mismatch /\ VersionImpl.ge a o = mismatch).
Proof.
  split; [exact lt_Version_spec |].
  split; [exact lt_Version_total |].
  split.
  { intros a. destruct (lt_Version_total a a) as [[] H]; [| exact H].
    apply lt_Version_spec in H. unfold lex_lt in H. lia. }
  split.
  { intros a b H. apply lt_Version_spec in H.
    destruct (lt_Version_total b a) as [[] H']; [| exact H'].
    apply lt_Version_spec in H'. unfold lex_lt in *. lia. }
  split.
  { intros a b c H1 H2. apply lt_Version_spec in H1, H2.
    apply lt_Version_spec. unfold lex_lt in *. lia. }
  split.
  { intros a b. rewrite !lt_Version_spec. apply lex_lt_trichotomy. }
  split.
  { intros a b. rewrite eq_Version_spec. split.
    - intros ->. auto.
    - intros (H1 & H2 & H3). now apply Version_ext. }
  intros a o Ho. destruct o; [discriminate Ho | | |]; repeat split.
Qed.

(** The theorem at the versions 2.17, 2.34 and the integer 3. *)
Lemma Version_strict_total_order_witness :
  VersionImpl.lt (mkVersion 2 17 0) (PyVersion (mkVersion 2 34 0)) = Ok true /\
  VersionImpl.lt (mkVersion 2 34 0) (PyVersion (mkVersion 2 17 0)) = Ok false /\
  VersionImpl.lt (mkVersion 2 34 0) (PyInt 3)
    = Raise (ValueError "Must be compared with a Version object.").
Proof.
  destruct Version_strict_total_order
    as (Hlex & _ & _ & Hasym & _ & _ & _ & Hmis).
  assert (H : VersionImpl.lt (mkVersion 2 17 0) (PyVersion (mkVersion 2 34 0))
              = Ok true).
  { apply Hlex. unfold lex_lt. simpl. lia. }
  split; [exact H |].
  split; [exact (Hasym _ _ H) |].
  exact (proj1 (proj2 (proj2 (Hmis (mkVersion 2 34 0) (PyInt 3) eq_refl)))).
Defined.

(** ** Version: parsing and formatting *)

Lemma digit_not_space (c : ascii) : Py.is_digit c = true -> Py.is_space c = false.
Proof.
  unfold Py.is_digit, Py.is_space. cbv zeta.
  generalize (nat_of_ascii c). intros n H.
  apply andb_true_iff in H. destruct H as [H1 H2].
  apply Nat.leb_le in H1. apply Nat.leb_le in H2.
  apply orb_false_iff. split.
  - apply andb_false_iff. right. apply Nat.leb_gt. lia.
  - apply Nat.eqb_neq. lia.
Qed.

Lemma digit_neq (c d : ascii) :
  Py.is_digit c = true -> Py.is_digit d = false -> (c =? d)%char = false.
Proof.
  intros Hc Hd. destruct (Ascii.eqb_spec c d); [subst; congruence | reflexivity].
Qed.

Lemma all_digits_free_of (d : ascii) (s : string) :
  Py.is_digit d = false -> all_digits s = true -> free_of d s = true.
Proof.
  intros Hd. induction s as [| c r IH]; simpl; [reflexivity |].
  intros H. apply andb_true_iff in H. destruct H as [Hc Hr].
  rewrite (digit_neq c d Hc Hd). simpl. auto.
Qed.

Lemma numeric_inv (s : string) :
  numeric s = true ->
  exists c r, s = String c r /\ Py.is_digit c = true /\ all_digits r = true.
Proof.
  unfold numeric. destruct s as [| c r]; simpl; [discriminate |].
  intros H. apply andb_true_iff in H. destruct H. eauto.
Qed.

Lemma numeric_all_digits (s : string) : numeric s = true -> all_digits s = true.
Proof. unfold numeric. intros H. apply andb_true_iff in H. tauto. Qed.

Lemma rstrip_all_digits (s : string) : all_digits s = true -> Py.rstrip s = s.
Proof.
  induction s as [| c r IH]; simpl; [reflexivity |].
  intros H. apply andb_true_iff in H. destruct H as [Hc Hr].
  rewrite (digit_not_space c Hc), (IH Hr). reflexivity.
Qed.

Lemma strip_numeric (s : string) : numeric s = true -> Py.strip s = s.
Proof.
  intros H. destruct (numeric_inv s H) as (c & r & -> & Hc & Hr).
  unfold Py.strip. simpl. rewrite (digit_not_space c Hc).
  apply rstrip_all_digits. simpl. now rewrite Hc, Hr.
Qed.

(** The accumulator of [int_digits] is the value of the digits read. *)
Lemma int_digits_all_digits (s : string) :
  all_digits s = true ->
  forall acc, Py.int_digits s acc true
              = Some (acc * 10 ^ Z.of_nat (String.length s) + numeral s).
Proof.
  induction s as [| c r IH]; intros H acc.
  - simpl. f_equal. lia.
  - simpl in H. apply andb_true_iff in H. destruct H as [Hc Hr].
    cbn [Py.int_digits]. rewrite Hc, (IH Hr).
    f_equal. cbn [String.length numeral].
    rewrite Nat2Z.inj_succ, Z.pow_succ_r by lia. ring.
Qed.

Lemma int_numeric (s : string) : numeric s = true -> Py.int s = Ok (numeral s).
Proof.
  intros H. unfold Py.int. rewrite (strip_numeric s H).
  destruct (numeric_inv s H) as (c & r & -> & Hc & Hr).
  rewrite (digit_neq c "-" Hc eq_refl), (digit_neq c "+" Hc eq_refl).
  cbn [Py.int_digits]. rewrite Hc, (int_digits_all_digits r Hr).
  cbn [numeral]. f_equal; ring.
Qed.

Lemma split_free (sep : ascii) (s : string) :
  free_of sep s = true -> Py.split sep s = [s].
Proof.
  induction s as [| c r IH]; simpl; [reflexivity |].
  intros H. apply andb_true_iff in H. destruct H as [Hc Hr].
  apply negb_true_iff in Hc. rewrite Hc, (IH Hr). reflexivity.
Qed.

Lemma split_first (sep : ascii) (s rest : string) :
  free_of sep s = true ->
  Py.split sep (s +++ String sep rest) = s :: Py.split sep rest.
Proof.
  induction s as [| c r IH]; simpl.
  - intros _. now rewrite Ascii.eqb_refl.
  - intros H. apply andb_true_iff in H. destruct H as [Hc Hr].
    apply negb_true_iff in Hc. rewrite Hc, (IH Hr). reflexivity.
Qed.

Lemma numeric_free_of_dot (s : string) : numeric s = true -> free_of "." s = true.
Proof.
  intros H. apply all_digits_free_of; [reflexivity | now apply numeric_all_digits].
Qed.

Lemma split_nonempty (sep : ascii) (s : string) : Py.split sep s <> [].
Proof.
  destruct s as [| c r]; simpl; [discriminate |].
  destruct (c =? sep)%char; [discriminate |].
  destruct (Py.split sep r); discriminate.
Qed.

(** What [Version.__init__] does with three numeric components and
    whatever follows them. *)
Lemma init_three (a b c : string) (more : list string) :
  numeric a = true -> numeric b = true -> numeric c = true ->
  forall version, Py.split "." version = a :: b :: c :: more ->
  VersionImpl.init version = Ok (mkVersion (numeral a) (numeral b) (numeral c)).
Proof.
  intros Ha Hb Hc version Hs. unfold VersionImpl.init. rewrite Hs.
  cbn [Py.getitem nth_error rbind].
  rewrite (int_numeric a Ha). cbn [rbind].
  replace (Py.len (a :: b :: c :: more) >? 1) with true
    by (unfold Py.len; cbn [List.length]; symmetry; apply Z.gtb_lt; lia).
  replace (Py.len (a :: b :: c :: more) >? 2) with true
    by (unfold Py.len; cbn [List.length]; symmetry; apply Z.gtb_lt; lia).
  rewrite (int_numeric b Hb), (int_numeric c Hc). reflexivity.
Qed.


(** ** Version: the formatted text is canonical *)

Lemma all_digits_string_of_uint (d : Decimal.uint) :
  all_digits (NilEmpty.string_of_uint d) = true.
Proof. induction d; simpl; auto. Qed.

Lemma numeral_of_uint_acc (d : Decimal.uint) :
  forall acc,
    Z.pos (Pos.of_uint_acc d acc)
    = Z.pos acc * 10 ^ Z.of_nat (String.length (NilEmpty.string_of_uint d))
      + numeral (NilEmpty.string_of_uint d).
Proof.
  induction d; intros acc;
    cbn [Pos.of_uint_acc NilEmpty.string_of_uint String.length numeral];
    [ simpl; lia | .. ];
    rewrite IHd, Nat2Z.inj_succ, Z.pow_succ_r by lia;
    rewrite ?Pos2Z.inj_add, Pos2Z.inj_mul;
    match goal with
    | |- context [Py.digit_value ?c] =>
        let v := eval vm_compute in (Py.digit_value c) in
        change (Py.digit_value c) with v
    end; ring.
Qed.

Lemma numeral_of_uint (d : Decimal.uint) :
  Z.of_N (Pos.of_uint d) = numeral (NilEmpty.string_of_uint d).
Proof.
  induction d; cbn [Pos.of_uint NilEmpty.string_of_uint numeral];
    [ reflexivity | rewrite IHd; simpl; lia | .. ];
    cbn [Z.of_N]; rewrite numeral_of_uint_acc;
    match goal with
    | |- context [Py.digit_value ?c] =>
        let v := eval vm_compute in (Py.digit_value c) in
        change (Py.digit_value c) with v
    end; reflexivity.
Qed.

(** The text of a natural number is numeric and denotes that number. *)
Lemma str_numeric (n : Z) :
  0 <= n -> numeric (Py.str n) = true /\ numeral (Py.str n) = n.
Proof.
  intros Hn. destruct n as [| p | p]; [split; reflexivity | | lia].
  unfold Py.str. cbn [Z.to_int NilEmpty.string_of_int]. split.
  - unfold numeric. rewrite all_digits_string_of_uint, andb_true_r.
    pose proof (Unsigned.to_uint_nonnil p) as Hnil.
    destruct (Pos.to_uint p); [contradiction | ..]; reflexivity.
  - rewrite <- numeral_of_uint, Unsigned.of_to. reflexivity.
Qed.

Lemma numeral_nonneg (s : string) : 0 <= numeral s.
Proof.
  induction s as [| c r IH]; cbn [numeral]; [lia |].
  unfold Py.digit_value.
  pose proof (Z.pow_nonneg 10 (Z.of_nat (String.length r))). nia.
Qed.

(** Formatting a version of natural numbers and parsing the text gives
    the version back. *)
Lemma format_then_parse (v : Version) :
  0 <= major v -> 0 <= minor v -> 0 <= patch v ->
  VersionImpl.init (VersionImpl.repr v) = Ok v.
Proof.
  intros Hma Hmi Hpa.
  destruct (str_numeric _ Hma) as [N1 V1].
  destruct (str_numeric _ Hmi) as [N2 V2].
  destruct (str_numeric _ Hpa) as [N3 V3].
  unfold VersionImpl.repr. cbn [Py.join].
  rewrite (init_three _ _ _ [] N1 N2 N3).
  - rewrite V1, V2, V3. now destruct v.
  - change (Py.str (major v) +++ "." +++ Py.str (minor v) +++ "."
              +++ Py.str (patch v))
      with (Py.str (major v) +++ String "." (Py.str (minor v)
              +++ String "." (Py.str (patch v)))).
    rewrite (split_first "." _ _ (numeric_free_of_dot _ N1)),
      (split_first "." _ _ (numeric_free_of_dot _ N2)),
      (split_free "." _ (numeric_free_of_dot _ N3)).
    reflexivity.
Qed.

(** C7. A dotted version of one, two or three numeric components parses,
    and the parsed version formats to the three-component text of the
    numbers its components denote, with [0] for a component left out.
    That text is canonical: parsing and formatting it gives it back. *)
Theorem parse_then_format (a b c : string) :
  numeric a = true -> numeric b = true -> numeric c = true ->
  let one := Py.str (numeral a) +++ ".0.0" in
  let two := Py.str (numeral a) +++ "." +++ Py.str (numeral b) +++ ".0" in
  let three := Py.str (numeral a) +++ "." +++ Py.str (numeral b) +++ "."
                 +++ Py.str (numeral c) in
  parse_format a = Ok one /\
  parse_format (a +++ "." +++ b) = Ok two /\
  parse_format (a +++ "." +++ b +++ "." +++ c) = Ok three /\
  parse_format one = Ok one /\
  parse_format two = Ok two /\
  parse_format three = Ok three.
Proof.
  intros Ha Hb Hc.
  pose proof (numeric_free_of_dot a Ha) as Fa.
  pose proof (numeric_free_of_dot b Hb) as Fb.
  pose proof (numeric_free_of_dot c Hc) as Fc.
  pose proof (numeral_nonneg a) as Na.
  pose proof (numeral_nonneg b) as Nb.
  pose proof (numeral_nonneg c) as Nc.
  assert (Canon : forall v, 0 <= major v -> 0 <= minor v -> 0 <= patch v ->
                    parse_format (VersionImpl.repr v) = Ok (VersionImpl.repr v)).
  { intros v H1 H2 H3. unfold parse_format.
    now rewrite (format_then_parse v H1 H2 H3). }
  cbv zeta. repeat split.
  - unfold parse_format, VersionImpl.init. rewrite (split_free "." a Fa).
    cbn [Py.getitem nth_error rbind]. rewrite (int_numeric a Ha).
    reflexivity.
  - unfold parse_format, VersionImpl.init.
    change (a +++ "." +++ b) with (a +++ String "." b).
    rewrite (split_first "." a b Fa), (split_free "." b Fb).
    cbn [Py.getitem nth_error rbind].
    rewrite (int_numeric a Ha). cbn [rbind].
    replace (Py.len [a; b] >? 1) with true by reflexivity.
    replace (Py.len [a; b] >? 2) with false by reflexivity.
    rewrite (int_numeric b Hb). reflexivity.
  - unfold parse_format.
    rewrite (init_three a b c [] Ha Hb Hc); [reflexivity |].
    change (a +++ "." +++ b +++ "." +++ c)
      with (a +++ String "." (b +++ String "." c)).
    now rewrite (split_first "." a _ Fa), (split_first "." b _ Fb),
      (split_free "." c Fc).
  - apply (Canon (mkVersion (numeral a) 0 0)); simpl; lia.
  - apply (Canon (mkVersion (numeral a) (numeral b) 0)); simpl; lia.
  - apply (Canon (mkVersion (numeral a) (numeral b) (numeral c))); simpl; lia.
Qed.

(** The theorem at "18", "18.1" and "18.1.0". *)
Lemma parse_then_format_witness :
  parse_format "18" = Ok "18.0.0" /\
  parse_format "18.1" = Ok "18.1.0" /\
  parse_format "18.1.0" = Ok "18.1.0".
Proof.
  destruct (parse_then_format "18" "1" "0" eq_refl eq_refl eq_refl)
    as (H1 & H2 & H3 & _).
  repeat split; assumption.
Defined.

(** C10. A dotted version of more than three components parses when the
    first three are numeric, whatever the text after the third dot is, and
    the version is made of the first three components only. *)
Theorem init_ignores_past_third (a b c rest : string) :
  numeric a = true -> numeric b = true -> numeric c = true ->
  VersionImpl.init (a +++ "." +++ b +++ "." +++ c +++ "." +++ rest)
    = Ok (mkVersion (numeral a) (numeral b) (numeral c)) /\
  VersionImpl.init (a +++ "." +++ b +++ "." +++ c +++ "." +++ rest)
    = VersionImpl.init (a +++ "." +++ b +++ "." +++ c).
Proof.
  intros Ha Hb Hc.
  pose proof (numeric_free_of_dot a Ha) as Fa.
  pose proof (numeric_free_of_dot b Hb) as Fb.
  pose proof (numeric_free_of_dot c Hc) as Fc.
  assert (H4 : VersionImpl.init (a +++ "." +++ b +++ "." +++ c +++ "." +++ rest)
               = Ok (mkVersion (numeral a) (numeral b) (numeral c))).
  { destruct (Py.split "." rest) as [| r more] eqn:Hr;
      [now apply split_nonempty in Hr |].
    apply (init_three a b c (r :: more) Ha Hb Hc).
    change (a +++ "." +++ b +++ "." +++ c +++ "." +++ rest)
      with (a +++ String "." (b +++ String "." (c +++ String "." rest))).
    now rewrite (split_first "." a _ Fa), (split_first "." b _ Fb),
      (split_first "." c _ Fc), Hr. }
  split; [exact H4 |].
  rewrite H4. symmetry.
  apply (init_three a b c [] Ha Hb Hc).
  change (a +++ "." +++ b +++ "." +++ c)
    with (a +++ String "." (b +++ String "." c)).
  now rewrite (split_first "." a _ Fa), (split_first "." b _ Fb),
    (split_free "." c Fc).
Qed.

(** The theorem at "1.2.3.4" and at "1.2.3.x.y". *)
Lemma init_ignores_past_third_witness :
  VersionImpl.init "1.2.3.4" = Ok (mkVersion 1 2 3) /\
  VersionImpl.init "1.2.3.x.y" = Ok (mkVersion 1 2 3).
Proof.
  split.
  - exact (proj1 (init_ignores_past_third "1" "2" "3" "4"
                    eq_refl eq_refl eq_refl)).
  - exact (proj1 (init_ignores_past_third "1" "2" "3" "x.y"
                    eq_refl eq_refl eq_refl)).
Defined.

(** ** Retries *)

Lemma Retries_loop_success {A : Type} (fuel : nat) (function : M A)
  (max_retries nb_retries : Z) (w w1 : World) (a : A) :
  function w = (Ok a, w1) ->
  Retries_loop (S fuel) function max_retries nb_retries w = Some (Ok true, w1).
Proof. intros H. simpl. now rewrite H. Qed.

Lemma Retries_loop_failure {A : Type} (fuel : nat) (function : M A)
  (max_retries nb_retries : Z) (w w1 : World) (msg : string) :
  function w = (Raise (SystemExit msg), w1) ->
  Retries_loop (S fuel) function max_retries nb_retries w
  = if nb_retries + 1 >? max_retries
    then Some (Raise (SystemExit ("Number of retries exceeded ("
                                    +++ Py.str max_retries +++ "). Aborting.")),
               emit (EPrint ("ERROR: " +++ msg +++ " Retry "
                               +++ Py.str (nb_retries + 1) +++ ". ")) w1)
    else Retries_loop fuel function max_retries (nb_retries + 1)
                      (after_failure msg (nb_retries + 1) w1).
Proof. intros H. simpl. now rewrite H. Qed.

(** [Retries] returns, whatever the operation does: the loop needs at most
    four iterations. *)
Lemma Retries_loop_terminates {A : Type} (function : M A) (fuel : nat) :
  forall nb_retries w,
    0 <= nb_retries <= 3 -> (Z.to_nat (4 - nb_retries) <= fuel)%nat ->
    exists r, Retries_loop fuel function 3 nb_retries w = Some r.
Proof.
  induction fuel as [| fuel IH]; intros nb w Hnb Hfuel; [lia |].
  cbn [Retries_loop].
  destruct (function w) as [[a | e] w1]; [eauto |].
  destruct e; eauto.
  destruct (Z.gtb_spec (nb + 1) 3); [eauto |].
  apply IH; lia.
Qed.

Lemma Retries_terminates {A : Type} (function : M A) (fuel : nat) (w : World) :
  (4 <= fuel)%nat -> exists r, Retries fuel function w = Some r.
Proof.
  intros Hfuel. unfold Retries. apply Retries_loop_terminates; simpl; lia.
Qed.

(** Evaluates the counter of the loop and its test against the limit. *)
Ltac count_retry :=
  cbn [Z.add Z.gtb Z.compare Pos.compare Pos.compare_cont Pos.add Pos.succ].

(** The run of [Retries] on an operation that always exits: four
    attempts, each in the world the previous failure left. *)
Lemma Retries_exhausted {A : Type} (function : M A) (w0 : World) (fuel : nat) :
  always_exits function -> (4 <= fuel)%nat ->
  exists m1 w1 m2 w2 m3 w3 m4 w4,
    function w0 = (Raise (SystemExit m1), w1) /\
    function (after_failure m1 1 w1) = (Raise (SystemExit m2), w2) /\
    function (after_failure m2 2 w2) = (Raise (SystemExit m3), w3) /\
    function (after_failure m3 3 w3) = (Raise (SystemExit m4), w4) /\
    Retries fuel function w0
    = Some (Raise (SystemExit "Number of retries exceeded (3). Aborting."),
            emit (EPrint ("ERROR: " +++ m4 +++ " Retry 4. ")) w4).
Proof.
  intros Hf Hfuel.
  destruct fuel as [| [| [| [| fuel]]]]; try lia.
  destruct (Hf w0) as (m1 & w1 & E1).
  destruct (Hf (after_failure m1 1 w1)) as (m2 & w2 & E2).
  destruct (Hf (after_failure m2 2 w2)) as (m3 & w3 & E3).
  destruct (Hf (after_failure m3 3 w3)) as (m4 & w4 & E4).
  exists m1, w1, m2, w2, m3, w3, m4, w4.
  repeat (split; [assumption |]).
  unfold Retries.
  rewrite (Retries_loop_failure _ _ _ _ _ _ _ E1). count_retry.
  rewrite (Retries_loop_failure _ _ _ _ _ _ _ E2). count_retry.
  rewrite (Retries_loop_failure _ _ _ _ _ _ _ E3). count_retry.
  rewrite (Retries_loop_failure _ _ _ _ _ _ _ E4). reflexivity.
Qed.

(** C6. An operation that exits on every invocation is invoked exactly
    four times by [Retries], whose limit is three retries, and [Retries]
    then exits for good: any count of the invocations, one that each
    invocation raises by one and that the error lines and the pauses of
    [Retries] leave alone, is four higher at the end. *)
Theorem Retries_four_attempts {A : Type} (function : M A)
  (attempts : World -> nat) (w0 : World) (fuel : nat) :
  always_exits function ->
  (forall w, attempts (snd (function w)) = S (attempts w)) ->
  (forall line w, attempts (emit (EPrint line) w) = attempts w) ->
  (forall seconds w, attempts (emit (ESleep seconds) w) = attempts w) ->
  (4 <= fuel)%nat ->
  exists w',
    Retries fuel function w0
    = Some (Raise (SystemExit "Number of retries exceeded (3). Aborting."), w')
    /\ attempts w' = (attempts w0 + 4)%nat.
Proof.
  intros Hf Hcount Hprint Hsleep Hfuel.
  destruct (Retries_exhausted function w0 fuel Hf Hfuel)
    as (m1 & w1 & m2 & w2 & m3 & w3 & m4 & w4 & E1 & E2 & E3 & E4 & ->).
  eexists. split; [reflexivity |].
  assert (Hafter : forall m nb w, attempts (after_failure m nb w) = attempts w).
  { intros. unfold after_failure. now rewrite Hsleep, Hprint. }
  pose proof (Hcount w0) as C1. rewrite E1 in C1.
  pose proof (Hcount (after_failure m1 1 w1)) as C2. rewrite E2, Hafter in C2.
  pose proof (Hcount (after_failure m2 2 w2)) as C3. rewrite E3, Hafter in C3.
  pose proof (Hcount (after_failure m3 3 w3)) as C4. rewrite E4, Hafter in C4.
  simpl in C1, C2, C3, C4. rewrite Hprint. lia.
Qed.

(** The theorem at an operation that asks the store for its releases and
    exits: the listing is requested four times. *)
Lemma Retries_four_attempts_witness :
  exists w',
    Retries 4 failing_listing (example_world [])
    = Some (Raise (SystemExit "Number of retries exceeded (3). Aborting."), w')
    /\ List.length (requests_of (log w')) = 4%nat.
Proof.
  apply (Retries_four_attempts
           failing_listing
           (fun w => List.length (requests_of (log w)))
           (example_world []) 4).
  - intros w. unfold failing_listing, bind, http, sys_exit, raise.
    destruct (Store.serve (remote w) _). eauto.
  - intros w. unfold failing_listing, bind, http, sys_exit, raise.
    destruct (Store.serve (remote w) _). simpl.
    unfold requests_of. rewrite flat_map_app, length_app. simpl. lia.
  - intros line w. simpl. unfold requests_of.
    rewrite flat_map_app, length_app. simpl. lia.
  - intros seconds w. simpl. unfold requests_of.
    rewrite flat_map_app, length_app. simpl. lia.
  - lia.
Defined.

(** C5, as the code has it.  When [Retries] gives up, it exits with one
    fixed message, whatever the errors of the attempts were; the last
    error is the subject of the line printed just before, the last event
    of the run. *)
Theorem Retries_exit_message {A : Type} (function : M A) (w0 : World)
  (fuel : nat) :
  always_exits function -> (4 <= fuel)%nat ->
  exists last before w4,
    function before = (Raise (SystemExit last), w4) /\
    Retries fuel function w0
    = Some (Raise (SystemExit "Number of retries exceeded (3). Aborting."),
            emit (EPrint ("ERROR: " +++ last +++ " Retry 4. ")) w4).
Proof.
  intros Hf Hfuel.
  destruct (Retries_exhausted function w0 fuel Hf Hfuel)
    as (m1 & w1 & m2 & w2 & m3 & w3 & m4 & w4 & _ & _ & _ & E4 & E).
  exists m4, (after_failure m3 3 w3), w4. split; assumption.
Qed.

(** The theorem at an operation that exits with "disk full". *)
Lemma Retries_exit_message_witness :
  exists last before w4,
    (sys_exit "disk full" : M unit) before = (Raise (SystemExit last), w4) /\
    Retries 4 (sys_exit "disk full" : M unit) (example_world [])
    = Some (Raise (SystemExit "Number of retries exceeded (3). Aborting."),
            emit (EPrint ("ERROR: " +++ last +++ " Retry 4. ")) w4).
Proof.
  apply (Retries_exit_message (sys_exit "disk full" : M unit)
                              (example_world []) 4).
  - intros w. unfold sys_exit, raise. eauto.
  - lia.
Defined.

(** C5, as the spec has it, fails: the publish routine facing a store that
    is down four times in a row makes [Retries] exit with a message that
    holds nothing of the error of the store. *)
Lemma Retries_exit_omits_last_error :
  exists w',
    Retries 4 (UploadLlvm example_args example_path)
            (example_world [true; true; true; true])
    = Some (Raise (SystemExit "Number of retries exceeded (3). Aborting."), w')
    /\ is_infix "Server Error" "Number of retries exceeded (3). Aborting." = false
    /\ last (log w') (ESleep 0)
       = EPrint "ERROR: Getting releases failed with message: Server Error Retry 4. ".
Proof. eexists. repeat split. Qed.

(** ** CheckDependencies *)

Lemma record_all_app (found1 found2 : list (string * string))
  (versions : Versions) :
  record_all (found1 ++ found2) versions
  = try! versions' <- record_all found1 versions; record_all found2 versions'.
Proof.
  revert versions. induction found1 as [| [library text] rest IH]; intros versions.
  - reflexivity.
  - simpl. destruct (VersionImpl.init text) as [v | e]; simpl; [apply IH | reflexivity].
Qed.

(** The scan is two scans side by side: each line is put to both patterns,
    whatever the other pattern made of it. *)
Lemma scan_lines_spec (lines : list string) :
  forall dependencies versions,
    scan_lines lines dependencies versions
    = try! versions' <- record_all (versioned_of lines) versions;
      Ok (dependencies ++ needed_of lines, versions').
Proof.
  induction lines as [| line rest IH]; intros dependencies versions.
  - cbn [scan_lines versioned_of needed_of flat_map record_all rbind].
    now rewrite List.app_nil_r.
  - cbn [scan_lines]. unfold versioned_of, needed_of. cbn [flat_map].
    fold (versioned_of rest). fold (needed_of rest).
    rewrite record_all_app.
    destruct (OBJDUMP_VERSION_REGEX line) as [[library text] |];
      destruct (OBJDUMP_NEEDED_REGEX line) as [dependency |];
      cbn [record_all rbind app].
    + destruct (VersionImpl.init text); cbn [rbind]; [| reflexivity].
      rewrite IH. now rewrite <- List.app_assoc.
    + destruct (VersionImpl.init text); cbn [rbind]; [| reflexivity].
      now rewrite IH.
    + rewrite IH. now rewrite <- List.app_assoc.
    + now rewrite IH.
Qed.

(** C9. A dump made of the lines "  NEEDED               libc.so.6" and
    "    0x00000001 0x00 12 GLIBC_2.34" yields the dependency "libc.so.6"
    and the record of version 2.34.0 for "GLIBC", and prints the
    dependency under its heading; and on any dump every line is put to
    both patterns: the scan is the NEEDED matches of all the lines next to
    the version matches of all the lines. *)
Theorem CheckDependencies_scans_both (name path : string) (w : World) :
  lookup path (objdump w) = Some example_dump ->
  CheckDependencies name path [] w
  = (Ok (["libc.so.6"], [("GLIBC", [mkVersion 2 34 0])]),
     emit (EPrint "libc.so.6")
          (emit (EPrint ("List of " +++ name +++ " dependencies:")) w))
  /\ forall lines dependencies versions,
       scan_lines lines dependencies versions
       = try! versions' <- record_all (versioned_of lines) versions;
         Ok (dependencies ++ needed_of lines, versions').
Proof.
  intros Hdump. split.
  - unfold CheckDependencies, bind, objdump_p. rewrite Hdump.
    reflexivity.
  - intros lines. apply scan_lines_spec.
Qed.

(** The theorem at the dump of [libclang.so]. *)
Lemma CheckDependencies_scans_both_witness :
  fst (CheckDependencies "libclang" "/work/install/lib/libclang.so" []
         (mkWorld (mkRemote [] 1 []) []
                  [("/work/install/lib/libclang.so", example_dump)] []))
  = Ok (["libc.so.6"], [("GLIBC", [mkVersion 2 34 0])]).
Proof.
  rewrite (proj1 (CheckDependencies_scans_both
                    "libclang" "/work/install/lib/libclang.so"
                    (mkWorld (mkRemote [] 1 []) []
                       [("/work/install/lib/libclang.so", example_dump)] [])
                    eq_refl)).
  reflexivity.
Defined.

(** No line matches both patterns: the third character of the one is a
    letter, of the other a space. *)
Lemma patterns_exclusive (line : string) :
  OBJDUMP_NEEDED_REGEX line = None \/ OBJDUMP_VERSION_REGEX line = None.
Proof.
  unfold OBJDUMP_NEEDED_REGEX, OBJDUMP_VERSION_REGEX.
  destruct line as [| c1 line]; [left; reflexivity |].
  cbn [Re.strip_prefix]. destruct (" " =? c1)%char; [| left; reflexivity].
  destruct line as [| c2 line]; [left; reflexivity |].
  cbn [Re.strip_prefix]. destruct (" " =? c2)%char; [| left; reflexivity].
  destruct line as [| c3 line]; [left; reflexivity |].
  cbn [Re.strip_prefix].
  destruct (Ascii.eqb_spec "N" c3) as [<- | _]; [right | left]; reflexivity.
Qed.

(** ** Strings and the URLs of the store *)

Arguments Store.upload_endpoint : simpl never.
Arguments Store.upload_url : simpl never.

Lemma append_assoc (a b c : string) : (a +++ b) +++ c = a +++ b +++ c.
Proof. induction a as [| x a IH]; simpl; [reflexivity | now rewrite IH]. Qed.

Lemma append_empty_r (a : string) : a +++ "" = a.
Proof. induction a as [| x a IH]; simpl; [reflexivity | now rewrite IH]. Qed.

Lemma length_append (a b : string) :
  String.length (a +++ b) = (String.length a + String.length b)%nat.
Proof. induction a as [| x a IH]; simpl; [reflexivity | now rewrite IH]. Qed.

Lemma append_inv_head (p a b : string) : p +++ a = p +++ b -> a = b.
Proof.
  induction p as [| x p IH]; simpl; intros H; [exact H |].
  injection H as H. auto.
Qed.

Lemma append_inv_tail (a b c : string) : a +++ c = b +++ c -> a = b.
Proof.
  revert b. induction a as [| x a IH]; intros [| y b] H.
  - reflexivity.
  - apply (f_equal String.length) in H. simpl in H.
    rewrite length_append in H. lia.
  - apply (f_equal String.length) in H. simpl in H.
    rewrite length_append in H. lia.
  - simpl in H. injection H as -> H. f_equal. auto.
Qed.

Lemma free_of_append (c : ascii) (a b : string) :
  free_of c (a +++ b) = free_of c a && free_of c b.
Proof.
  induction a as [| x a IH]; simpl; [reflexivity |].
  now rewrite IH, andb_assoc.
Qed.

Lemma str_free_of (c : ascii) (n : Z) :
  Py.is_digit c = false -> (c =? "-")%char = false ->
  free_of c (Py.str n) = true.
Proof.
  intros Hd Hm. unfold Py.str, NilEmpty.string_of_int.
  destruct (Z.to_int n) as [d | d].
  - apply all_digits_free_of; [exact Hd | apply all_digits_string_of_uint].
  - cbn [free_of]. rewrite Ascii.eqb_sym, Hm. cbn [negb andb].
    apply all_digits_free_of; [exact Hd | apply all_digits_string_of_uint].
Qed.

Lemma str_inj (a b : Z) : Py.str a = Py.str b -> a = b.
Proof.
  unfold Py.str. intros H.
  apply (f_equal NilEmpty.int_of_string) in H.
  rewrite !NilEmpty.isi in H. injection H as H.
  apply (f_equal Z.of_int) in H. now rewrite !DecimalZ.of_to in H.
Qed.

(** A text free of the first character of [old] is left as it is. *)
Lemma replace_free (c : ascii) (old new s rest : string) :
  free_of c s = true ->
  Py.replace (s +++ rest) (String c old) new
  = s +++ Py.replace rest (String c old) new.
Proof.
  unfold Py.replace. induction s as [| x s IH]; simpl; [reflexivity |].
  intros H. apply andb_true_iff in H. destruct H as [Hx Hs].
  apply negb_true_iff in Hx. rewrite Ascii.eqb_sym, Hx. simpl.
  now rewrite (IH Hs).
Qed.

(** The URL the script uploads to is the endpoint of the release. *)
Lemma replace_upload_url (id : Z) :
  Py.replace (Store.upload_url id) "{?name,label}" ""
  = Store.upload_endpoint id.
Proof.
  unfold Store.upload_url.
  rewrite (replace_free "{" "?name,label}" "" (Store.upload_endpoint id)).
  - apply append_empty_r.
  - unfold Store.upload_endpoint. rewrite !free_of_append.
    rewrite (str_free_of "{" id eq_refl eq_refl). reflexivity.
Qed.

Lemma upload_endpoint_inj (a b : Z) :
  Store.upload_endpoint a = Store.upload_endpoint b -> a = b.
Proof.
  unfold Store.upload_endpoint. intros H.
  apply append_inv_head, append_inv_tail in H. now apply str_inj.
Qed.

Lemma upload_endpoint_eqb (a b : Z) :
  (Store.upload_endpoint a =? Store.upload_endpoint b)%string = (a =? b).
Proof.
  destruct (Z.eqb_spec a b) as [-> | Hne].
  - apply String.eqb_refl.
  - apply String.eqb_neq. intros H. now apply upload_endpoint_inj in H.
Qed.

Lemma upload_url_set (id : Z) : unset (Some (Store.upload_url id)) = false.
Proof. reflexivity. Qed.

(** ** The store under the loop over the listing *)

Lemma NoDup_app_disjoint {A : Type} (l1 l2 : list A) :
  NoDup (l1 ++ l2) -> forall a, In a l1 -> ~ In a l2.
Proof.
  induction l1 as [| x l1 IH]; simpl; intros H a Ha; [contradiction |].
  apply NoDup_cons_iff in H. destruct H as [Hx Hnd].
  destruct Ha as [<- | Ha].
  - intros H2. apply Hx. apply in_or_app. now right.
  - now apply IH.
Qed.

Lemma set_assets_same (r : Release) : Store.set_assets r (assets r) = r.
Proof. now destruct r. Qed.

Lemma asset_ids_app (rs1 rs2 : list Release) :
  asset_ids (rs1 ++ rs2) = asset_ids rs1 ++ asset_ids rs2.
Proof. apply flat_map_app. Qed.

Lemma filter_other_ids (id : Z) (l : list Asset) :
  ~ In id (map asset_id l) ->
  filter (fun a => negb (asset_id a =? id)) l = l.
Proof.
  induction l as [| a l IH]; simpl; intros H; [reflexivity |].
  destruct (Z.eqb_spec (asset_id a) id) as [E | _]; [tauto |].
  simpl. f_equal. apply IH. tauto.
Qed.

Lemma drop_asset_absent (id : Z) (r : Release) :
  ~ In id (map asset_id (assets r)) -> Store.drop_asset id r = r.
Proof.
  intros H. unfold Store.drop_asset. rewrite (filter_other_ids id _ H).
  apply set_assets_same.
Qed.

Lemma drop_asset_absent_all (id : Z) (rs : list Release) :
  ~ In id (asset_ids rs) -> map (Store.drop_asset id) rs = rs.
Proof.
  induction rs as [| r rs IH]; simpl; intros H; [reflexivity |].
  unfold asset_ids in H. simpl in H. fold (asset_ids rs) in H.
  rewrite drop_asset_absent, IH; [reflexivity | |];
    intros Hin; apply H, in_or_app; tauto.
Qed.

(** Deleting by identifier the first asset with the name removes that
    asset alone, the identifiers being unique. *)
Lemma filter_first_named (name : string) (l : list Asset) (a : Asset) :
  NoDup (map asset_id l) -> find (named name) l = Some a ->
  filter (fun x => negb (asset_id x =? asset_id a)) l
  = remove_first_named name l.
Proof.
  induction l as [| x l IH]; simpl; intros Hnd Hfind; [discriminate |].
  apply NoDup_cons_iff in Hnd. destruct Hnd as [Hx Hnd].
  destruct (named name x) eqn:Hn.
  - injection Hfind as ->. rewrite Z.eqb_refl. simpl.
    now apply filter_other_ids.
  - destruct (Z.eqb_spec (asset_id x) (asset_id a)) as [E | _].
    + exfalso. apply Hx. rewrite E. apply in_map.
      now apply find_some in Hfind.
    + simpl. f_equal. now apply IH.
Qed.

Lemma remove_first_absent (name : string) (l : list Asset) :
  find (named name) l = None -> remove_first_named name l = l.
Proof.
  induction l as [| x l IH]; simpl; [reflexivity |].
  destruct (named name x); [discriminate |]. intros H. f_equal. auto.
Qed.

Lemma has_asset_found (name : string) (r : Release) (a : Asset) :
  find (named name) (assets r) = Some a ->
  Store.has_asset (asset_id a) r = true.
Proof.
  intros H. apply find_some in H. destruct H as [Hin _].
  unfold Store.has_asset. apply existsb_exists. exists a.
  split; [exact Hin | apply Z.eqb_refl].
Qed.

Lemma with_store_twice (rs1 rs2 : list Release) (ev1 ev2 : list Event)
  (w : World) :
  with_store rs2 ev2 (with_store rs1 ev1 w) = with_store rs2 (ev1 ++ ev2) w.
Proof. unfold with_store. simpl. now rewrite <- List.app_assoc. Qed.

Lemma with_store_same (w : World) :
  with_store (releases (remote w)) [] w = w.
Proof.
  unfold with_store. rewrite List.app_nil_r.
  destruct w as [[rs n fs] f o l]. reflexivity.
Qed.

Lemma requests_of_app (ev1 ev2 : list Event) :
  requests_of (ev1 ++ ev2) = requests_of ev1 ++ requests_of ev2.
Proof. apply flat_map_app. Qed.

(** A request to a store that is up. *)
Lemma http_up (req : Request) (w : World) :
  faults (remote w) = [] ->
  http req w
  = (Ok (fst (Store.handle (remote w) req)),
     mkWorld (snd (Store.handle (remote w) req)) (files w) (objdump w)
             (log w ++ [ERequest req])).
Proof.
  intros Hup. unfold http, Store.serve. rewrite Hup.
  now destruct (Store.handle (remote w) req).
Qed.

(** The loop over the assets of one release: the first asset with the
    name, if there is one and the store still holds it, is deleted. *)
Lemma scan_assets_run (args : Args) (tag name : string) (r : Release)
  (w : World) :
  faults (remote w) = [] ->
  (forall a, find (named name) (assets r) = Some a ->
             existsb (Store.has_asset (asset_id a)) (releases (remote w)) = true) ->
  scan_assets args tag name (map Store.asset_json (assets r)) w
  = (Ok tt,
     match find (named name) (assets r) with
     | Some a =>
         with_store (map (Store.drop_asset (asset_id a)) (releases (remote w)))
                    [EPrint ("Deleting " +++ name +++ " on GitHub.");
                     ERequest (DeleteAsset (gh_org args) "llvm" (asset_id a)
                                           tag (auth_of args))] w
     | None => w
     end).
Proof.
  intros Hup. generalize (assets r) as l.
  induction l as [| x l IH]; intros Hheld; [reflexivity |].
  cbn [map scan_assets find Store.asset_json json_name].
  cbn [find] in Hheld.
  destruct (named name x) eqn:Hn; unfold named in Hn; rewrite Hn; cbn [negb].
  - specialize (Hheld x eq_refl).
    unfold bind at 1. unfold print at 1.
    unfold bind at 1. rewrite http_up by exact Hup.
    cbn [remote files objdump log emit Store.handle].
    change (json_id (Store.asset_json x)) with (asset_id x).
    rewrite Hheld. cbn [fst snd status_code Z.eqb Pos.eqb negb].
    unfold ret, with_store. rewrite Hup, <- List.app_assoc. reflexivity.
  - apply IH. exact Hheld.
Qed.

Lemma remove_first_ids (name : string) (l : list Asset) (id : Z) :
  In id (map asset_id (remove_first_named name l)) -> In id (map asset_id l).
Proof.
  induction l as [| x l IH]; simpl; [tauto |].
  destruct (named name x); simpl; tauto.
Qed.

Lemma reconcile_ids (tag name : string) (r : Release) (id : Z) :
  In id (map asset_id (assets (reconcile tag name r))) ->
  In id (map asset_id (assets r)).
Proof.
  unfold reconcile. destruct (tagged tag r); [| tauto].
  apply remove_first_ids.
Qed.

Lemma reconcile_id (tag name : string) (r : Release) :
  release_id (reconcile tag name r) = release_id r.
Proof. unfold reconcile. now destruct (tagged tag r). Qed.

Lemma reconcile_tag (tag name : string) (r : Release) :
  tag_name (reconcile tag name r) = tag_name r.
Proof. unfold reconcile. now destruct (tagged tag r). Qed.

Lemma asset_ids_cons (r : Release) (rs : list Release) :
  asset_ids (r :: rs) = map asset_id (assets r) ++ asset_ids rs.
Proof. reflexivity. Qed.

(** The store after the deletion the loop asks for in the release [r]. *)
Lemma drop_doomed (tag name : string) (done rest : list Release)
  (r : Release) (a : Asset) :
  tagged tag r = true ->
  NoDup (asset_ids (r :: rest)) ->
  (forall id, In id (asset_ids done) -> ~ In id (asset_ids (r :: rest))) ->
  find (named name) (assets r) = Some a ->
  map (Store.drop_asset (asset_id a)) (done ++ r :: rest)
  = done ++ reconcile tag name r :: rest.
Proof.
  intros Ht Hnd Hdis Hfind. rewrite asset_ids_cons in Hnd, Hdis.
  assert (Hin : In (asset_id a) (map asset_id (assets r))).
  { apply in_map. now apply find_some in Hfind. }
  rewrite map_app. cbn [map].
  rewrite (drop_asset_absent_all (asset_id a) done).
  2:{ intros H. apply (Hdis _ H). apply in_or_app. now left. }
  rewrite (drop_asset_absent_all (asset_id a) rest).
  2:{ now apply (NoDup_app_disjoint _ _ Hnd). }
  unfold Store.drop_asset, reconcile. rewrite Ht.
  rewrite (filter_first_named name (assets r) a); [reflexivity | | exact Hfind].
  now apply NoDup_app_remove_r in Hnd.
Qed.

Lemma with_store_emit (rs : list Release) (e : Event) (events : list Event)
  (w : World) :
  with_store rs events (emit e w) = with_store rs (e :: events) w.
Proof. unfold with_store, emit. simpl. now rewrite <- List.app_assoc. Qed.

(** One release with the tag under the loop. *)
Lemma scan_tagged_release (args : Args) (tag name : string)
  (done rest : list Release) (r : Release) (w : World) :
  faults (remote w) = [] ->
  releases (remote w) = done ++ r :: rest ->
  tagged tag r = true ->
  NoDup (asset_ids (r :: rest)) ->
  (forall id, In id (asset_ids done) -> ~ In id (asset_ids (r :: rest))) ->
  exists events,
    (print ("Version " +++ tag +++ " already released.") ;;
     scan_assets args tag name (map Store.asset_json (assets r))) w
    = (Ok tt, with_store (done ++ reconcile tag name r :: rest) events w) /\
    requests_of events
    = map (fun id => DeleteAsset (gh_org args) "llvm" id tag (auth_of args))
          (doomed_in name r).
Proof.
  intros Hup Hrs Ht Hnd Hdis. unfold bind, print.
  rewrite scan_assets_run.
  - unfold doomed_in. destruct (find (named name) (assets r)) as [a |] eqn:Hfind.
    + eexists. split.
      * f_equal. cbn [emit remote releases].
        rewrite Hrs, (drop_doomed tag name done rest r a Ht Hnd Hdis Hfind).
        apply with_store_emit.
      * reflexivity.
    + exists [EPrint ("Version " +++ tag +++ " already released.")]. split.
      * f_equal. unfold reconcile. rewrite Ht.
        rewrite (remove_first_absent name _ Hfind), set_assets_same, <- Hrs.
        unfold emit, with_store. now destruct (remote w).
      * reflexivity.
  - exact Hup.
  - intros a Hfind. cbn [emit remote]. rewrite Hrs, existsb_app. cbn [existsb].
    rewrite (has_asset_found name r a Hfind). apply orb_true_r.
Qed.

(** The loop over the listing of a store that is up: each release with
    the tag loses its first asset with the name, and the upload URL is
    that of the last release with the tag. *)
Lemma scan_releases_run (args : Args) (tag name : string)
  (todo : list Release) :
  forall (done : list Release) (url : option string) (w : World),
    faults (remote w) = [] ->
    releases (remote w) = done ++ todo ->
    NoDup (asset_ids todo) ->
    (forall id, In id (asset_ids done) -> ~ In id (asset_ids todo)) ->
    exists events,
      scan_releases args tag name (map Store.release_json todo) url w
      = (Ok (match last_tagged tag todo with
             | Some id => Some (Store.upload_url id)
             | None => url
             end),
         with_store (done ++ map (reconcile tag name) todo) events w) /\
      requests_of events
      = map (fun id => DeleteAsset (gh_org args) "llvm" id tag (auth_of args))
            (doomed tag name todo).
Proof.
  induction todo as [| r rest IH]; intros done url w Hup Hrs Hnd Hdis.
  - exists []. split; [| reflexivity].
    cbn [map scan_releases last_tagged]. unfold ret.
    rewrite <- Hrs. now rewrite with_store_same.
  - assert (Hnd' : NoDup (asset_ids rest)).
    { rewrite asset_ids_cons in Hnd. now apply NoDup_app_remove_l in Hnd. }
    assert (Hdis' : forall r', (forall id, In id (map asset_id (assets r')) ->
                                           In id (map asset_id (assets r))) ->
              forall id, In id (asset_ids (done ++ [r'])) ->
                         ~ In id (asset_ids rest)).
    { intros r' Hsub id Hin. rewrite asset_ids_app, asset_ids_cons in Hin.
      cbn [asset_ids flat_map] in Hin. rewrite List.app_nil_r in Hin.
      apply in_app_or in Hin. destruct Hin as [Hin | Hin].
      - intros H. apply (Hdis id Hin). rewrite asset_ids_cons.
        apply in_or_app. now right.
      - rewrite asset_ids_cons in Hnd.
        apply (NoDup_app_disjoint _ _ Hnd). now apply Hsub. }
    cbn [map scan_releases last_tagged].
    change (json_tag_name (Store.release_json r) =? tag)%string
      with (tagged tag r).
    change (json_assets (Store.release_json r))
      with (map Store.asset_json (assets r)).
    change (json_upload_url (Store.release_json r))
      with (Store.upload_url (release_id r)).
    destruct (tagged tag r) eqn:Ht; cbn [negb].
    + destruct (scan_tagged_release args tag name done rest r w
                  Hup Hrs Ht Hnd Hdis) as (ev1 & E1 & R1).
      unfold bind in E1.
      unfold bind at 1. unfold bind at 1.
      destruct (print ("Version " +++ tag +++ " already released.") w)
        as [[[] | e] w1]; [| discriminate E1].
      rewrite E1.
      destruct (IH (done ++ [reconcile tag name r])
                   (Some (Store.upload_url (release_id r)))
                   (with_store (done ++ reconcile tag name r :: rest) ev1 w))
        as (ev2 & E2 & R2).
      * exact Hup.
      * cbn [with_store remote releases]. now rewrite <- List.app_assoc.
      * exact Hnd'.
      * apply Hdis'. apply reconcile_ids.
      * exists (ev1 ++ ev2). split.
        -- rewrite E2, with_store_twice, <- List.app_assoc.
           cbn [app]. now destruct (last_tagged tag rest).
        -- rewrite requests_of_app, R1, R2. unfold doomed. cbn [flat_map].
           rewrite Ht. now rewrite map_app.
    + destruct (IH (done ++ [r]) url w) as (ev & E & R).
      * exact Hup.
      * now rewrite <- List.app_assoc.
      * exact Hnd'.
      * apply Hdis'. tauto.
      * exists ev. split.
        -- rewrite E, <- List.app_assoc. cbn [app].
           unfold reconcile at 2. rewrite Ht.
           now destruct (last_tagged tag rest).
        -- rewrite R. unfold doomed. cbn [flat_map]. now rewrite Ht.
Qed.

(** ** UploadLlvm on a store that is up *)

Lemma bind_ok {A B : Type} (m : M A) (k : A -> M B) (w w' : World) (a : A) :
  m w = (Ok a, w') -> bind m k w = k a w'.
Proof. intros H. unfold bind. now rewrite H. Qed.

Lemma receive_absent (id : Z) (a : Asset) (rs : list Release) :
  ~ In id (map release_id rs) -> map (receive id a) rs = rs.
Proof.
  induction rs as [| r rs IH]; simpl; intros H; [reflexivity |].
  unfold receive at 1.
  destruct (Z.eqb_spec (release_id r) id) as [E | _]; [tauto |].
  f_equal. apply IH. tauto.
Qed.

(** The upload URL of a release leads to that release alone. *)
Lemma add_asset_receive (id : Z) (a : Asset) (rs : list Release) :
  NoDup (map release_id rs) -> In id (map release_id rs) ->
  Store.add_asset (Store.upload_endpoint id) a rs
  = Some (map (receive id a) rs).
Proof.
  induction rs as [| r rs IH]; cbn [Store.add_asset map In];
    intros Hnd Hin; [contradiction |].
  apply NoDup_cons_iff in Hnd. destruct Hnd as [Hr Hnd].
  rewrite upload_endpoint_eqb. unfold receive at 1.
  destruct (Z.eqb_spec (release_id r) id) as [E | Hne].
  - subst id. now rewrite (receive_absent _ a rs Hr).
  - destruct Hin as [E | Hin]; [contradiction |].
    now rewrite (IH Hnd Hin).
Qed.

Lemma add_asset_unknown (id : Z) (a : Asset) (rs : list Release) :
  ~ In id (map release_id rs) ->
  Store.add_asset (Store.upload_endpoint id) a rs = None.
Proof.
  induction rs as [| r rs IH]; cbn [Store.add_asset map In];
    intros H; [reflexivity |].
  rewrite upload_endpoint_eqb.
  destruct (Z.eqb_spec (release_id r) id) as [E | _]; [tauto |].
  rewrite IH; [reflexivity | tauto].
Qed.

Lemma last_tagged_in (tag : string) (rs : list Release) (id : Z) :
  last_tagged tag rs = Some id ->
  exists r, In r rs /\ tagged tag r = true /\ release_id r = id.
Proof.
  induction rs as [| r rs IH]; simpl; [discriminate |].
  destruct (last_tagged tag rs) as [id' |].
  - intros H. injection H as <-. destruct (IH eq_refl) as (r' & Hin & H').
    exists r'. tauto.
  - destruct (tagged tag r) eqn:Ht; [| discriminate].
    intros H. injection H as <-. exists r. tauto.
Qed.

Lemma last_tagged_none (tag : string) (rs : list Release) :
  last_tagged tag rs = None <-> filter (tagged tag) rs = [].
Proof.
  induction rs as [| r rs IH]; simpl; [tauto |].
  destruct (last_tagged tag rs) as [id |].
  - split; [discriminate |]. intros H.
    destruct (tagged tag r); [discriminate |].
    apply IH in H. discriminate.
  - destruct (tagged tag r); split; try discriminate; tauto.
Qed.

Lemma reconcile_release_ids (tag name : string) (rs : list Release) :
  map release_id (map (reconcile tag name) rs) = map release_id rs.
Proof.
  rewrite map_map. apply map_ext. intros r. apply reconcile_id.
Qed.

Lemma reconcile_untagged (tag name : string) (rs : list Release) :
  filter (tagged tag) rs = [] -> map (reconcile tag name) rs = rs.
Proof.
  induction rs as [| r rs IH]; simpl; [reflexivity |].
  unfold reconcile at 1. destruct (tagged tag r); [discriminate |].
  intros H. now rewrite (IH H).
Qed.

Lemma doomed_untagged (tag name : string) (rs : list Release) :
  filter (tagged tag) rs = [] -> doomed tag name rs = [].
Proof.
  induction rs as [| r rs IH]; simpl; [reflexivity |].
  destruct (tagged tag r); [discriminate | exact IH].
Qed.

(** The listing and the loop over it, whatever comes next. *)
Lemma locate_run {B : Type} (args : Args) (tag name : string) (w : World)
  (next : option string -> M B) :
  faults (remote w) = [] -> NoDup (asset_ids (releases (remote w))) ->
  exists events,
    (response <- http (GetReleases (gh_org args) "llvm" (auth_of args)) ;;
     (if negb (status_code response =? 200)
      then message <- json_message response ;;
           sys_exit ("Getting releases failed with message: " +++ message)
      else ret tt) ;;
     listing <- match body response with
                | JReleases l => ret l
                | _ => raise (TypeError "string indices must be integers")
                end ;;
     upload_url <- scan_releases args tag name listing None ;;
     next upload_url) w
    = next (option_map Store.upload_url
                       (last_tagged tag (releases (remote w))))
           (with_store (map (reconcile tag name) (releases (remote w)))
                       (ERequest (GetReleases (gh_org args) "llvm" (auth_of args))
                          :: events) w) /\
    requests_of events
    = map (fun id => DeleteAsset (gh_org args) "llvm" id tag (auth_of args))
          (doomed tag name (releases (remote w))).
Proof.
  intros Hup Hnd.
  destruct (scan_releases_run args tag name (releases (remote w)) [] None
              (emit (ERequest (GetReleases (gh_org args) "llvm" (auth_of args))) w))
    as (events & E & R); try assumption; try reflexivity.
  { intros id []. }
  exists events. split; [| exact R].
  rewrite (bind_ok _ _ _ _ _ (http_up _ w Hup)).
  cbn [Store.handle fst snd status_code body].
  unfold bind at 1. cbn [Z.eqb Pos.eqb negb]. unfold ret at 1.
  unfold bind at 1. unfold ret at 1.
  replace (mkWorld (remote w) (files w) (objdump w)
             (log w ++ [ERequest (GetReleases (gh_org args) "llvm" (auth_of args))]))
    with (emit (ERequest (GetReleases (gh_org args) "llvm" (auth_of args))) w)
    by reflexivity.
  rewrite (bind_ok _ _ _ _ _ E). cbn [app]. rewrite with_store_emit.
  now destruct (last_tagged tag (releases (remote w))).
Qed.

(** The upload of the archive to the release [id]. *)
Lemma upload_run (args : Args) (bundle_path bundle_name data : string)
  (id : Z) (w : World) :
  faults (remote w) = [] ->
  lookup bundle_path (files w) = Some data ->
  NoDup (map release_id (releases (remote w))) ->
  In id (map release_id (releases (remote w))) ->
  (let upload_url := Py.replace (Store.upload_url id) "{?name,label}" "" in
   bundle <- open_rb bundle_path ;;
   print ("Uploading " +++ bundle_name +++ " on GitHub.") ;;
   response <- http (PostAsset upload_url bundle_name "application/x-xz" bundle
                               (auth_of args)) ;;
   if negb (status_code response =? 201)
   then message <- json_message response ;;
        sys_exit ("Uploading failed with message: " +++ message)
   else ret tt) w
  = (Ok tt,
     mkWorld (mkRemote (map (receive id (mkAsset (next_id (remote w))
                                                 bundle_name data))
                            (releases (remote w)))
                       (next_id (remote w) + 1) [])
             (files w) (objdump w)
             (log w ++ [EPrint ("Uploading " +++ bundle_name +++ " on GitHub.");
                        ERequest (PostAsset (Store.upload_endpoint id)
                                            bundle_name "application/x-xz" data
                                            (auth_of args))])).
Proof.
  intros Hup Hfile Hnd Hin. cbv zeta. rewrite replace_upload_url.
  unfold bind at 1. unfold open_rb. rewrite Hfile.
  unfold bind at 1. unfold print at 1.
  rewrite (bind_ok _ _ _ _ _ (http_up _ (emit _ w) Hup)).
  cbn [emit remote files objdump log Store.handle].
  rewrite (add_asset_receive id _ _ Hnd Hin).
  cbn [fst snd status_code Z.eqb Pos.eqb negb]. unfold ret.
  rewrite Hup, <- List.app_assoc. reflexivity.
Qed.

(** The run of [UploadLlvm] when a release bears the tag: the loop over
    the listing, then the upload to the last release with the tag. *)
Lemma UploadLlvm_found (args : Args) (bundle_path data : string) (target : Z)
  (w : World) :
  faults (remote w) = [] -> store_ok (remote w) ->
  lookup bundle_path (files w) = Some data ->
  last_tagged (GetBundleVersion args) (releases (remote w)) = Some target ->
  exists events,
    UploadLlvm args bundle_path w
    = (Ok tt,
       mkWorld
         (mkRemote
            (map (fun r =>
                    receive target
                            (mkAsset (next_id (remote w)) (basename bundle_path) data)
                            (reconcile (GetBundleVersion args)
                                       (basename bundle_path) r))
                 (releases (remote w)))
            (next_id (remote w) + 1) [])
         (files w) (objdump w) (log w ++ events)) /\
    requests_of events
    = GetReleases (gh_org args) "llvm" (auth_of args)
      :: map (fun id => DeleteAsset (gh_org args) "llvm" id
                                    (GetBundleVersion args) (auth_of args))
             (doomed (GetBundleVersion args) (basename bundle_path)
                     (releases (remote w)))
      ++ [PostAsset (Store.upload_endpoint target) (basename bundle_path)
                    "application/x-xz" data (auth_of args)].
Proof.
  intros Hup [Hrel Hast _ _] Hfile Hlast.
  unfold UploadLlvm. cbv zeta.
  match goal with
  | |- exists _, bind _ (fun _ => bind _ (fun _ => bind _ (fun _ => bind _ ?k))) _ = _ /\ _ =>
      destruct (locate_run args (GetBundleVersion args) (basename bundle_path)
                           w k Hup Hast) as (events & E & R)
  end.
  rewrite E, Hlast. cbn [option_map]. rewrite upload_url_set.
  rewrite (bind_ok _ _ _ _ _ (eq_refl : ret _ _ = (Ok _, _))).
  eexists. split.
  - etransitivity.
    + apply (upload_run args bundle_path (basename bundle_path) data target).
      * exact Hup.
      * exact Hfile.
      * cbn [with_store remote releases]. now rewrite reconcile_release_ids.
      * cbn [with_store remote releases]. rewrite reconcile_release_ids.
        destruct (last_tagged_in _ _ _ Hlast) as (r & Hin & _ & <-).
        now apply in_map.
    + cbn [with_store remote releases next_id files objdump log].
      rewrite map_map, <- List.app_assoc. reflexivity.
  - rewrite requests_of_app.
    change (requests_of (ERequest ?r :: events))
      with (r :: requests_of events).
    now rewrite R.
Qed.

(** The run of [UploadLlvm] when no release bears the tag: the release is
    created, then the archive is uploaded to it. *)
Lemma UploadLlvm_creates (args : Args) (bundle_path data : string) (w : World) :
  faults (remote w) = [] -> store_ok (remote w) ->
  lookup bundle_path (files w) = Some data ->
  last_tagged (GetBundleVersion args) (releases (remote w)) = None ->
  exists events,
    UploadLlvm args bundle_path w
    = (Ok tt,
       mkWorld
         (mkRemote
            (releases (remote w)
               ++ [mkRelease (next_id (remote w)) (GetBundleVersion args)
                             (created_name args) (created_body args)
                             (created_prerelease args)
                             [mkAsset (next_id (remote w) + 1)
                                      (basename bundle_path) data]])
            (next_id (remote w) + 1 + 1) [])
         (files w) (objdump w) (log w ++ events)) /\
    requests_of events
    = [GetReleases (gh_org args) "llvm" (auth_of args);
       create_request args;
       upload_request args bundle_path data (next_id (remote w))].
Proof.
  intros Hup [Hrel Hast Hbelow _] Hfile Hlast.
  pose proof (proj1 (last_tagged_none _ _) Hlast) as Hnone.
  unfold UploadLlvm. cbv zeta.
  match goal with
  | |- exists _, bind _ (fun _ => bind _ (fun _ => bind _ (fun _ => bind _ ?k))) _ = _ /\ _ =>
      destruct (locate_run args (GetBundleVersion args) (basename bundle_path)
                           w k Hup Hast) as (events & E & R)
  end.
  rewrite E, Hlast. cbn [option_map unset].
  rewrite (reconcile_untagged _ _ _ Hnone).
  rewrite (doomed_untagged _ _ _ Hnone) in R.
  set (w1 := with_store (releases (remote w)) _ w).
  assert (Hup1 : faults (remote w1) = []) by exact Hup.
  match goal with
  | |- exists _, bind ?m _ _ = _ /\ _ =>
      assert (C : m w1
                  = (Ok (Store.upload_url (next_id (remote w))),
                     mkWorld
                       (mkRemote
                          (releases (remote w)
                             ++ [mkRelease (next_id (remote w))
                                           (GetBundleVersion args)
                                           (created_name args) (created_body args)
                                           (created_prerelease args) []])
                          (next_id (remote w) + 1) [])
                       (files w) (objdump w)
                       (log w1 ++ [EPrint ("Releasing " +++ GetBundleVersion args
                                             +++ " on GitHub.");
                                   ERequest (create_request args)])))
  end.
  { unfold bind at 1. unfold print at 1.
    rewrite (bind_ok _ _ _ _ _ (http_up _ (emit _ w1) Hup1)).
    cbn [emit remote files objdump log Store.handle fst snd status_code body].
    unfold bind at 1. cbn [Z.eqb Pos.eqb negb]. unfold ret.
    subst w1. cbn [with_store remote releases next_id faults files objdump].
    rewrite Hup, <- List.app_assoc. reflexivity. }
  rewrite (bind_ok _ _ _ _ _ C). clear C.
  eexists. split.
  - etransitivity.
    + apply (upload_run args bundle_path (basename bundle_path) data
                        (next_id (remote w))).
      * reflexivity.
      * exact Hfile.
      * cbn [remote releases]. rewrite map_app. cbn [map release_id].
        apply NoDup_app.
        -- exact Hrel.
        -- repeat constructor. intros [].
        -- intros id Hid [<- | []].
           rewrite Forall_forall in Hbelow. specialize (Hbelow _ Hid). lia.
      * cbn [remote releases]. rewrite map_app. cbn [map release_id].
        apply in_or_app. right. now left.
    + cbn [remote releases next_id files objdump log].
      rewrite map_app. rewrite receive_absent.
      2:{ intros Hid. rewrite Forall_forall in Hbelow.
          specialize (Hbelow _ Hid). lia. }
      cbn [map]. unfold receive. cbn [release_id]. rewrite Z.eqb_refl.
      subst w1. cbn [with_store log]. rewrite <- !List.app_assoc.
      reflexivity.
  - rewrite !requests_of_app.
    change (requests_of (ERequest ?r :: events))
      with (r :: requests_of events).
    rewrite R. reflexivity.
Qed.

(** ** The identifiers of the store stay in order *)

Lemma occ_remove_first (name : string) (l : list Asset) (y : Z) :
  (count_occ Z.eq_dec (map asset_id (remove_first_named name l)) y
   <= count_occ Z.eq_dec (map asset_id l) y)%nat.
Proof.
  induction l as [| x l IH]; simpl; [lia |].
  destruct (named name x); simpl; destruct (Z.eq_dec (asset_id x) y); lia.
Qed.

Lemma assets_published (tag name : string) (target : Z) (a : Asset)
  (r : Release) :
  assets (receive target a (reconcile tag name r))
  = (if tagged tag r then remove_first_named name (assets r) else assets r)
    ++ (if release_id r =? target then [a] else []).
Proof.
  unfold receive. rewrite reconcile_id. unfold reconcile.
  destruct (tagged tag r), (release_id r =? target); cbn [Store.set_assets assets];
    now rewrite ?List.app_nil_r.
Qed.

Lemma occ_published_old (tag name : string) (target : Z) (a : Asset)
  (r : Release) (y : Z) :
  y <> asset_id a ->
  (count_occ Z.eq_dec
     (map asset_id (assets (receive target a (reconcile tag name r)))) y
   <= count_occ Z.eq_dec (map asset_id (assets r)) y)%nat.
Proof.
  intros Hy. rewrite assets_published, map_app, count_occ_app.
  assert (H0 : count_occ Z.eq_dec
                 (map asset_id (if release_id r =? target then [a] else [])) y
               = 0%nat).
  { destruct (release_id r =? target); simpl; [| reflexivity].
    destruct (Z.eq_dec (asset_id a) y); [congruence | reflexivity]. }
  rewrite H0. destruct (tagged tag r); [| lia].
  pose proof (occ_remove_first name (assets r) y). lia.
Qed.

Lemma occ_published_new (tag name : string) (target : Z) (a : Asset)
  (r : Release) :
  ~ In (asset_id a) (map asset_id (assets r)) ->
  count_occ Z.eq_dec
    (map asset_id (assets (receive target a (reconcile tag name r))))
    (asset_id a)
  = if release_id r =? target then 1%nat else 0%nat.
Proof.
  intros Hnew. apply (count_occ_not_In Z.eq_dec) in Hnew.
  rewrite assets_published, map_app, count_occ_app.
  assert (H0 : count_occ Z.eq_dec
                 (map asset_id (if tagged tag r
                                then remove_first_named name (assets r)
                                else assets r)) (asset_id a) = 0%nat).
  { destruct (tagged tag r); [| exact Hnew].
    pose proof (occ_remove_first name (assets r) (asset_id a)). lia. }
  rewrite H0. destruct (release_id r =? target); simpl; [| reflexivity].
  now destruct (Z.eq_dec (asset_id a) (asset_id a)).
Qed.

Lemma occ_store_old (tag name : string) (target : Z) (a : Asset)
  (rs : list Release) (y : Z) :
  y <> asset_id a ->
  (count_occ Z.eq_dec
     (asset_ids (map (fun r => receive target a (reconcile tag name r)) rs)) y
   <= count_occ Z.eq_dec (asset_ids rs) y)%nat.
Proof.
  intros Hy. induction rs as [| r rs IH]; [simpl; lia |].
  cbn [map]. rewrite !asset_ids_cons, !count_occ_app.
  pose proof (occ_published_old tag name target a r y Hy). lia.
Qed.

Lemma occ_store_new (tag name : string) (target : Z) (a : Asset)
  (rs : list Release) :
  ~ In (asset_id a) (asset_ids rs) ->
  count_occ Z.eq_dec
    (asset_ids (map (fun r => receive target a (reconcile tag name r)) rs))
    (asset_id a)
  = count_occ Z.eq_dec (map release_id rs) target.
Proof.
  induction rs as [| r rs IH]; intros Hnew; [reflexivity |].
  rewrite asset_ids_cons in Hnew.
  cbn [map]. rewrite asset_ids_cons, count_occ_app.
  rewrite occ_published_new, IH.
  - cbn [count_occ].
    destruct (Z.eqb_spec (release_id r) target) as [E | Hne];
      destruct (Z.eq_dec (release_id r) target); try contradiction; lia.
  - intros H. apply Hnew, in_or_app. now right.
  - intros H. apply Hnew, in_or_app. now left.
Qed.

Lemma published_release_ids (tag name : string) (target : Z) (a : Asset)
  (rs : list Release) :
  map release_id (map (fun r => receive target a (reconcile tag name r)) rs)
  = map release_id rs.
Proof.
  rewrite map_map. apply map_ext. intros r.
  unfold receive. rewrite reconcile_id.
  destruct (release_id r =? target); cbn [Store.set_assets release_id];
    apply reconcile_id.
Qed.

(** The store after [UploadLlvm] found the release. *)
Lemma store_ok_found (st : Remote) (tag name data : string) (target : Z)
  (outages : list bool) :
  store_ok st ->
  store_ok (mkRemote
              (map (fun r => receive target (mkAsset (next_id st) name data)
                                     (reconcile tag name r))
                   (releases st))
              (next_id st + 1) outages).
Proof.
  intros [Hrel Hast Hrb Hab].
  assert (Hnew : ~ In (next_id st) (asset_ids (releases st))).
  { intros H. rewrite Forall_forall in Hab. specialize (Hab _ H). lia. }
  split; cbn [releases next_id].
  - now rewrite published_release_ids.
  - apply (NoDup_count_occ Z.eq_dec). intros y.
    destruct (Z.eq_dec y (next_id st)) as [-> | Hy].
    + pose proof (occ_store_new tag name target
                    (mkAsset (next_id st) name data) (releases st) Hnew) as H.
      cbn [asset_id] in H. rewrite H.
      now apply (NoDup_count_occ Z.eq_dec).
    + pose proof (occ_store_old tag name target (mkAsset (next_id st) name data)
                    (releases st) y Hy).
      pose proof (proj1 (NoDup_count_occ Z.eq_dec _) Hast y). lia.
  - rewrite published_release_ids.
    apply Forall_impl with (2 := Hrb). intros; lia.
  - apply Forall_forall. intros y Hin.
    destruct (Z.eq_dec y (next_id st)) as [-> | Hy]; [lia |].
    apply (count_occ_In Z.eq_dec) in Hin.
    pose proof (occ_store_old tag name target (mkAsset (next_id st) name data)
                  (releases st) y Hy).
    assert (Hold : In y (asset_ids (releases st))).
    { apply (count_occ_In Z.eq_dec). lia. }
    rewrite Forall_forall in Hab. specialize (Hab _ Hold). lia.
Qed.

(** The store after [UploadLlvm] created the release. *)
Lemma store_ok_created (st : Remote) (tag title text name data : string)
  (pre : bool) (outages : list bool) :
  store_ok st ->
  store_ok (mkRemote
              (releases st
                 ++ [mkRelease (next_id st) tag title text pre
                               [mkAsset (next_id st + 1) name data]])
              (next_id st + 1 + 1) outages).
Proof.
  intros [Hrel Hast Hrb Hab].
  split; cbn [releases next_id].
  - rewrite map_app. cbn [map release_id]. apply NoDup_app.
    + exact Hrel.
    + repeat constructor. intros [].
    + intros id Hid [<- | []]. rewrite Forall_forall in Hrb.
      specialize (Hrb _ Hid). lia.
  - rewrite asset_ids_app. cbn [asset_ids flat_map map assets asset_id app].
    apply NoDup_app.
    + exact Hast.
    + repeat constructor. intros [].
    + intros id Hid [<- | []]. rewrite Forall_forall in Hab.
      specialize (Hab _ Hid). lia.
  - rewrite map_app. cbn [map release_id]. apply Forall_app. split.
    + apply Forall_impl with (2 := Hrb). intros; lia.
    + repeat constructor. lia.
  - rewrite asset_ids_app. cbn [asset_ids flat_map map assets asset_id app].
    apply Forall_app. split.
    + apply Forall_impl with (2 := Hab). intros; lia.
    + repeat constructor. lia.
Qed.

(** ** Reconcile: what is deleted, what is left *)

Lemma filter_remove_first (name : string) (l : list Asset) :
  filter (named name) (remove_first_named name l) = tl (filter (named name) l).
Proof.
  induction l as [| x l IH]; [reflexivity |]. cbn [remove_first_named filter].
  destruct (named name x) eqn:Hn; [reflexivity |].
  cbn [filter]. now rewrite Hn.
Qed.

Lemma count_published (tag name : string) (target : Z) (a : Asset)
  (r : Release) :
  tagged tag r = true -> asset_name a = name ->
  count_named name (receive target a (reconcile tag name r))
  = if release_id r =? target then Nat.max 1 (count_named name r)
    else Nat.pred (count_named name r).
Proof.
  intros Ht Ha. unfold count_named. rewrite assets_published, Ht, filter_app.
  rewrite length_app, filter_remove_first.
  assert (Hn : named name a = true).
  { unfold named. rewrite Ha. apply String.eqb_refl. }
  destruct (release_id r =? target); cbn [filter]; rewrite ?Hn;
    destruct (filter (named name) (assets r)); simpl; lia.
Qed.

(** C3, as the code has it.  When a release bears the tag, [UploadLlvm]
    succeeds on a store that is up; in every release with the tag it
    deletes the first asset with the name of the archive and no other;
    the archive goes to the last release with the tag.  That release then
    holds [max 1 k] assets with the name when it held [k] before, any
    other release with the tag one less than before. *)
Theorem Reconcile_deletes_first_only (args : Args) (bundle_path data : string)
  (target : Z) (w : World) :
  faults (remote w) = [] -> store_ok (remote w) ->
  lookup bundle_path (files w) = Some data ->
  last_tagged (GetBundleVersion args) (releases (remote w)) = Some target ->
  exists w' uploaded events,
    UploadLlvm args bundle_path w = (Ok tt, w') /\
    asset_name uploaded = basename bundle_path /\
    asset_data uploaded = data /\
    releases (remote w')
    = map (fun r => receive target uploaded
                            (reconcile (GetBundleVersion args)
                                       (basename bundle_path) r))
          (releases (remote w)) /\
    log w' = log w ++ events /\
    requests_of events
    = GetReleases (gh_org args) "llvm" (auth_of args)
      :: map (fun id => DeleteAsset (gh_org args) "llvm" id
                                    (GetBundleVersion args) (auth_of args))
             (doomed (GetBundleVersion args) (basename bundle_path)
                     (releases (remote w)))
      ++ [upload_request args bundle_path data target] /\
    forall r, In r (releases (remote w)) ->
              tagged (GetBundleVersion args) r = true ->
      count_named (basename bundle_path)
                  (receive target uploaded
                           (reconcile (GetBundleVersion args)
                                      (basename bundle_path) r))
      = if release_id r =? target
        then Nat.max 1 (count_named (basename bundle_path) r)
        else Nat.pred (count_named (basename bundle_path) r).
Proof.
  intros Hup Hok Hfile Hlast.
  destruct (UploadLlvm_found args bundle_path data target w Hup Hok Hfile Hlast)
    as (events & E & R).
  eexists. exists (mkAsset (next_id (remote w)) (basename bundle_path) data).
  exists events.
  split; [exact E |].
  repeat (split; [reflexivity |]).
  split; [exact R |].
  intros r _ Ht. now apply count_published.
Qed.

Lemma duplicated_world_ok : store_ok (remote duplicated_world).
Proof.
  split; cbn.
  - repeat constructor. intros [].
  - repeat constructor; cbn; intuition discriminate.
  - repeat constructor.
  - repeat constructor.
Qed.

(** The theorem at the store that holds the archive twice over. *)
Lemma Reconcile_deletes_first_only_witness :
  exists w' uploaded,
    UploadLlvm example_args example_path duplicated_world = (Ok tt, w') /\
    releases (remote w')
    = map (fun r => receive 1 uploaded (reconcile "18.1.0" example_name r))
          (releases (remote duplicated_world)).
Proof.
  destruct (Reconcile_deletes_first_only example_args example_path "archive" 1
              duplicated_world eq_refl duplicated_world_ok eq_refl eq_refl)
    as (w' & uploaded & events & E & _ & _ & Hrs & _).
  exists w', uploaded. split; [exact E | exact Hrs].
Defined.

(** C3, as the spec has it, fails: of two assets with the name of the
    archive only the first is deleted, and two are there after the upload. *)
Lemma Reconcile_leaves_duplicate :
  exists w',
    UploadLlvm example_args example_path duplicated_world = (Ok tt, w') /\
    map (count_named example_name)
        (filter (tagged "18.1.0") (releases (remote duplicated_world)))
    = [2%nat] /\
    requests_of (log w')
    = [GetReleases "ycm-core" "llvm" example_auth;
       DeleteAsset "ycm-core" "llvm" 2 "18.1.0" example_auth;
       upload_request example_args example_path "archive" 1] /\
    map (fun r => map asset_id (assets r)) (releases (remote w')) = [[3; 4]] /\
    map (count_named example_name)
        (filter (tagged "18.1.0") (releases (remote w')))
    = [2%nat].
Proof.
  eexists. split; [vm_compute; reflexivity |].
  repeat split; reflexivity.
Qed.

(** ** Publishing twice *)

Lemma published_tagged (tag name : string) (target : Z) (a : Asset)
  (r : Release) :
  tagged tag (receive target a (reconcile tag name r)) = tagged tag r.
Proof.
  unfold tagged, receive.
  destruct (release_id (reconcile tag name r) =? target);
    cbn [Store.set_assets tag_name]; now rewrite reconcile_tag.
Qed.

Lemma filter_tagged_published (tag name : string) (target : Z) (a : Asset)
  (rs : list Release) :
  filter (tagged tag)
         (map (fun r => receive target a (reconcile tag name r)) rs)
  = map (fun r => receive target a (reconcile tag name r))
        (filter (tagged tag) rs).
Proof.
  rewrite filter_map_swap. f_equal. apply filter_ext.
  intros r. apply published_tagged.
Qed.

Lemma last_tagged_single (tag : string) (rs : list Release) (r0 : Release) :
  filter (tagged tag) rs = [r0] -> last_tagged tag rs = Some (release_id r0).
Proof.
  induction rs as [| r rs IH]; cbn [filter last_tagged]; [discriminate |].
  destruct (tagged tag r) eqn:Ht.
  - intros H. injection H as -> H.
    now rewrite (proj2 (last_tagged_none tag rs) H).
  - intros H. now rewrite (IH H).
Qed.

Lemma doomed_single (tag name : string) (rs : list Release) (r0 : Release) :
  filter (tagged tag) rs = [r0] -> doomed tag name rs = doomed_in name r0.
Proof.
  induction rs as [| r rs IH]; cbn [filter]; [discriminate |].
  unfold doomed. cbn [flat_map]. fold (doomed tag name rs).
  destruct (tagged tag r) eqn:Ht.
  - intros H. injection H as -> H.
    now rewrite (doomed_untagged tag name rs H), List.app_nil_r.
  - intros H. now rewrite (IH H).
Qed.

Lemma doomed_in_one (name : string) (r : Release) :
  count_named name r = 1%nat -> exists id, doomed_in name r = [id].
Proof.
  unfold count_named, doomed_in. intros H.
  destruct (find (named name) (assets r)) as [a |] eqn:Hfind; [eauto |].
  assert (Hnone : filter (named name) (assets r) = []).
  { destruct (filter (named name) (assets r)) as [| x l] eqn:F; [reflexivity |].
    assert (Hx : In x (filter (named name) (assets r))) by (rewrite F; now left).
    apply filter_In in Hx. destruct Hx as [Hin Hn].
    now rewrite (find_none _ _ Hfind x Hin) in Hn. }
  rewrite Hnone in H. discriminate.
Qed.

(** Publishing to a store whose only release with the tag holds the
    archive at most once: the release is found, what it holds of the
    archive is deleted, and it holds the archive once afterwards. *)
Lemma publish_again (args : Args) (bundle_path data : string) (w : World)
  (r0 : Release) :
  faults (remote w) = [] -> store_ok (remote w) ->
  lookup bundle_path (files w) = Some data ->
  filter (tagged (GetBundleVersion args)) (releases (remote w)) = [r0] ->
  (count_named (basename bundle_path) r0 <= 1)%nat ->
  exists w' r1 events,
    UploadLlvm args bundle_path w = (Ok tt, w') /\
    faults (remote w') = [] /\ store_ok (remote w') /\ files w' = files w /\
    filter (tagged (GetBundleVersion args)) (releases (remote w')) = [r1] /\
    count_named (basename bundle_path) r1 = 1%nat /\
    log w' = log w ++ events /\
    requests_of events
    = GetReleases (gh_org args) "llvm" (auth_of args)
      :: map (fun id => DeleteAsset (gh_org args) "llvm" id
                                    (GetBundleVersion args) (auth_of args))
             (doomed_in (basename bundle_path) r0)
      ++ [upload_request args bundle_path data (release_id r0)].
Proof.
  intros Hup Hok Hfile Hone Hfew.
  pose proof (last_tagged_single _ _ _ Hone) as Hlast.
  destruct (UploadLlvm_found args bundle_path data (release_id r0) w
              Hup Hok Hfile Hlast) as (events & E & R).
  assert (Ht : tagged (GetBundleVersion args) r0 = true).
  { assert (H : In r0 (filter (tagged (GetBundleVersion args))
                              (releases (remote w)))) by (rewrite Hone; now left).
    now apply filter_In in H. }
  eexists. eexists. exists events.
  split; [exact E |]. cbn [remote faults files releases log].
  split; [reflexivity |].
  split; [now apply store_ok_found |].
  split; [reflexivity |].
  split; [rewrite filter_tagged_published, Hone; reflexivity |].
  split.
  - rewrite (count_published (GetBundleVersion args) (basename bundle_path)
               (release_id r0)
               (mkAsset (next_id (remote w)) (basename bundle_path) data)
               r0 Ht eq_refl), Z.eqb_refl. lia.
  - split; [reflexivity |].
    rewrite R, (doomed_single _ _ _ _ Hone). reflexivity.
Qed.

(** Publishing to a store with no release of the tag: the release is
    created and holds the archive once. *)
Lemma publish_fresh (args : Args) (bundle_path data : string) (w : World) :
  faults (remote w) = [] -> store_ok (remote w) ->
  lookup bundle_path (files w) = Some data ->
  filter (tagged (GetBundleVersion args)) (releases (remote w)) = [] ->
  exists w' r1 events,
    UploadLlvm args bundle_path w = (Ok tt, w') /\
    faults (remote w') = [] /\ store_ok (remote w') /\ files w' = files w /\
    filter (tagged (GetBundleVersion args)) (releases (remote w')) = [r1] /\
    count_named (basename bundle_path) r1 = 1%nat /\
    log w' = log w ++ events /\
    requests_of events
    = [GetReleases (gh_org args) "llvm" (auth_of args);
       create_request args;
       upload_request args bundle_path data (next_id (remote w))].
Proof.
  intros Hup Hok Hfile Hnone.
  pose proof (proj2 (last_tagged_none _ _) Hnone) as Hlast.
  destruct (UploadLlvm_creates args bundle_path data w Hup Hok Hfile Hlast)
    as (events & E & R).
  eexists. eexists. exists events.
  split; [exact E |]. cbn [remote faults files releases log].
  split; [reflexivity |].
  split; [now apply store_ok_created |].
  split; [reflexivity |].
  split.
  - rewrite filter_app, Hnone. cbn [filter app]. unfold tagged at 1.
    cbn [tag_name]. rewrite String.eqb_refl. reflexivity.
  - split.
    + unfold count_named, named. cbn [assets filter asset_name].
      now rewrite String.eqb_refl.
    + split; [reflexivity | exact R].
Qed.

(** C1, as the code has it.  On a store that is up and has its
    identifiers in order, where at most one release bears the tag of the
    bundle and that release holds at most one asset with the name of the
    archive, publishing the same archive under the same version twice
    succeeds twice; afterwards exactly one release bears the tag and holds
    exactly one asset with the name of the archive; and the requests of
    the second run are the listing, one deletion and one upload, in that
    order.  The condition on the assets is needed: a run deletes one
    asset with the name from a release, not all of them. *)
Theorem Publish_twice (args : Args) (bundle_path data : string) (w0 : World) :
  faults (remote w0) = [] -> store_ok (remote w0) ->
  lookup bundle_path (files w0) = Some data ->
  (List.length (filter (tagged (GetBundleVersion args))
                       (releases (remote w0))) <= 1)%nat ->
  (forall r, In r (releases (remote w0)) ->
             tagged (GetBundleVersion args) r = true ->
             (count_named (basename bundle_path) r <= 1)%nat) ->
  exists w1 w2 events deleted target,
    UploadLlvm args bundle_path w0 = (Ok tt, w1) /\
    UploadLlvm args bundle_path w1 = (Ok tt, w2) /\
    map (count_named (basename bundle_path))
        (filter (tagged (GetBundleVersion args)) (releases (remote w2)))
    = [1%nat] /\
    log w2 = log w1 ++ events /\
    requests_of events
    = [GetReleases (gh_org args) "llvm" (auth_of args);
       DeleteAsset (gh_org args) "llvm" deleted (GetBundleVersion args)
                   (auth_of args);
       upload_request args bundle_path data target].
Proof.
  intros Hup Hok Hfile Hone Hfew.
  assert (First : exists w1 r1,
             UploadLlvm args bundle_path w0 = (Ok tt, w1) /\
             faults (remote w1) = [] /\ store_ok (remote w1) /\
             files w1 = files w0 /\
             filter (tagged (GetBundleVersion args)) (releases (remote w1)) = [r1] /\
             count_named (basename bundle_path) r1 = 1%nat).
  { destruct (filter (tagged (GetBundleVersion args)) (releases (remote w0)))
      as [| r0 [| r0' rest]] eqn:F.
    - destruct (publish_fresh args bundle_path data w0 Hup Hok Hfile F)
        as (w1 & r1 & ev & E & H1 & H2 & H3 & H4 & H5 & _).
      exists w1, r1. tauto.
    - assert (Hr0 : In r0 (filter (tagged (GetBundleVersion args))
                                  (releases (remote w0)))) by (rewrite F; now left).
      apply filter_In in Hr0. destruct Hr0 as [Hin Ht].
      destruct (publish_again args bundle_path data w0 r0 Hup Hok Hfile F
                              (Hfew r0 Hin Ht))
        as (w1 & r1 & ev & E & H1 & H2 & H3 & H4 & H5 & _).
      exists w1, r1. tauto.
    - simpl in Hone. lia. }
  destruct First as (w1 & r1 & E1 & Hup1 & Hok1 & Hfiles1 & Hone1 & Hcount1).
  assert (Hfile1 : lookup bundle_path (files w1) = Some data)
    by now rewrite Hfiles1.
  destruct (publish_again args bundle_path data w1 r1 Hup1 Hok1 Hfile1 Hone1)
    as (w2 & r2 & events & E2 & _ & _ & _ & Hone2 & Hcount2 & Hlog & R);
    [lia |].
  destruct (doomed_in_one _ _ Hcount1) as (deleted & Hdel).
  exists w1, w2, events, deleted, (release_id r1).
  split; [exact E1 |]. split; [exact E2 |].
  split; [rewrite Hone2; cbn [map]; now rewrite Hcount2 |].
  split; [exact Hlog |].
  rewrite R, Hdel. reflexivity.
Qed.

Lemma example_world_ok : store_ok (remote (example_world [])).
Proof. split; cbn; constructor. Qed.

Lemma published_world_ok : store_ok (remote published_world).
Proof.
  split; cbn.
  - repeat constructor; cbn; intuition discriminate.
  - repeat constructor; cbn; intuition discriminate.
  - repeat constructor.
  - repeat constructor.
Qed.

(** The theorem at a store that holds an older release and the release of
    the bundle, with the archive in it once: both runs find the release,
    delete what it holds of the archive and upload. *)
Lemma Publish_twice_witness :
  exists w1 w2 events deleted target,
    UploadLlvm example_args example_path published_world = (Ok tt, w1) /\
    UploadLlvm example_args example_path w1 = (Ok tt, w2) /\
    map (count_named example_name)
        (filter (tagged "18.1.0") (releases (remote w2)))
    = [1%nat] /\
    log w2 = log w1 ++ events /\
    requests_of events
    = [GetReleases "ycm-core" "llvm" example_auth;
       DeleteAsset "ycm-core" "llvm" deleted "18.1.0" example_auth;
       upload_request example_args example_path "archive" target].
Proof.
  apply (Publish_twice example_args example_path "archive" published_world).
  - reflexivity.
  - exact published_world_ok.
  - reflexivity.
  - vm_compute. lia.
  - intros r [<- | [<- | []]] Ht.
    + vm_compute in Ht. discriminate.
    + vm_compute. lia.
Defined.

(** C1, as the spec has it, fails: on a store whose release of the bundle
    already holds the archive twice over, publishing the same archive
    under the same version twice succeeds twice and leaves the release
    with two assets of the name of the archive, each run having deleted
    one and uploaded one. *)
Lemma Publish_twice_keeps_duplicate :
  exists w1 w2,
    UploadLlvm example_args example_path duplicated_world = (Ok tt, w1) /\
    UploadLlvm example_args example_path w1 = (Ok tt, w2) /\
    map (count_named example_name)
        (filter (tagged "18.1.0") (releases (remote w2)))
    = [2%nat] /\
    map (fun r => map asset_id (assets r)) (releases (remote w2)) = [[4; 5]] /\
    requests_of (log w2)
    = [GetReleases "ycm-core" "llvm" example_auth;
       DeleteAsset "ycm-core" "llvm" 2 "18.1.0" example_auth;
       upload_request example_args example_path "archive" 1;
       GetReleases "ycm-core" "llvm" example_auth;
       DeleteAsset "ycm-core" "llvm" 3 "18.1.0" example_auth;
       upload_request example_args example_path "archive" 1].
Proof.
  eexists. eexists.
  split; [vm_compute; reflexivity |].
  split; [vm_compute; reflexivity |].
  repeat split; vm_compute; reflexivity.
Qed.

(** ** The release the script creates *)

(** With a release candidate other than zero the release is a prerelease,
    named and tagged after the candidate. *)
Lemma created_for_candidate (args : Args) (rc : Z) :
  release_candidate args = Some rc -> rc <> 0 ->
  created_prerelease args = true /\
  created_name args = ("LLVM and Clang " +++ version args) +++ " RC" +++ Py.str rc /\
  is_suffix ("RC" +++ Py.str rc) (created_name args) = true /\
  GetBundleVersion args = version args +++ "-rc" +++ Py.str rc.
Proof.
  intros Hrc Hnz. unfold created_prerelease, created_name, GetBundleVersion.
  rewrite Hrc. cbn [truthy].
  destruct (Z.eqb_spec rc 0) as [E | _]; [contradiction |]. cbn [negb].
  repeat split.
  cbn [append is_suffix]. rewrite !orb_true_iff. do 15 right.
  induction (version args) as [| c v IH]; cbn [append is_suffix].
  - rewrite !orb_true_iff. right. left. apply String.eqb_refl.
  - rewrite !orb_true_iff. right. exact IH.
Qed.

(** With no release candidate the release is final, named and tagged
    after the version alone. *)
Lemma created_for_final (args : Args) :
  release_candidate args = None ->
  created_prerelease args = false /\
  created_name args = "LLVM and Clang " +++ version args /\
  GetBundleVersion args = version args.
Proof.
  intros Hrc. unfold created_prerelease, created_name, GetBundleVersion.
  now rewrite Hrc.
Qed.

(** C4 at the release candidate number 0.  The release is created as a
    prerelease, yet under the tag and the name of the final release: the
    name has no "RC0" at its end. *)
Theorem candidate_zero_release :
  release_candidate candidate_zero_args = Some 0 /\
  (exists w',
     UploadLlvm candidate_zero_args example_path (example_world [])
     = (Ok tt, w') /\
     requests_of (log w')
     = [GetReleases "ycm-core" "llvm" example_auth;
        PostRelease "ycm-core" "llvm" "18.1.0" "LLVM and Clang 18.1.0"
          "LLVM and Clang 18.1.0 without realtime, terminfo, and zlib dependencies."
          true example_auth;
        upload_request candidate_zero_args example_path "archive" 1] /\
     map (fun r => (tag_name r, release_name r, prerelease r))
         (releases (remote w'))
     = [("18.1.0", "LLVM and Clang 18.1.0", true)]) /\
  is_suffix "RC0" "LLVM and Clang 18.1.0" = false.
Proof.
  split; [reflexivity |]. split; [| reflexivity].
  eexists. split; [vm_compute; reflexivity |].
  split; reflexivity.
Qed.

(** ** Main and the retries *)

Lemma appends_ret {A : Type} (a : A) : appends (ret a).
Proof. intros w. exists []. simpl. now rewrite List.app_nil_r. Qed.

Lemma appends_raise {A : Type} (e : exn) : appends (raise e : M A).
Proof. intros w. exists []. simpl. now rewrite List.app_nil_r. Qed.

Lemma appends_print (line : string) : appends (print line).
Proof. intros w. now exists [EPrint line]. Qed.

Lemma appends_http (req : Request) : appends (http req).
Proof.
  intros w. exists [ERequest req]. unfold http.
  now destruct (Store.serve (remote w) req).
Qed.

Lemma appends_open_rb (path : string) : appends (open_rb path).
Proof.
  intros w. exists []. unfold open_rb.
  destruct (lookup path (files w)); simpl; now rewrite List.app_nil_r.
Qed.

Lemma appends_json_message (response : Response) :
  appends (json_message response).
Proof.
  unfold json_message.
  destruct (body response); (apply appends_ret || apply appends_raise).
Qed.

Lemma appends_bind {A B : Type} (m : M A) (k : A -> M B) :
  appends m -> (forall a, appends (k a)) -> appends (bind m k).
Proof.
  intros Hm Hk w. unfold bind. destruct (Hm w) as (ev1 & H1).
  destruct (m w) as [[a | e] w1]; cbn [snd] in H1.
  - destruct (Hk a w1) as (ev2 & H2). exists (ev1 ++ ev2).
    now rewrite H2, H1, <- List.app_assoc.
  - now exists ev1.
Qed.

Ltac appends :=
  repeat first
    [ apply appends_ret | apply appends_raise | apply appends_print
    | apply appends_http | apply appends_open_rb | apply appends_json_message
    | apply appends_bind
    | match goal with
      | |- forall _, _ => intro
      | |- appends (if ?b then _ else _) => destruct b
      | |- appends (match ?x with _ => _ end) => destruct x
      end ].

Lemma appends_scan_assets (args : Args) (tag name : string)
  (l : list AssetJson) :
  appends (scan_assets args tag name l).
Proof.
  induction l as [| a l IH]; cbn [scan_assets]; [apply appends_ret |].
  destruct (negb (json_name a =? name)%string); [exact IH | appends].
Qed.

Lemma appends_scan_releases (args : Args) (tag name : string)
  (l : list ReleaseJson) :
  forall url, appends (scan_releases args tag name l url).
Proof.
  induction l as [| r l IH]; intros url; cbn [scan_releases];
    [apply appends_ret |].
  destruct (negb (json_tag_name r =? tag)%string); [apply IH |].
  apply appends_bind; [apply appends_print | intros _].
  apply appends_bind; [apply appends_scan_assets | intros _]. apply IH.
Qed.

(** Every run of [UploadLlvm] starts by asking for the listing, whatever
    becomes of it. *)
Lemma UploadLlvm_starts_by_listing (args : Args) (bundle_path : string)
  (w : World) :
  exists events,
    log (snd (UploadLlvm args bundle_path w))
    = log w ++ ERequest (GetReleases (gh_org args) "llvm" (auth_of args))
                 :: events.
Proof.
  unfold UploadLlvm. cbv zeta. unfold bind at 1.
  destruct (appends_http (GetReleases (gh_org args) "llvm" (auth_of args)) w)
    as (ev1 & H1).
  assert (Hev : ev1 = [ERequest (GetReleases (gh_org args) "llvm" (auth_of args))]).
  { unfold http in H1. destruct (Store.serve (remote w) _). cbn [snd log] in H1.
    now apply app_inv_head in H1. }
  subst ev1.
  destruct (http (GetReleases (gh_org args) "llvm" (auth_of args)) w)
    as [[response | e] w1] eqn:Hhttp; cbn [snd] in H1.
  - match goal with
    | |- exists _, log (snd (?k w1)) = _ =>
        assert (Hk : appends k)
    end.
    { apply appends_bind; [appends |]. intros _.
      apply appends_bind; [appends |]. intros listing.
      apply appends_bind; [apply appends_scan_releases |]. intros url.
      appends. }
    destruct (Hk w1) as (ev2 & H2). exists ev2.
    now rewrite H2, H1, <- List.app_assoc.
  - exists []. exact H1.
Qed.

(** C2, as the code has it.  [Main] makes one attempt at publishing and
    ends with whatever [UploadLlvm] ends with: nothing is retried.  Only
    under [Retries] is an attempt that exits followed by another, and that
    one is [UploadLlvm] as a whole, which starts again from the listing. *)
Theorem publish_retried_only_by_Retries (DIR_OF_THIS_SCRIPT : string)
  (args : Args) (target : string) :
  let attempt :=
    UploadLlvm args
      (path_join DIR_OF_THIS_SCRIPT
                 (BUNDLE_NAME (GetBundleVersion args) target +++ ".tar.xz")) in
  (forall w, Main DIR_OF_THIS_SCRIPT args target w = attempt w) /\
  (forall w0 msg w1 w2 fuel,
     attempt w0 = (Raise (SystemExit msg), w1) ->
     attempt (after_failure msg 1 w1) = (Ok tt, w2) ->
     (2 <= fuel)%nat ->
     Retries fuel attempt w0 = Some (Ok true, w2)) /\
  (forall w, exists events,
     log (snd (attempt w))
     = log w ++ ERequest (GetReleases (gh_org args) "llvm" (auth_of args))
                  :: events).
Proof.
  intros attempt. split; [reflexivity |]. split.
  - intros w0 msg w1 w2 fuel E1 E2 Hfuel.
    destruct fuel as [| [| fuel]]; try lia.
    unfold Retries. rewrite (Retries_loop_failure _ _ _ _ _ _ _ E1).
    count_retry.
    now rewrite (Retries_loop_success _ _ _ _ _ _ _ E2).
  - intros w. apply UploadLlvm_starts_by_listing.
Qed.

(** The theorem at a store that fails the upload of the first attempt:
    under [Retries] the second attempt lists the releases again, finds the
    release the first attempt created, and uploads. *)
Lemma publish_retried_only_by_Retries_witness :
  exists w2,
    Retries 2 (UploadLlvm example_args example_path)
            (example_world [false; false; true])
    = Some (Ok true, w2) /\
    requests_of (log w2)
    = [GetReleases "ycm-core" "llvm" example_auth;
       create_request example_args;
       upload_request example_args example_path "archive" 1;
       GetReleases "ycm-core" "llvm" example_auth;
       upload_request example_args example_path "archive" 1].
Proof.
  eexists. split.
  - eapply (proj1 (proj2 (publish_retried_only_by_Retries
                           "/work" example_args example_target))
             (example_world [false; false; true])
             "Uploading failed with message: Server Error").
    + vm_compute. reflexivity.
    + vm_compute. reflexivity.
    + lia.
  - vm_compute. reflexivity.
Defined.

(** C2, as the spec has it, fails: when the store fails the upload,
    [Main] ends with that error after a single listing, without a pause
    or a second attempt. *)
Lemma Main_ends_at_first_failure :
  exists w',
    Main "/work" example_args example_target
         (example_world [false; false; true])
    = (Raise (SystemExit "Uploading failed with message: Server Error"), w') /\
    requests_of (log w')
    = [GetReleases "ycm-core" "llvm" example_auth;
       create_request example_args;
       upload_request example_args example_path "archive" 1] /\
    sleeps_of (log w') = [] /\
    map (fun r => List.length (assets r)) (releases (remote w')) = [0%nat].
Proof.
  eexists. split; [vm_compute; reflexivity |].
  repeat split; reflexivity.
Qed.

(** * Further properties *)

(** ** Version: texts and errors *)

Lemma int_digits_numeric (s : string) :
  numeric s = true -> Py.int_digits s 0 false = Some (numeral s).
Proof.
  intros H. destruct (numeric_inv s H) as (c & r & -> & Hc & Hr).
  cbn [Py.int_digits]. rewrite Hc, (int_digits_all_digits r Hr).
  cbn [numeral]. f_equal; ring.
Qed.

(** [int] reads back what [str] writes, whatever the sign. *)
Lemma int_str (n : Z) : Py.int (Py.str n) = Ok n.
Proof.
  destruct (Z.neg_nonneg_cases n) as [Hneg | Hpos].
  - destruct n as [| p | p]; try lia.
    destruct (str_numeric (Z.pos p) ltac:(lia)) as [Hnum Hval].
    unfold Py.str in *. cbn [Z.to_int NilEmpty.string_of_int] in *.
    set (d := NilEmpty.string_of_uint (Pos.to_uint p)) in *.
    unfold Py.int, Py.strip. cbn [Py.lstrip].
    replace (Py.is_space "-") with false by reflexivity.
    cbn [Py.rstrip]. rewrite (rstrip_all_digits d (numeric_all_digits d Hnum)).
    replace (Py.is_space "-") with false by reflexivity. cbn [andb].
    rewrite Ascii.eqb_refl, (int_digits_numeric d Hnum). cbn [option_map].
    now rewrite Hval.
  - destruct (str_numeric n Hpos) as [Hnum Hval].
    now rewrite (int_numeric _ Hnum), Hval.
Qed.

Lemma str_free_of_dot (n : Z) : free_of "." (Py.str n) = true.
Proof. now apply str_free_of. Qed.

Lemma split_repr (v : Version) :
  Py.split "." (VersionImpl.repr v)
  = [Py.str (major v); Py.str (minor v); Py.str (patch v)].
Proof.
  unfold VersionImpl.repr. cbn [Py.join].
  change (Py.str (major v) +++ "." +++ Py.str (minor v) +++ "."
            +++ Py.str (patch v))
    with (Py.str (major v) +++ String "." (Py.str (minor v)
            +++ String "." (Py.str (patch v)))).
  now rewrite (split_first "." _ _ (str_free_of_dot _)),
    (split_first "." _ _ (str_free_of_dot _)),
    (split_free "." _ (str_free_of_dot _)).
Qed.

(** X1. Formatting any version, of whatever integers, and parsing the text
    gives the version back; so two versions that format alike are the
    same version. *)
Theorem format_parse_round_trip :
  (forall v, VersionImpl.init (VersionImpl.repr v) = Ok v) /\
  (forall a b, VersionImpl.repr a = VersionImpl.repr b -> a = b).
Proof.
  assert (H : forall v, VersionImpl.init (VersionImpl.repr v) = Ok v).
  { intros v. unfold VersionImpl.init. rewrite split_repr.
    cbn [Py.getitem nth_error rbind].
    replace (Py.len [Py.str (major v); Py.str (minor v); Py.str (patch v)] >? 1)
      with true by reflexivity.
    replace (Py.len [Py.str (major v); Py.str (minor v); Py.str (patch v)] >? 2)
      with true by reflexivity.
    rewrite !int_str. cbn [rbind]. now destruct v. }
  split; [exact H |].
  intros a b E. pose proof (H a) as Ha. rewrite E, H in Ha. congruence.
Qed.

Lemma int_outcome (s : string) :
  (exists n, Py.int s = Ok n) \/ Py.int s = Raise (Py.int_error s).
Proof.
  unfold Py.int.
  destruct (match Py.strip s with
            | String c r =>
                if (c =? "-")%char
                then option_map Z.opp (Py.int_digits r 0 false)
                else if (c =? "+")%char then Py.int_digits r 0 false
                     else Py.int_digits (Py.strip s) 0 false
            | EmptyString => None
            end); eauto.
Qed.

Lemma getitem_in_range {A : Type} (l : list A) (i : nat) :
  (i < List.length l)%nat -> exists a, Py.getitem l i = Ok a.
Proof.
  intros H. unfold Py.getitem.
  destruct (nth_error l i) eqn:E; [eauto |].
  apply nth_error_None in E. lia.
Qed.

Lemma int_of_nothing : Py.int "" = Raise (Py.int_error "").
Proof. reflexivity. Qed.

(** The two outcomes of constructing a version: the error, if any, is
    that of [int] on one of the first three components. *)
Lemma init_outcome (text : string) :
  (exists v, VersionImpl.init text = Ok v) \/
  (exists literal,
     In literal (firstn 3 (Py.split "." text)) /\
     VersionImpl.init text = Raise (Py.int_error literal)).
Proof.
  unfold VersionImpl.init.
  destruct (Py.split "." text) as [| p0 parts] eqn:Hs;
    [now apply split_nonempty in Hs |].
  cbn [Py.getitem nth_error rbind].
  destruct (int_outcome p0) as [[x ->] | ->];
    [| right; exists p0; split; [now left | reflexivity]].
  cbn [rbind].
  destruct parts as [| p1 parts]; [left; eexists; reflexivity |].
  replace (Py.len (p0 :: p1 :: parts) >? 1) with true
    by (symmetry; apply Z.gtb_lt; unfold Py.len; cbn [List.length]; lia).
  cbn [Py.getitem nth_error rbind].
  destruct (int_outcome p1) as [[y ->] | ->];
    [| right; exists p1; split; [right; now left | reflexivity]].
  cbn [rbind].
  destruct parts as [| p2 parts]; [left; eexists; reflexivity |].
  replace (Py.len (p0 :: p1 :: p2 :: parts) >? 2) with true
    by (symmetry; apply Z.gtb_lt; unfold Py.len; cbn [List.length]; lia).
  cbn [Py.getitem nth_error rbind].
  destruct (int_outcome p2) as [[z ->] | ->];
    [| right; exists p2; split; [right; right; now left | reflexivity]].
  left. eexists. reflexivity.
Qed.

(** X2. Constructing a version never runs off the list of components: it
    either succeeds or raises the [ValueError] of [int], with the message
    of [int] for one of the first three components.  It raises on a text
    that ends in a dot after its first component, and on one whose second
    component is empty: the error is that of the first component when
    that is no number, and that of the empty literal otherwise. *)
Theorem init_fails_only_in_int :
  (forall text,
     (exists v, VersionImpl.init text = Ok v) \/
     (exists literal,
        In literal (firstn 3 (Py.split "." text)) /\
        VersionImpl.init text = Raise (Py.int_error literal))) /\
  (forall a,
     free_of "." a = true ->
     VersionImpl.init (a +++ ".")
     = Raise (Py.int_error (match Py.int a with Ok _ => "" | Raise _ => a end))) /\
  (forall a rest,
     free_of "." a = true ->
     VersionImpl.init (a +++ ".." +++ rest)
     = Raise (Py.int_error (match Py.int a with Ok _ => "" | Raise _ => a end))).
Proof.
  split; [exact init_outcome |]. split.
  - intros a Fa. unfold VersionImpl.init.
    change (a +++ ".") with (a +++ String "." "").
    rewrite (split_first "." a "" Fa). cbn [Py.split].
    cbn [Py.getitem nth_error rbind].
    destruct (int_outcome a) as [[x ->] | ->]; reflexivity.
  - intros a rest Fa. unfold VersionImpl.init.
    change (a +++ ".." +++ rest) with (a +++ String "." (String "." rest)).
    rewrite (split_first "." a _ Fa). cbn [Py.split].
    rewrite Ascii.eqb_refl.
    cbn [Py.getitem nth_error rbind].
    destruct (int_outcome a) as [[x ->] | ->]; [| reflexivity].
    cbn [rbind].
    replace (Py.len (a :: "" :: Py.split "." rest) >? 1) with true.
    + reflexivity.
    + symmetry. apply Z.gtb_lt. unfold Py.len. cbn [List.length]. lia.
Qed.

(** The theorem at "18." and at "18..1", and at "x.", where the first
    component is at fault. *)
Lemma init_fails_only_in_int_witness :
  VersionImpl.init "18."
  = Raise (ValueError "invalid literal for int() with base 10: ''") /\
  VersionImpl.init "18..1"
  = Raise (ValueError "invalid literal for int() with base 10: ''") /\
  VersionImpl.init "x."
  = Raise (ValueError "invalid literal for int() with base 10: 'x'").
Proof.
  split; [| split].
  - exact (proj1 (proj2 init_fails_only_in_int) "18" eq_refl).
  - exact (proj2 (proj2 init_fails_only_in_int) "18" "1" eq_refl).
  - exact (proj1 (proj2 init_fails_only_in_int) "x" eq_refl).
Defined.

(** ** Version: the derived comparisons and the maximum *)

Lemma lt_Version_bool (a b : Version) :
  exists r, VersionImpl.lt a (PyVersion b) = Ok r /\ (r = true <-> lex_lt a b).
Proof.
  destruct (lt_Version_total a b) as [r Hr]. exists r. split; [exact Hr |].
  rewrite <- lt_Version_spec, Hr. split; congruence.
Qed.

Lemma eq_Version_bool (a b : Version) :
  exists r, VersionImpl.eq a (PyVersion b) = Ok r /\ (r = true <-> a = b).
Proof.
  eexists. split; [reflexivity |].
  rewrite <- eq_Version_spec. unfold VersionImpl.eq. split; congruence.
Qed.

Lemma lex_lt_asym (a b : Version) : lex_lt a b -> ~ lex_lt b a.
Proof. unfold lex_lt. lia. Qed.

Lemma lex_lt_irrefl (a : Version) : ~ lex_lt a a.
Proof. unfold lex_lt. lia. Qed.

Lemma gt_Version_bool (a b : Version) :
  exists r, VersionImpl.gt a (PyVersion b) = Ok r /\ (r = true <-> lex_lt b a).
Proof.
  unfold VersionImpl.gt, VersionImpl.ne.
  destruct (lt_Version_bool a b) as (l & -> & Hl).
  destruct (eq_Version_bool a b) as (e & He & Heq).
  cbn [rbind]. destruct l; cbn [negb].
  - exists false. split; [reflexivity |]. split; [discriminate |].
    intros H. exfalso. apply (lex_lt_asym a b); tauto.
  - rewrite He. cbn [rbind]. exists (negb e). split; [reflexivity |].
    destruct (lex_lt_trichotomy a b) as [H | [H | H]].
    + assert (false = true) by tauto. discriminate.
    + assert (e = true) by tauto. subst a e. cbn [negb].
      split; [discriminate |]. intros H'. now apply lex_lt_irrefl in H'.
    + destruct e; cbn [negb]; [| tauto].
      assert (a = b) by tauto. subst. now apply lex_lt_irrefl in H.
Qed.

(** X3. The comparisons the class gets from [total_ordering] follow the
    lexicographic order: [a > b] when [b < a], [a <= b] unless [b < a],
    [a >= b] unless [a < b], and [a != b] unless the two are the same. *)
Theorem derived_comparisons (a b : Version) :
  (VersionImpl.gt a (PyVersion b) = Ok true <-> lex_lt b a) /\
  (VersionImpl.le a (PyVersion b) = Ok true <-> ~ lex_lt b a) /\
  (VersionImpl.ge a (PyVersion b) = Ok true <-> ~ lex_lt a b) /\
  (VersionImpl.ne a (PyVersion b) = Ok true <-> a <> b) /\
  (exists g l e n,
     VersionImpl.gt a (PyVersion b) = Ok g /\
     VersionImpl.le a (PyVersion b) = Ok l /\
     VersionImpl.ge a (PyVersion b) = Ok e /\
     VersionImpl.ne a (PyVersion b) = Ok n).
Proof.
  destruct (gt_Version_bool a b) as (g & Hg & Hgt).
  destruct (lt_Version_bool a b) as (l & Hl & Hlt).
  destruct (eq_Version_bool a b) as (e & He & Heq).
  assert (Hle : VersionImpl.le a (PyVersion b) = Ok (l || e)).
  { unfold VersionImpl.le. rewrite Hl. cbn [rbind].
    destruct l; [reflexivity | now rewrite He]. }
  assert (Hge : VersionImpl.ge a (PyVersion b) = Ok (negb l)).
  { unfold VersionImpl.ge. now rewrite Hl. }
  assert (Hne : VersionImpl.ne a (PyVersion b) = Ok (negb e)).
  { unfold VersionImpl.ne. now rewrite He. }
  pose proof (lex_lt_trichotomy a b) as Tri.
  pose proof (lex_lt_asym a b) as As1.
  pose proof (lex_lt_asym b a) as As2.
  pose proof (lex_lt_irrefl a) as Irr.
  repeat split.
  - rewrite Hg. intros H. injection H as ->. tauto.
  - intros H. rewrite Hg. f_equal. tauto.
  - rewrite Hle. intros H. injection H as H.
    apply orb_true_iff in H. intros Hba.
    destruct H as [-> | ->]; [tauto |].
    assert (a = b) by tauto. subst. tauto.
  - intros H. rewrite Hle. f_equal. apply orb_true_iff.
    destruct Tri as [T | [T | T]]; tauto.
  - rewrite Hge. intros H. injection H as H.
    apply negb_true_iff in H. subst l. intros Hab.
    assert (false = true) by tauto. discriminate.
  - intros H. rewrite Hge. f_equal. apply negb_true_iff.
    destruct l; [tauto | reflexivity].
  - rewrite Hne. intros H. injection H as H.
    apply negb_true_iff in H. subst e. intros Hab.
    assert (false = true) by tauto. discriminate.
  - intros H. rewrite Hne. f_equal. apply negb_true_iff.
    destruct e; [tauto | reflexivity].
  - exists g, (l || e)%bool, (negb l), (negb e). tauto.
Qed.

Lemma max_from_spec (rest : list Version) :
  forall best,
  exists m, max_from best rest = Ok m /\ In m (best :: rest) /\
            forall v, In v (best :: rest) -> ~ lex_lt m v.
Proof.
  induction rest as [| item rest IH]; intros best.
  - exists best. split; [reflexivity |]. split; [now left |].
    intros v [<- | []]. apply lex_lt_irrefl.
  - cbn [max_from].
    destruct (gt_Version_bool item best) as (g & -> & Hg). cbn [rbind].
    destruct (IH (if g then item else best)) as (m & -> & Hin & Hmax).
    exists m. split; [reflexivity |]. split.
    + destruct Hin as [<- | Hin]; [destruct g | ]; cbn [In]; tauto.
    + intros v Hv.
      assert (Hb : ~ lex_lt m (if g then item else best))
        by (apply Hmax; now left).
      destruct Hv as [<- | [<- | Hv]].
      * destruct g; [| exact Hb].
        assert (lex_lt best item) by tauto.
        unfold lex_lt in *. lia.
      * destruct g; [exact Hb |].
        assert (~ lex_lt best item) by (intros H; apply Hg in H; discriminate).
        unfold lex_lt in *. lia.
      * apply Hmax. now right.
Qed.

(** X4. The maximum of a list of versions that is not empty is one of the
    list that none of the list exceeds; of an empty list there is none. *)
Theorem max_version_greatest (values : list Version) :
  max_version [] = Raise (ValueError "max() arg is an empty sequence") /\
  (values <> [] ->
   exists m, max_version values = Ok m /\ In m values /\
             forall v, In v values -> ~ lex_lt m v).
Proof.
  split; [reflexivity |]. intros Hne.
  destruct values as [| first rest]; [contradiction |].
  apply max_from_spec.
Qed.

(** The theorem at 2.17, 2.34 and 2.2. *)
Lemma max_version_greatest_witness :
  exists m,
    max_version [mkVersion 2 17 0; mkVersion 2 34 0; mkVersion 2 2 0] = Ok m /\
    In m [mkVersion 2 17 0; mkVersion 2 34 0; mkVersion 2 2 0] /\
    forall v, In v [mkVersion 2 17 0; mkVersion 2 34 0; mkVersion 2 2 0] ->
              ~ lex_lt m v.
Proof.
  apply (proj2 (max_version_greatest
                  [mkVersion 2 17 0; mkVersion 2 34 0; mkVersion 2 2 0])).
  discriminate.
Defined.

(** ** The versions collected per library *)

Lemma versions_append_values (library : string) (version : Version)
  (versions : Versions) :
  values_of library (versions_append library version versions)
  = values_of library versions ++ [version].
Proof.
  induction versions as [| [key values] rest IH]; cbn [versions_append values_of].
  - now rewrite String.eqb_refl.
  - destruct (key =? library)%string eqn:E; cbn [values_of]; now rewrite E.
Qed.

Lemma versions_append_others (library other : string) (version : Version)
  (versions : Versions) :
  other <> library ->
  values_of other (versions_append library version versions)
  = values_of other versions.
Proof.
  intros Hne.
  induction versions as [| [key values] rest IH]; cbn [versions_append values_of].
  - apply String.eqb_neq in Hne. rewrite String.eqb_sym. now rewrite Hne.
  - destruct (key =? library)%string eqn:E; cbn [values_of].
    + apply String.eqb_eq in E. subst key.
      apply String.eqb_neq in Hne. rewrite String.eqb_sym. now rewrite Hne.
    + now rewrite IH.
Qed.

Lemma versions_append_keys (library : string) (version : Version)
  (versions : Versions) :
  map fst (versions_append library version versions)
  = if existsb (String.eqb library) (map fst versions)
    then map fst versions
    else map fst versions ++ [library].
Proof.
  induction versions as [| [key values] rest IH];
    cbn [versions_append map fst existsb app]; [reflexivity |].
  rewrite (String.eqb_sym library key).
  destruct (key =? library)%string; cbn [map fst orb]; [reflexivity |].
  rewrite IH. now destruct (existsb (String.eqb library) (map fst rest)).
Qed.

Lemma versions_append_nonempty (library : string) (version : Version)
  (versions : Versions) :
  Forall (fun entry => snd entry <> []) versions ->
  Forall (fun entry => snd entry <> [])
         (versions_append library version versions).
Proof.
  intros Hall.
  induction versions as [| [key values] rest IH]; cbn [versions_append].
  - repeat constructor. discriminate.
  - apply Forall_cons_iff in Hall. destruct Hall as [Hh Ht].
    destruct (key =? library)%string.
    + constructor; [| exact Ht]. cbn [snd]. now destruct values.
    + constructor; [exact Hh | now apply IH].
Qed.

(** X5. Appending a version under a library adds it at the end of the list
    of that library and leaves every other library as it was; the
    libraries stay distinct, in the order they first came, and none has an
    empty list. *)
Theorem versions_append_spec (library : string) (version : Version)
  (versions : Versions) :
  values_of library (versions_append library version versions)
  = values_of library versions ++ [version] /\
  (forall other, other <> library ->
     values_of other (versions_append library version versions)
     = values_of other versions) /\
  (NoDup (map fst versions) ->
   NoDup (map fst (versions_append library version versions))) /\
  (exists added, map fst (versions_append library version versions)
                 = map fst versions ++ added) /\
  (Forall (fun entry => snd entry <> []) versions ->
   Forall (fun entry => snd entry <> [])
          (versions_append library version versions)).
Proof.
  split; [apply versions_append_values |].
  split; [intros other; apply versions_append_others |].
  split; [| split].
  - intros Hnd. rewrite versions_append_keys.
    destruct (existsb (String.eqb library) (map fst versions)) eqn:E;
      [exact Hnd |].
    apply NoDup_app; [exact Hnd | repeat constructor; intros [] |].
    intros key Hin [<- | []].
    assert (existsb (String.eqb library) (map fst versions) = true).
    { apply existsb_exists. exists library. split; [exact Hin |].
      apply String.eqb_refl. }
    congruence.
  - rewrite versions_append_keys.
    destruct (existsb (String.eqb library) (map fst versions)).
    + exists []. now rewrite List.app_nil_r.
    + now exists [library].
  - apply versions_append_nonempty.
Qed.

(** ** The two patterns of the dependency scan *)

Lemma strip_prefix_app (p s : string) : Re.strip_prefix p (p +++ s) = Some s.
Proof.
  induction p as [| c p IH]; cbn [append Re.strip_prefix].
  - now destruct s.
  - now rewrite Ascii.eqb_refl.
Qed.

Lemma strip_prefix_inv (p s r : string) :
  Re.strip_prefix p s = Some r -> s = p +++ r.
Proof.
  revert s. induction p as [| c p IH]; intros s; cbn [Re.strip_prefix append].
  - destruct s; intros H; now injection H as ->.
  - destruct s as [| d s]; [discriminate |].
    destruct (Ascii.eqb_spec c d) as [<- | _]; [| discriminate].
    intros H. now rewrite (IH s H).
Qed.

Lemma dot_star_eol_free (s : string) :
  free_of "010" s = true -> Re.dot_star_eol s = Some s.
Proof.
  induction s as [| c r IH]; cbn [free_of Re.dot_star_eol]; [reflexivity |].
  intros H. apply andb_true_iff in H. destruct H as [Hc Hr].
  apply negb_true_iff in Hc. now rewrite Hc, (IH Hr).
Qed.

Lemma dot_star_eol_inv (s d : string) :
  Re.dot_star_eol s = Some d ->
  free_of "010" d = true /\ (s = d \/ s = d +++ newline).
Proof.
  revert d. induction s as [| c r IH]; intros d; cbn [Re.dot_star_eol].
  - intros H. injection H as <-. split; [reflexivity | now left].
  - destruct (Ascii.eqb_spec c "010") as [-> | Hc].
    + destruct (String.eqb_spec r "") as [-> | _]; [| discriminate].
      intros H. injection H as <-. split; [reflexivity | now right].
    + destruct (Re.dot_star_eol r) as [d' |]; [| discriminate].
      cbn [option_map]. intros H. injection H as <-.
      destruct (IH d' eq_refl) as [Hfree Hs]. split.
      * cbn [free_of]. rewrite Hfree.
        apply Ascii.eqb_neq in Hc. now rewrite Hc.
      * destruct Hs as [-> | ->]; [now left | now right].
Qed.

(** X6. A line made of the NEEDED prefix and a name without newline
    yields that name; and whatever the pattern yields is the line without
    that prefix, and without a last newline if it has one. *)
Theorem needed_pattern :
  (forall name,
     free_of "010" name = true ->
     OBJDUMP_NEEDED_REGEX ("  NEEDED               " +++ name) = Some name) /\
  (forall line dependency,
     OBJDUMP_NEEDED_REGEX line = Some dependency ->
     free_of "010" dependency = true /\
     (line = "  NEEDED               " +++ dependency \/
      line = "  NEEDED               " +++ dependency +++ newline)).
Proof.
  split.
  - intros name Hfree. unfold OBJDUMP_NEEDED_REGEX.
    rewrite strip_prefix_app. now apply dot_star_eol_free.
  - intros line dependency. unfold OBJDUMP_NEEDED_REGEX.
    destruct (Re.strip_prefix "  NEEDED               " line) as [rest |] eqn:E;
      [| discriminate].
    intros H. apply strip_prefix_inv in E. subst line.
    destruct (dot_star_eol_inv _ _ H) as [Hfree [-> | ->]]; tauto.
Qed.

(** The theorem at the line of [libstdc++.so.6]. *)
Lemma needed_pattern_witness :
  OBJDUMP_NEEDED_REGEX "  NEEDED               libstdc++.so.6"
  = Some "libstdc++.so.6".
Proof. exact (proj1 needed_pattern "libstdc++.so.6" eq_refl). Defined.

Lemma span_run (cls : ascii -> bool) (run : string) (c : ascii) (rest : string) :
  all_in cls run = true -> cls c = false ->
  Re.span cls (run +++ String c rest) = (run, String c rest).
Proof.
  intros Hrun Hc. induction run as [| d run IH]; cbn [append Re.span].
  - now rewrite Hc.
  - cbn [all_in] in Hrun. apply andb_true_iff in Hrun.
    destruct Hrun as [Hd Hrun]. now rewrite Hd, (IH Hrun).
Qed.

Lemma plus_run (cls : ascii -> bool) (run : string) (c : ascii) (rest : string) :
  run <> "" -> all_in cls run = true -> cls c = false ->
  Re.plus cls (run +++ String c rest) = Some (String c rest).
Proof.
  intros Hne Hrun Hc. unfold Re.plus. rewrite (span_run cls run c rest Hrun Hc).
  now destruct run.
Qed.

Lemma cut_last_underscore_none (s : string) :
  free_of "_" s = true -> Re.cut_last_underscore s = None.
Proof.
  induction s as [| c r IH]; cbn [free_of Re.cut_last_underscore];
    [reflexivity |].
  intros H. apply andb_true_iff in H. destruct H as [Hc Hr].
  apply negb_true_iff in Hc. now rewrite (IH Hr), Hc.
Qed.

Lemma cut_last_underscore_app (library text : string) :
  free_of "_" text = true ->
  Re.cut_last_underscore (library +++ "_" +++ text) = Some (library, text).
Proof.
  intros Hfree. induction library as [| c library IH];
    cbn [append Re.cut_last_underscore].
  - now rewrite (cut_last_underscore_none text Hfree), Ascii.eqb_refl.
  - cbn [append] in IH. now rewrite IH.
Qed.

(** X7. A line of the version table (four spaces, a hexadecimal number,
    [0x00], a decimal number, then a library, an underscore and a version
    text) yields the library and the text; the library may hold
    underscores of its own, the line being cut at the last one. *)
Theorem version_pattern (hex number library text : string) :
  hex <> "" -> all_in Re.is_lower_hex hex = true ->
  number <> "" -> all_in Py.is_digit number = true ->
  free_of "010" library = true -> free_of "010" text = true ->
  free_of "_" text = true ->
  OBJDUMP_VERSION_REGEX
    ("    0x" +++ hex +++ " 0x00 " +++ number +++ " " +++ library +++ "_"
       +++ text)
  = Some (library, text).
Proof.
  intros Hhex Hall Hnum Hdig Hlib Htext Hcut. unfold OBJDUMP_VERSION_REGEX.
  rewrite strip_prefix_app.
  change (" 0x00 " +++ number +++ " " +++ library +++ "_" +++ text)
    with (String " " ("0x00 " +++ number +++ " " +++ library +++ "_" +++ text)).
  rewrite (plus_run Re.is_lower_hex hex " " _ Hhex Hall eq_refl).
  change (String " " ("0x00 " +++ number +++ " " +++ library +++ "_" +++ text))
    with (" 0x00 " +++ number +++ " " +++ library +++ "_" +++ text).
  rewrite strip_prefix_app.
  change (" " +++ library +++ "_" +++ text)
    with (String " " (library +++ "_" +++ text)).
  rewrite (plus_run Py.is_digit number " " _ Hnum Hdig eq_refl).
  change (String " " (library +++ "_" +++ text))
    with (" " +++ library +++ "_" +++ text).
  rewrite strip_prefix_app.
  rewrite dot_star_eol_free.
  - now apply cut_last_underscore_app.
  - rewrite free_of_append, Hlib. cbn [andb append free_of].
    now rewrite Htext.
Qed.

(** The theorem at a line of [libstdc++], whose library holds no
    underscore, and at one whose library does. *)
Lemma version_pattern_witness :
  OBJDUMP_VERSION_REGEX "    0x0297f871 0x00 05 GLIBCXX_3.4.21"
  = Some ("GLIBCXX", "3.4.21") /\
  OBJDUMP_VERSION_REGEX "    0x0b792650 0x00 04 GCC_ABI_3.0"
  = Some ("GCC_ABI", "3.0").
Proof.
  split.
  - apply (version_pattern "0297f871" "05" "GLIBCXX" "3.4.21");
      (discriminate || reflexivity).
  - apply (version_pattern "0b792650" "04" "GCC_ABI" "3.0");
      (discriminate || reflexivity).
Defined.

(** ** CheckDependencies and CheckLlvm *)

Lemma logged_nothing (w : World) : logged [] w = w.
Proof.
  unfold logged. rewrite List.app_nil_r. now destruct w.
Qed.

Lemma logged_emit (e : Event) (events : list Event) (w : World) :
  logged events (emit e w) = logged (e :: events) w.
Proof. unfold logged, emit. simpl. now rewrite <- List.app_assoc. Qed.

Lemma logged_twice (ev1 ev2 : list Event) (w : World) :
  logged ev2 (logged ev1 w) = logged (ev1 ++ ev2) w.
Proof. unfold logged. simpl. now rewrite <- List.app_assoc. Qed.

Lemma print_all_run (lines : list string) :
  forall w, print_all lines w = (Ok tt, logged (map EPrint lines) w).
Proof.
  induction lines as [| line rest IH]; intros w; cbn [print_all map].
  - unfold ret. now rewrite logged_nothing.
  - unfold bind, print. now rewrite IH, logged_emit.
Qed.

Lemma record_all_fails (found : list (string * string)) (library text : string)
  (e : exn) :
  In (library, text) found -> VersionImpl.init text = Raise e ->
  forall versions,
  exists library' text' literal,
    In (library', text') found /\
    In literal (firstn 3 (Py.split "." text')) /\
    record_all found versions = Raise (Py.int_error literal).
Proof.
  intros Hin Hbad.
  induction found as [| [l t] rest IH]; intros versions; [contradiction |].
  cbn [record_all].
  destruct (init_outcome t) as [[v Hv] | (literal & Hlit & Ht)].
  - rewrite Hv. cbn [rbind].
    destruct Hin as [E | Hin]; [injection E as -> ->; congruence |].
    destruct (IH Hin (versions_append l v versions))
      as (l' & t' & literal & Hin' & Hlit & Hrec).
    exists l', t', literal. split; [now right |]. split; assumption.
  - exists l, t, literal. rewrite Ht. split; [now left |]. now split.
Qed.

Lemma versioned_of_in (lines : list string) (line : string)
  (found : string * string) :
  In line lines -> OBJDUMP_VERSION_REGEX line = Some found ->
  In found (versioned_of lines).
Proof.
  intros Hin Hm. unfold versioned_of. apply in_flat_map.
  exists line. split; [exact Hin |]. rewrite Hm. now left.
Qed.

(** What [CheckDependencies] does with a dump whose version texts parse. *)
Lemma CheckDependencies_run (name path output : string)
  (versions versions' : Versions) (w : World) :
  lookup path (objdump w) = Some output ->
  record_all (versioned_of (Py.splitlines output)) versions = Ok versions' ->
  CheckDependencies name path versions w
  = (Ok (needed_of (Py.splitlines output), versions'),
     logged (EPrint ("List of " +++ name +++ " dependencies:")
               :: map EPrint (needed_of (Py.splitlines output))) w).
Proof.
  intros Hdump Hrec. unfold CheckDependencies.
  unfold bind at 1. unfold objdump_p. rewrite Hdump.
  unfold bind at 1. unfold lift. rewrite scan_lines_spec, Hrec.
  cbn [rbind app fst].
  unfold bind at 1. unfold print at 1.
  unfold bind. rewrite print_all_run. unfold ret.
  now rewrite logged_emit.
Qed.

(** X8. With a dump whose version texts all parse, [CheckDependencies]
    prints its heading and then the NEEDED names of the dump in order, and
    leaves [versions] with the version of each version line appended
    under its library, in order. *)
Theorem CheckDependencies_reports (name path output : string)
  (versions versions' : Versions) (w : World) :
  lookup path (objdump w) = Some output ->
  record_all (versioned_of (Py.splitlines output)) versions = Ok versions' ->
  exists w',
    CheckDependencies name path versions w
    = (Ok (needed_of (Py.splitlines output), versions'), w') /\
    remote w' = remote w /\
    log w' = log w ++ EPrint ("List of " +++ name +++ " dependencies:")
                   :: map EPrint (needed_of (Py.splitlines output)).
Proof.
  intros Hdump Hrec. eexists. split.
  - now apply CheckDependencies_run.
  - split; reflexivity.
Qed.

(** The theorem at the dump of the example. *)
Lemma CheckDependencies_reports_witness :
  exists w',
    CheckDependencies "clangd" "/work/install/bin/clangd" []
      (mkWorld (mkRemote [] 1 []) []
               [("/work/install/bin/clangd", example_dump)] [])
    = (Ok (["libc.so.6"], [("GLIBC", [mkVersion 2 34 0])]), w') /\
    remote w' = mkRemote [] 1 [] /\
    log w' = [EPrint "List of clangd dependencies:"; EPrint "libc.so.6"].
Proof.
  exact (CheckDependencies_reports "clangd" "/work/install/bin/clangd"
           example_dump [] [("GLIBC", [mkVersion 2 34 0])]
           (mkWorld (mkRemote [] 1 []) []
                    [("/work/install/bin/clangd", example_dump)] [])
           eq_refl eq_refl).
Defined.

(** X9. One version line whose text after the last underscore is not a
    version makes [CheckDependencies] raise the [ValueError] of [int], for
    a component of the text of a version line of the dump; it has printed
    nothing by then, not even its heading. *)
Theorem CheckDependencies_aborts (name path output line library text : string)
  (e : exn) (versions : Versions) (w : World) :
  lookup path (objdump w) = Some output ->
  In line (Py.splitlines output) ->
  OBJDUMP_VERSION_REGEX line = Some (library, text) ->
  VersionImpl.init text = Raise e ->
  exists library' text' literal,
    In (library', text') (versioned_of (Py.splitlines output)) /\
    In literal (firstn 3 (Py.split "." text')) /\
    CheckDependencies name path versions w = (Raise (Py.int_error literal), w).
Proof.
  intros Hdump Hin Hm Hbad.
  destruct (record_all_fails _ library text e
              (versioned_of_in _ _ _ Hin Hm) Hbad versions)
    as (library' & text' & literal & Hin' & Hlit & Hrec).
  exists library', text', literal. split; [exact Hin' |].
  split; [exact Hlit |].
  unfold CheckDependencies.
  unfold bind at 1. unfold objdump_p. rewrite Hdump.
  unfold bind at 1. unfold lift. rewrite scan_lines_spec, Hrec.
  reflexivity.
Qed.

(** The theorem at a dump with a line of private symbols. *)
Lemma CheckDependencies_aborts_witness :
  exists library' text' literal,
    In (library', text')
       (versioned_of
          (Py.splitlines
             (example_dump +++ "    0x0963cf85 0x00 09 GLIBC_PRIVATE"))) /\
    In literal (firstn 3 (Py.split "." text')) /\
    CheckDependencies "clangd" "/work/install/bin/clangd" []
      (mkWorld (mkRemote [] 1 []) []
         [("/work/install/bin/clangd",
           example_dump +++ "    0x0963cf85 0x00 09 GLIBC_PRIVATE")] [])
    = (Raise (Py.int_error literal),
       mkWorld (mkRemote [] 1 []) []
         [("/work/install/bin/clangd",
           example_dump +++ "    0x0963cf85 0x00 09 GLIBC_PRIVATE")] []).
Proof.
  apply (CheckDependencies_aborts
           "clangd" "/work/install/bin/clangd"
           (example_dump +++ "    0x0963cf85 0x00 09 GLIBC_PRIVATE")
           "    0x0963cf85 0x00 09 GLIBC_PRIVATE" "GLIBC" "PRIVATE"
           (Py.int_error "PRIVATE")).
  - vm_compute. reflexivity.
  - vm_compute. right. right. now left.
  - vm_compute. reflexivity.
  - vm_compute. reflexivity.
Defined.

(** The run of the theorem above, with its message. *)
Example CheckDependencies_private :
  fst (CheckDependencies "clangd" "/work/install/bin/clangd" []
         (mkWorld (mkRemote [] 1 []) []
            [("/work/install/bin/clangd",
              example_dump +++ "    0x0963cf85 0x00 09 GLIBC_PRIVATE")] []))
  = Raise (ValueError "invalid literal for int() with base 10: 'PRIVATE'").
Proof. vm_compute. reflexivity. Qed.

(** A version text with a separator that is no whitespace of [int] does
    not parse, so the dump is not reported. *)
Example CheckDependencies_separator :
  CheckDependencies "clangd" "/work/install/bin/clangd" []
    (mkWorld (mkRemote [] 1 []) []
             [("/work/install/bin/clangd", separator_dump)] [])
  = (Raise (Py.int_error (String "031" "17")),
     mkWorld (mkRemote [] 1 []) []
             [("/work/install/bin/clangd", separator_dump)] []).
Proof. vm_compute. reflexivity. Qed.

(** ** CheckLlvm *)

Lemma record_all_nonempty (found : list (string * string)) :
  forall versions versions',
    Forall (fun entry => snd entry <> []) versions ->
    record_all found versions = Ok versions' ->
    Forall (fun entry => snd entry <> []) versions'.
Proof.
  induction found as [| [library text] rest IH]; intros versions versions' Hall;
    cbn [record_all].
  - intros H. injection H as <-. exact Hall.
  - destruct (VersionImpl.init text) as [v | e]; cbn [rbind]; [| discriminate].
    apply IH. now apply versions_append_nonempty.
Qed.

Lemma greatest_unique (values : list Version) (m m' : Version) :
  greatest_of values m -> greatest_of values m' -> m = m'.
Proof.
  intros [Hin Hmax] [Hin' Hmax'].
  destruct (lex_lt_trichotomy m m') as [H | [H | H]].
  - now apply Hmax in H.
  - exact H.
  - now apply Hmax' in H.
Qed.

Lemma greatest_all_unique (items : Versions) (maxima others : list Version) :
  Forall2 (fun entry m => greatest_of (snd entry) m) items maxima ->
  Forall2 (fun entry m => greatest_of (snd entry) m) items others ->
  others = maxima.
Proof.
  intros Hmax. revert others.
  induction Hmax as [| entry m items maxima Hm Hrest IH];
    intros others Hothers; inversion Hothers; subst; [reflexivity |].
  f_equal; [| now apply IH].
  eapply greatest_unique; eassumption.
Qed.

(** The loop over the libraries, none of which has an empty list. *)
Lemma print_maxima_run (items : Versions) :
  Forall (fun entry => snd entry <> []) items ->
  exists maxima,
    Forall2 (fun entry m => greatest_of (snd entry) m) items maxima /\
    forall w,
      print_maxima items w
      = (Ok tt, logged (map EPrint (maxima_lines items maxima)) w).
Proof.
  induction items as [| [library values] rest IH]; intros Hall.
  - exists []. split; [constructor |]. intros w. cbn [print_maxima].
    unfold ret. now rewrite logged_nothing.
  - apply Forall_cons_iff in Hall. destruct Hall as [Hne Hall].
    destruct (IH Hall) as (maxima & Hmax & Hrun).
    cbn [snd] in Hne. destruct values as [| first others]; [contradiction |].
    destruct (max_from_spec others first) as (m & Em & Hin & Hup).
    exists (m :: maxima). split.
    + constructor; [split; assumption | exact Hmax].
    + intros w. cbn [print_maxima max_version].
      unfold bind at 1. unfold lift. rewrite Em.
      unfold bind at 1. unfold print at 1.
      rewrite Hrun, logged_emit. reflexivity.
Qed.

(** X10. When both binaries have a dump whose version texts parse,
    [CheckLlvm] runs to its end: it prints its heading, the NEEDED names of
    [libclang.so], those of [clangd], and then one line per library of the
    version tables, in the order the libraries first came, with the one
    version of that library that none of its versions exceeds.  So
    [max] is never given an empty list. *)
Theorem CheckLlvm_reports (install_dir out_lib out_bin : string)
  (found_lib found : Versions) (w : World) :
  lookup (path_join (path_join install_dir "lib") "libclang.so") (objdump w)
  = Some out_lib ->
  lookup (path_join (path_join install_dir "bin") "clangd") (objdump w)
  = Some out_bin ->
  record_all (versioned_of (Py.splitlines out_lib)) [] = Ok found_lib ->
  record_all (versioned_of (Py.splitlines out_bin)) found_lib = Ok found ->
  exists maxima,
    Forall2 (fun entry m => greatest_of (snd entry) m) found maxima /\
    (forall others,
       Forall2 (fun entry m => greatest_of (snd entry) m) found others ->
       others = maxima) /\
    CheckLlvm install_dir w
    = (Ok tt,
       logged
         (EPrint "Checking LLVM dependencies."
            :: EPrint "List of libclang dependencies:"
            :: map EPrint (needed_of (Py.splitlines out_lib))
            ++ EPrint "List of clangd dependencies:"
            :: map EPrint (needed_of (Py.splitlines out_bin))
            ++ EPrint "Maximum versions required:"
            :: map EPrint (maxima_lines found maxima)) w).
Proof.
  intros Hlib Hbin Rlib Rbin.
  assert (Hne : Forall (fun entry => snd entry <> []) found).
  { eapply record_all_nonempty; [| exact Rbin].
    eapply record_all_nonempty; [constructor | exact Rlib]. }
  destruct (print_maxima_run found Hne) as (maxima & Hmax & Hrun).
  exists maxima. split; [exact Hmax |]. split.
  - intros others. now apply greatest_all_unique.
  - unfold CheckLlvm. cbv zeta.
    unfold bind at 1. unfold print at 1.
    rewrite (bind_ok _ _ _ _ _
               (CheckDependencies_run "libclang" _ out_lib [] found_lib
                                      (emit _ w) Hlib Rlib)).
    cbn [snd].
    rewrite (bind_ok _ _ _ _ _
               (CheckDependencies_run "clangd" _ out_bin found_lib found
                                      (logged _ (emit _ w)) Hbin Rbin)).
    cbn [snd].
    unfold bind at 1. unfold print at 1.
    rewrite Hrun. rewrite !logged_emit, !logged_twice.
    reflexivity.
Qed.

(** The theorem at an install directory whose two binaries need GLIBC
    2.34 and 2.17, and GLIBCXX 3.4.21. *)
Lemma CheckLlvm_reports_witness :
  exists maxima,
    Forall2 (fun entry m => greatest_of (snd entry) m)
            [("GLIBC", [mkVersion 2 34 0; mkVersion 2 17 0]);
             ("GLIBCXX", [mkVersion 3 4 21])]
            maxima /\
    (forall others,
       Forall2 (fun entry m => greatest_of (snd entry) m)
               [("GLIBC", [mkVersion 2 34 0; mkVersion 2 17 0]);
                ("GLIBCXX", [mkVersion 3 4 21])]
               others ->
       others = maxima) /\
    CheckLlvm "/work/install" example_install
    = (Ok tt,
       logged
         (EPrint "Checking LLVM dependencies."
            :: EPrint "List of libclang dependencies:"
            :: map EPrint (needed_of (Py.splitlines example_dump))
            ++ EPrint "List of clangd dependencies:"
            :: map EPrint (needed_of (Py.splitlines example_dump_clangd))
            ++ EPrint "Maximum versions required:"
            :: map EPrint
                 (maxima_lines
                    [("GLIBC", [mkVersion 2 34 0; mkVersion 2 17 0]);
                     ("GLIBCXX", [mkVersion 3 4 21])]
                    maxima)) example_install).
Proof.
  apply (CheckLlvm_reports "/work/install" example_dump example_dump_clangd
                           [("GLIBC", [mkVersion 2 34 0])]).
  - vm_compute. reflexivity.
  - vm_compute. reflexivity.
  - vm_compute. reflexivity.
  - vm_compute. reflexivity.
Defined.

(** ** GetTarget *)

Lemma string_of_list_free (c : ascii) (l : list ascii) :
  Forall (fun d => (d =? c)%char = false) l ->
  free_of c (string_of_list_ascii l) = true.
Proof.
  induction 1 as [| d l Hd _ IH]; cbn [string_of_list_ascii free_of];
    [reflexivity |].
  now rewrite Hd, IH.
Qed.

(** No line of [splitlines] holds a newline. *)
Lemma splitlines_from_free (s : string) :
  forall cur after_cr,
    Forall (fun d => (d =? "010")%char = false) cur ->
    Forall (fun line => free_of "010" line = true)
           (Py.splitlines_from s cur after_cr).
Proof.
  induction s as [| c r IH]; intros cur after_cr Hcur; cbn [Py.splitlines_from].
  - destruct cur; constructor; [| constructor].
    apply string_of_list_free. now apply Forall_rev.
  - destruct (after_cr && (c =? "010")%char); [apply IH; constructor |].
    destruct (Py.is_linebreak c) eqn:Hc.
    + constructor; [| apply IH; constructor].
      apply string_of_list_free. now apply Forall_rev.
    + apply IH. constructor; [| exact Hcur].
      destruct (Ascii.eqb_spec c "010") as [-> | _]; [discriminate | reflexivity].
Qed.

Lemma splitlines_free (s line : string) :
  In line (Py.splitlines s) -> free_of "010" line = true.
Proof.
  intros Hin.
  pose proof (splitlines_from_free s [] false (Forall_nil _)) as H.
  rewrite Forall_forall in H. now apply H.
Qed.

Lemma strip_prefix_none (p s : string) :
  Py.is_prefix p s = false -> Re.strip_prefix p s = None.
Proof.
  revert s. induction p as [| a p IH]; intros [| b s];
    cbn [Py.is_prefix Re.strip_prefix]; try discriminate; try reflexivity.
  destruct (a =? b)%char; cbn [andb]; [apply IH | reflexivity].
Qed.

Lemma first_target_skips (before rest : list string) (w : World) :
  Forall (fun line => Py.is_prefix "Target: " line = false) before ->
  first_target (before ++ rest) w = first_target rest w.
Proof.
  induction 1 as [| line before Hline _ IH]; [reflexivity |].
  cbn [app first_target]. unfold TARGET_REGEX.
  now rewrite (strip_prefix_none _ _ Hline).
Qed.

Lemma first_target_found (lines : list string) (target : string) (w w' : World) :
  Forall (fun line => free_of "010" line = true) lines ->
  first_target lines w = (Ok target, w') ->
  w' = w /\ In ("Target: " +++ target) lines.
Proof.
  induction 1 as [| line lines Hline _ IH]; cbn [first_target].
  - discriminate.
  - unfold TARGET_REGEX.
    destruct (Re.strip_prefix "Target: " line) as [rest |] eqn:E.
    + apply strip_prefix_inv in E. subst line.
      rewrite free_of_append in Hline. apply andb_true_iff in Hline.
      rewrite (dot_star_eol_free rest (proj2 Hline)).
      unfold ret. intros H. injection H as <- <-. split; [reflexivity | now left].
    + intros H. destruct (IH H) as [-> Hin]. split; [reflexivity | now right].
Qed.

(** X11. [GetTarget] returns what follows [Target: ] on the first line of
    the output that starts so, whatever the later lines are; it exits with
    its message when no line starts so; and what it returns is always the
    rest of such a line.  It leaves the world as it is. *)
Theorem GetTarget_first_line (output : string) (w : World) :
  (forall before target after,
     Py.splitlines output = before ++ ("Target: " +++ target) :: after ->
     Forall (fun line => Py.is_prefix "Target: " line = false) before ->
     GetTarget output w = (Ok target, w)) /\
  (Forall (fun line => Py.is_prefix "Target: " line = false)
          (Py.splitlines output) ->
   GetTarget output w = (Raise (SystemExit "Cannot deduce LLVM target."), w)) /\
  (forall target w',
     GetTarget output w = (Ok target, w') ->
     w' = w /\ In ("Target: " +++ target) (Py.splitlines output)).
Proof.
  unfold GetTarget. split; [| split].
  - intros before target after Hlines Hbefore.
    assert (Hfree : free_of "010" target = true).
    { assert (Hin : In ("Target: " +++ target) (Py.splitlines output)).
      { rewrite Hlines. apply in_or_app. right. now left. }
      apply splitlines_free in Hin. rewrite free_of_append in Hin.
      now apply andb_true_iff in Hin. }
    rewrite Hlines, (first_target_skips _ _ _ Hbefore).
    cbn [first_target]. unfold TARGET_REGEX.
    now rewrite strip_prefix_app, (dot_star_eol_free _ Hfree).
  - intros Hnone.
    rewrite <- (List.app_nil_r (Py.splitlines output)).
    now rewrite (first_target_skips _ _ _ Hnone).
  - intros target w'. apply first_target_found.
    rewrite Forall_forall. intros line. apply splitlines_free.
Qed.

(** The theorem at the output of a compiler that names its target on the
    second line and an installation directory after it. *)
Lemma GetTarget_first_line_witness :
  GetTarget ("clang version 18.1.0" +++ newline
               +++ "Target: x86_64-unknown-linux-gnu" +++ newline
               +++ "Thread model: posix" +++ newline
               +++ "Target: ignored" +++ newline)
            (example_world [])
  = (Ok "x86_64-unknown-linux-gnu", example_world []).
Proof.
  apply (proj1 (GetTarget_first_line _ (example_world []))
           ["clang version 18.1.0"] "x86_64-unknown-linux-gnu"
           ["Thread model: posix"; "Target: ignored"]).
  - vm_compute. reflexivity.
  - repeat constructor.
Defined.

(** ** ParseArguments *)

(** X12. [ParseArguments] changes nothing and ends in one of three ways.
    With a user name and a token at hand (on the command line and not
    empty, or else in the environment, where an empty value counts) it
    returns them with the version, the candidate and the organisation of
    the command line; a value of the command line that is not empty wins
    over the environment.  Without a user name it exits with the message
    about the user name, whatever the token; with a user name and no
    token, with the message about the token. *)
Theorem ParseArguments_credentials (parsed : Namespace)
  (environ : list (string * string)) (w : World) :
  snd (ParseArguments parsed environ w) = w /\
  (forall user token,
     credential (ns_gh_user parsed) "GITHUB_USERNAME" environ = Some user ->
     credential (ns_gh_token parsed) "GITHUB_TOKEN" environ = Some token ->
     fst (ParseArguments parsed environ w)
     = Ok (mkArgs (ns_version parsed) (ns_release_candidate parsed)
                  user token (ns_gh_org parsed))) /\
  (credential (ns_gh_user parsed) "GITHUB_USERNAME" environ = None ->
   fst (ParseArguments parsed environ w)
   = Raise (SystemExit
              "ERROR: Must specify either --gh-user or GITHUB_USERNAME in environment")) /\
  (forall user,
     credential (ns_gh_user parsed) "GITHUB_USERNAME" environ = Some user ->
     credential (ns_gh_token parsed) "GITHUB_TOKEN" environ = None ->
     fst (ParseArguments parsed environ w)
     = Raise (SystemExit
                "ERROR: Must specify either --gh-token or GITHUB_TOKEN in environment")) /\
  (forall user,
     ns_gh_user parsed = Some user -> user <> "" ->
     credential (ns_gh_user parsed) "GITHUB_USERNAME" environ = Some user) /\
  (forall token,
     ns_gh_token parsed = Some token -> token <> "" ->
     credential (ns_gh_token parsed) "GITHUB_TOKEN" environ = Some token).
Proof.
  unfold ParseArguments, credential, bind, sys_exit, raise, ret, unset.
  destruct parsed as [v rc user token org]. cbn [ns_gh_user ns_gh_token
    ns_version ns_release_candidate ns_gh_org].
  repeat split.
  - destruct user as [[| c r] |]; cbn [String.eqb];
      destruct (lookup "GITHUB_USERNAME" environ);
      destruct token as [[| d t] |]; cbn [String.eqb];
      destruct (lookup "GITHUB_TOKEN" environ); reflexivity.
  - intros u t Hu Ht.
    destruct user as [[| c r] |]; cbn [String.eqb]; rewrite ?Hu;
      try (injection Hu as <-);
      destruct token as [[| d s] |]; cbn [String.eqb]; rewrite ?Ht;
      try (injection Ht as <-); reflexivity.
  - intros Hu.
    destruct user as [[| c r] |]; cbn [String.eqb]; rewrite ?Hu;
      try discriminate; reflexivity.
  - intros u Hu Ht.
    destruct user as [[| c r] |]; cbn [String.eqb]; rewrite ?Hu;
      try (injection Hu as <-);
      destruct token as [[| d s] |]; cbn [String.eqb]; rewrite ?Ht;
      try discriminate; reflexivity.
  - intros u Hu Hne. subst user. now destruct u.
  - intros t Ht Hne. subst token. now destruct t.
Qed.

(** The theorem at a command line with an empty [--gh-user] and no
    [--gh-token], in an environment that holds both. *)
Lemma ParseArguments_credentials_witness :
  fst (ParseArguments example_parsed
         [("GITHUB_USERNAME", "bot"); ("GITHUB_TOKEN", "secret")]
         (example_world []))
  = Ok (mkArgs "18.1.0" (Some 2) "bot" "secret" "ycm-core").
Proof.
  apply (proj1 (proj2 (ParseArguments_credentials
                         example_parsed
                         [("GITHUB_USERNAME", "bot"); ("GITHUB_TOKEN", "secret")]
                         (example_world [])))
           "bot" "secret").
  - vm_compute. reflexivity.
  - vm_compute. reflexivity.
Defined.

(** ** GetBundleVersion *)

Lemma append_not_longer (a b : string) : b <> "" -> a +++ b <> a.
Proof.
  intros Hb E. apply (f_equal String.length) in E.
  rewrite length_append in E. destruct b; [contradiction | cbn in E; lia].
Qed.

(** X13. For one version, two runs get the same tag exactly when they
    have the same candidate, no candidate and candidate 0 being the same:
    the tag of a candidate is never the tag of the final release nor that
    of another candidate. *)
Theorem GetBundleVersion_tags (args args' : Args) :
  version args = version args' ->
  (GetBundleVersion args = GetBundleVersion args' <->
   candidate args = candidate args').
Proof.
  intros Hv. unfold GetBundleVersion, candidate. rewrite <- Hv.
  destruct (release_candidate args) as [a |],
           (release_candidate args') as [b |]; cbn [truthy].
  - destruct (Z.eqb_spec a 0) as [-> | Ha], (Z.eqb_spec b 0) as [-> | Hb];
      cbn [negb].
    + tauto.
    + split; [| discriminate]. intros E. symmetry in E.
      now apply append_not_longer in E.
    + split; [| discriminate]. intros E. now apply append_not_longer in E.
    + split.
      * intros E. apply append_inv_head in E.
        apply (append_inv_head "-rc") in E. now apply str_inj in E; subst.
      * intros E. now injection E as ->.
  - destruct (Z.eqb_spec a 0) as [-> | Ha]; cbn [negb]; [tauto |].
    split; [| discriminate]. intros E. now apply append_not_longer in E.
  - destruct (Z.eqb_spec b 0) as [-> | Hb]; cbn [negb]; [tauto |].
    split; [| discriminate]. intros E. symmetry in E.
    now apply append_not_longer in E.
  - tauto.
Qed.

(** The theorem at the final release and its candidate 0, which share
    their tag. *)
Lemma GetBundleVersion_tags_witness :
  GetBundleVersion example_args = GetBundleVersion candidate_zero_args <->
  candidate example_args = candidate candidate_zero_args.
Proof. apply (GetBundleVersion_tags example_args candidate_zero_args).
  reflexivity.
Defined.

(** ** Retries: recovery and pauses *)

Lemma Retries_loop_skip {A : Type} (function : M A) (n : nat) :
  forall nb w wn fuel,
    nb + Z.of_nat n <= 3 ->
    failures function n nb w = Some wn ->
    Retries_loop (n + fuel) function 3 nb w
    = Retries_loop fuel function 3 (nb + Z.of_nat n) wn.
Proof.
  induction n as [| n IH]; intros nb w wn fuel Hnb Hfail.
  - cbn [failures] in Hfail. injection Hfail as <-.
    cbn [Nat.add Z.of_nat]. now rewrite Z.add_0_r.
  - cbn [failures] in Hfail.
    destruct (function w) as [[a | e] w1] eqn:E; [discriminate |].
    destruct e; try discriminate.
    cbn [Nat.add]. rewrite (Retries_loop_failure _ _ _ _ _ _ _ E).
    destruct (Z.gtb_spec (nb + 1) 3) as [Hgt | _]; [lia |].
    rewrite (IH (nb + 1) _ wn fuel); [f_equal; lia | lia | exact Hfail].
Qed.

(** X14. [Retries] recovers from up to three failures in a row: when the
    next attempt succeeds it returns [True] in the world that attempt
    left, and when the next attempt raises anything but [SystemExit] it
    lets that exception through at once, without error line or pause. *)
Theorem Retries_recovers {A : Type} (function : M A) (n : nat)
  (w wn : World) (fuel : nat) :
  (n <= 3)%nat -> (n < fuel)%nat ->
  failures function n 0 w = Some wn ->
  (forall a w',
     function wn = (Ok a, w') ->
     Retries fuel function w = Some (Ok true, w')) /\
  (forall e w',
     function wn = (Raise e, w') -> (forall msg, e <> SystemExit msg) ->
     Retries fuel function w = Some (Raise e, w')).
Proof.
  intros Hn Hfuel Hfail.
  replace fuel with (n + S (fuel - n - 1))%nat by lia.
  unfold Retries. rewrite (Retries_loop_skip function n 0 w wn _); try lia;
    [| exact Hfail].
  split.
  - intros a w' E. now apply (Retries_loop_success _ _ _ _ _ _ a).
  - intros e w' E Hne. cbn [Retries_loop]. rewrite E.
    destruct e; try reflexivity. now destruct (Hne msg).
Qed.

(** The theorem at a store that is down for three requests: the fourth
    attempt publishes, after three pauses. *)
Lemma Retries_recovers_witness :
  exists w',
    Retries 4 (UploadLlvm example_args example_path)
            (example_world [true; true; true])
    = Some (Ok true, w') /\
    sleeps_of (log w') = [10; 10; 10] /\
    map (fun r => map asset_name (assets r)) (releases (remote w'))
    = [[example_name]].
Proof.
  eexists. split.
  - apply (proj1 (Retries_recovers
                    (UploadLlvm example_args example_path) 3
                    (example_world [true; true; true])
                    (match failures (UploadLlvm example_args example_path) 3 0
                                    (example_world [true; true; true]) with
                     | Some w => w
                     | None => example_world []
                     end)
                    4 ltac:(lia) ltac:(lia) ltac:(vm_compute; reflexivity))
             tt).
    vm_compute. reflexivity.
  - vm_compute. split; reflexivity.
Defined.

Lemma sleeps_of_emit (e : Event) (w : World) :
  sleeps_of (log (emit e w)) = sleeps_of (log w) ++ sleeps_of [e].
Proof. unfold emit, sleeps_of. cbn [log]. apply flat_map_app. Qed.

Lemma Retries_loop_pauses {A : Type} (function : M A) (fuel : nat) :
  never_sleeps function ->
  forall nb w,
    0 <= nb <= 3 -> (Z.to_nat (4 - nb) <= fuel)%nat ->
    exists r w' k,
      Retries_loop fuel function 3 nb w = Some (r, w') /\
      Z.of_nat k <= 3 - nb /\
      sleeps_of (log w') = sleeps_of (log w) ++ repeat 10 k /\
      (forall msg, r = Raise (SystemExit msg) ->
         msg = "Number of retries exceeded (3). Aborting." /\
         Z.of_nat k = 3 - nb).
Proof.
  intros Hquiet.
  induction fuel as [| fuel IH]; intros nb w Hnb Hfuel; [lia |].
  pose proof (Hquiet w) as Hw.
  destruct (function w) as [[a | e] w1] eqn:E; cbn [snd] in Hw.
  - exists (Ok true), w1, 0%nat.
    rewrite (Retries_loop_success _ _ _ _ _ _ a E).
    cbn [repeat]. rewrite List.app_nil_r.
    split; [reflexivity |]. split; [lia |]. split; [exact Hw |].
    intros msg Hmsg. discriminate.
  - destruct e as [msg | | | | | |];
      try (eexists _, w1, 0%nat; cbn [Retries_loop]; rewrite E;
           cbn [repeat]; rewrite List.app_nil_r;
           split; [reflexivity |]; split; [lia |]; split; [exact Hw |];
           intros m Hm; discriminate).
    rewrite (Retries_loop_failure _ _ _ _ _ _ _ E).
    destruct (Z.gtb_spec (nb + 1) 3) as [Hgt | Hle].
    + eexists _, _, 0%nat. split; [reflexivity |].
      rewrite sleeps_of_emit. cbn [sleeps_of flat_map repeat].
      rewrite !List.app_nil_r.
      split; [lia |]. split; [exact Hw |].
      intros m Hm. injection Hm as <-. split; [reflexivity | lia].
    + destruct (IH (nb + 1) (after_failure msg (nb + 1) w1))
        as (r & w' & k & Hrun & Hk & Hsleeps & Hexit); try lia.
      exists r, w', (S k). split; [exact Hrun |].
      split; [lia |]. split.
      * rewrite Hsleeps. unfold after_failure.
        rewrite !sleeps_of_emit, Hw. cbn [sleeps_of flat_map app repeat].
        now rewrite List.app_nil_r, <- List.app_assoc.
      * intros m Hm. destruct (Hexit m Hm). split; [assumption | lia].
Qed.

(** X15. Whatever an operation that never pauses does, [Retries] returns,
    having added at most three pauses of ten seconds each and nothing else
    to the pauses of the run; when it ends in [SystemExit], the message is
    its own, not one of the operation, and the pauses were three. *)
Theorem Retries_pauses {A : Type} (function : M A) (fuel : nat) (w : World) :
  never_sleeps function -> (4 <= fuel)%nat ->
  exists r w' k,
    Retries fuel function w = Some (r, w') /\
    (k <= 3)%nat /\
    sleeps_of (log w') = sleeps_of (log w) ++ repeat RETRY_INTERVAL k /\
    (forall msg, r = Raise (SystemExit msg) ->
       msg = "Number of retries exceeded (3). Aborting." /\ k = 3%nat).
Proof.
  intros Hquiet Hfuel. unfold Retries.
  destruct (Retries_loop_pauses function fuel Hquiet 0 w)
    as (r & w' & k & Hrun & Hk & Hsleeps & Hexit); try lia.
  exists r, w', k. split; [exact Hrun |]. split; [lia |].
  split; [exact Hsleeps |].
  intros msg Hmsg. destruct (Hexit msg Hmsg). split; [assumption | lia].
Qed.

Lemma failing_listing_never_sleeps : never_sleeps failing_listing.
Proof.
  intros w. unfold failing_listing, bind, http, sys_exit, raise.
  destruct (Store.serve (remote w) _). cbn [snd log].
  unfold sleeps_of. rewrite flat_map_app. cbn [flat_map].
  now rewrite List.app_nil_r.
Qed.

(** The theorem at an operation that asks for the listing and exits. *)
Lemma Retries_pauses_witness :
  exists r w' k,
    Retries 4 failing_listing (example_world []) = Some (r, w') /\
    (k <= 3)%nat /\
    sleeps_of (log w')
    = sleeps_of (log (example_world [])) ++ repeat RETRY_INTERVAL k /\
    (forall msg, r = Raise (SystemExit msg) ->
       msg = "Number of retries exceeded (3). Aborting." /\ k = 3%nat).
Proof.
  apply (Retries_pauses failing_listing 4 (example_world [])).
  - exact failing_listing_never_sleeps.
  - lia.
Defined.

(** ** BundleLlvm: shared libraries and their mode *)

Lemma so_versions_digits (digits tail : string) :
  digits <> "" -> all_digits digits = true -> so_versions tail = true ->
  (fix digits (t : string) : bool :=
     match t with
     | String d t' => Py.is_digit d && (so_versions t' || digits t')
     | EmptyString => false
     end) (digits +++ tail) = true.
Proof.
  intros Hne Hdig Htail. induction digits as [| d digits IH]; [contradiction |].
  cbn [all_digits] in Hdig. apply andb_true_iff in Hdig.
  destruct Hdig as [Hd Hdig]. cbn [append]. rewrite Hd. cbn [andb].
  destruct digits as [| d' digits].
  - cbn [append]. now rewrite Htail.
  - rewrite IH; [apply orb_true_r | discriminate | exact Hdig].
Qed.

Lemma join_blocks (parts : list string) :
  Py.join "" parts = fold_right append "" parts.
Proof.
  induction parts as [| p [| q parts] IH]; cbn [Py.join fold_right].
  - reflexivity.
  - now rewrite append_empty_r.
  - cbn [Py.join fold_right] in IH. now rewrite IH.
Qed.

Lemma so_versions_blocks (blocks : list string) :
  Forall (fun digits => digits <> "" /\ all_digits digits = true) blocks ->
  so_versions (Py.join "" (map (fun digits => "." +++ digits) blocks)) = true.
Proof.
  rewrite join_blocks.
  induction 1 as [| digits blocks [Hne Hdig] _ IH]; [reflexivity |].
  cbn [map fold_right].
  change (("." +++ digits) +++ ?x) with (String "." (digits +++ x)).
  cbn [so_versions]. cbn [Ascii.eqb Bool.eqb andb negb orb].
  now apply so_versions_digits.
Qed.

Lemma SHARED_LIBRARY_REGEX_eq (filename : string) :
  SHARED_LIBRARY_REGEX filename
  = match Re.strip_prefix ".so" filename with
    | Some rest => so_versions rest
    | None => false
    end
    || match filename with
       | String c r => negb (c =? "010")%char && SHARED_LIBRARY_REGEX r
       | EmptyString => false
       end.
Proof. now destruct filename. Qed.

Lemma shared_library_stem (stem tail : string) :
  free_of "010" stem = true ->
  SHARED_LIBRARY_REGEX tail = true ->
  SHARED_LIBRARY_REGEX (stem +++ tail) = true.
Proof.
  intros Hfree Htail. induction stem as [| c stem IH]; [exact Htail |].
  cbn [free_of] in Hfree. apply andb_true_iff in Hfree.
  destruct Hfree as [Hc Hfree].
  cbn [append SHARED_LIBRARY_REGEX].
  rewrite Hc, (IH Hfree). apply orb_true_r.
Qed.

Lemma shared_library_infix (name : string) :
  SHARED_LIBRARY_REGEX name = true -> is_infix ".so" name = true.
Proof.
  induction name as [| c name IH].
  - discriminate.
  - cbn [SHARED_LIBRARY_REGEX is_infix].
    intros H. apply orb_true_iff in H. apply orb_true_iff.
    destruct H as [H | H].
    + left.
      destruct (Re.strip_prefix ".so" (String c name)) as [rest |] eqn:E;
        [| discriminate].
      apply strip_prefix_inv in E. now rewrite E.
    + right. apply andb_true_iff in H. now apply IH.
Qed.

(** X16. The names [BundleLlvm] takes for shared libraries: a name without
    newline that ends in [.so], or in [.so] followed by blocks of a dot and
    digits, is one; and no name without [.so] in it is one. *)
Theorem shared_library_names :
  (forall stem blocks,
     free_of "010" stem = true ->
     Forall (fun digits => digits <> "" /\ all_digits digits = true) blocks ->
     SHARED_LIBRARY_REGEX
       (stem +++ ".so" +++ Py.join "" (map (fun digits => "." +++ digits) blocks))
     = true) /\
  (forall name,
     is_infix ".so" name = false -> SHARED_LIBRARY_REGEX name = false).
Proof.
  split.
  - intros stem blocks Hstem Hblocks. apply shared_library_stem; [exact Hstem |].
    rewrite SHARED_LIBRARY_REGEX_eq, strip_prefix_app.
    now rewrite (so_versions_blocks blocks Hblocks).
  - intros name Hno. destruct (SHARED_LIBRARY_REGEX name) eqn:E; [| reflexivity].
    apply shared_library_infix in E. congruence.
Qed.

(** The theorem at [libclang.so.18.1] and at [clang]. *)
Lemma shared_library_names_witness :
  SHARED_LIBRARY_REGEX "libclang.so.18.1" = true /\
  SHARED_LIBRARY_REGEX "clang" = false.
Proof.
  split.
  - apply (proj1 shared_library_names "libclang" ["18"; "1"]).
    + reflexivity.
    + repeat constructor; discriminate.
  - apply (proj2 shared_library_names "clang"). reflexivity.
Defined.

(** The bits of [0o444]: read for the user, the group and the others. *)
Lemma read_bits (i : Z) :
  0 <= i ->
  Z.testbit 292 i = (i =? 2) || (i =? 5) || (i =? 8).
Proof.
  intros Hi. destruct (Z.le_gt_cases 9 i) as [Hbig | Hsmall].
  - rewrite Z.bits_above_log2 by (cbn; lia).
    destruct (Z.eqb_spec i 2), (Z.eqb_spec i 5), (Z.eqb_spec i 8);
      try lia; reflexivity.
  - assert (H : i = 0 \/ i = 1 \/ i = 2 \/ i = 3 \/ i = 4 \/ i = 5 \/ i = 6
                \/ i = 7 \/ i = 8) by lia.
    repeat (destruct H as [-> | H]; [reflexivity |]). now subst.
Qed.

Lemma BundleLlvm_mode_bit (filename : string) (mode i : Z) :
  SHARED_LIBRARY_REGEX filename = true -> 0 <= i ->
  Z.testbit (BundleLlvm_mode filename mode) i
  = Z.testbit mode i
    || (((i =? 0) || (i =? 3) || (i =? 6)) && Z.testbit mode (i + 2)).
Proof.
  intros Hso Hi. unfold BundleLlvm_mode. rewrite Hso.
  rewrite Z.lor_spec, Z.shiftr_spec, Z.land_spec by exact Hi.
  rewrite read_bits by lia.
  replace (i + 2 =? 2) with (i =? 0)
    by (destruct (Z.eqb_spec i 0), (Z.eqb_spec (i + 2) 2); lia || reflexivity).
  replace (i + 2 =? 5) with (i =? 3)
    by (destruct (Z.eqb_spec i 3), (Z.eqb_spec (i + 2) 5); lia || reflexivity).
  replace (i + 2 =? 8) with (i =? 6)
    by (destruct (Z.eqb_spec i 6), (Z.eqb_spec (i + 2) 8); lia || reflexivity).
  now rewrite andb_comm.
Qed.

(** X17. The mode [BundleLlvm] gives a shared library: every bit that was
    set stays set; the only bits added are the three execute bits, each
    exactly when the read bit of the same class is set; so a library
    nobody can read gets no execute bit, and applying the change twice is
    applying it once. *)
Theorem BundleLlvm_mode_bits (filename : string) (mode : Z) :
  SHARED_LIBRARY_REGEX filename = true ->
  (forall i, 0 <= i ->
     Z.testbit (BundleLlvm_mode filename mode) i
     = Z.testbit mode i
       || (((i =? 0) || (i =? 3) || (i =? 6)) && Z.testbit mode (i + 2))) /\
  (Z.land mode 292 = 0 -> BundleLlvm_mode filename mode = mode) /\
  BundleLlvm_mode filename (BundleLlvm_mode filename mode)
  = BundleLlvm_mode filename mode.
Proof.
  intros Hso. split; [intros i; now apply BundleLlvm_mode_bit |]. split.
  - intros Hnone. unfold BundleLlvm_mode. rewrite Hso, Hnone.
    rewrite Z.shiftr_0_l. apply Z.lor_0_r.
  - apply Z.bits_inj'. intros i Hi.
    rewrite !(BundleLlvm_mode_bit filename _ _ Hso) by lia.
    set (a := Z.testbit mode i). set (b := Z.testbit mode (i + 2)).
    set (c := Z.testbit mode (i + 2 + 2)). clearbody a b c.
    destruct (Z.eqb_spec i 0), (Z.eqb_spec i 3), (Z.eqb_spec i 6),
      (Z.eqb_spec (i + 2) 0), (Z.eqb_spec (i + 2) 3), (Z.eqb_spec (i + 2) 6);
      try lia; destruct a, b, c; reflexivity.
Qed.

(** The theorem at [libclang.so] with the modes 0o644 and 0o200. *)
Lemma BundleLlvm_mode_bits_witness :
  BundleLlvm_mode "libclang.so" (BundleLlvm_mode "libclang.so" 420)
  = BundleLlvm_mode "libclang.so" 420 /\
  BundleLlvm_mode "libclang.so" 420 = 493 /\
  BundleLlvm_mode "libclang.so" 128 = 128.
Proof.
  split; [| split].
  - apply (proj2 (proj2 (BundleLlvm_mode_bits "libclang.so" 420 eq_refl))).
  - reflexivity.
  - apply (proj1 (proj2 (BundleLlvm_mode_bits "libclang.so" 128 eq_refl))).
    reflexivity.
Defined.

(** ** UploadLlvm: the store down, the archive missing, the other releases *)

(** X18. When the store is down for the first request, [UploadLlvm] exits
    with the message of the listing and that of the store; it has sent
    the one request, and the releases are as they were. *)
Theorem UploadLlvm_store_down (args : Args) (bundle_path : string) (w : World)
  (later : list bool) :
  faults (remote w) = true :: later ->
  UploadLlvm args bundle_path w
  = (Raise (SystemExit "Getting releases failed with message: Server Error"),
     mkWorld (mkRemote (releases (remote w)) (next_id (remote w)) later)
             (files w) (objdump w)
             (log w ++ [ERequest (GetReleases (gh_org args) "llvm"
                                              (auth_of args))])).
Proof.
  intros Hdown. unfold UploadLlvm. cbv zeta.
  unfold bind at 1. unfold http, Store.serve. rewrite Hdown.
  reflexivity.
Qed.

(** The theorem at the store of the example, down once. *)
Lemma UploadLlvm_store_down_witness :
  UploadLlvm example_args example_path (example_world [true])
  = (Raise (SystemExit "Getting releases failed with message: Server Error"),
     mkWorld (mkRemote [] 1 []) [(example_path, "archive")] []
             [ERequest (GetReleases "ycm-core" "llvm" example_auth)]).
Proof.
  apply (UploadLlvm_store_down example_args example_path
                               (example_world [true]) []).
  reflexivity.
Defined.

(** X19. When the archive is not where [UploadLlvm] looks for it, the run
    ends in [FileNotFoundError], but only after the loop over the listing
    and the creation of the release: the first asset with the name of the
    archive is deleted from each release with the tag, or the release is
    created and left empty, and nothing is uploaded. *)
Theorem UploadLlvm_missing_archive (args : Args) (bundle_path : string)
  (w : World) :
  faults (remote w) = [] -> store_ok (remote w) ->
  lookup bundle_path (files w) = None ->
  exists w' events,
    UploadLlvm args bundle_path w = (Raise (FileNotFoundError bundle_path), w') /\
    log w' = log w ++ events /\
    releases (remote w')
    = match last_tagged (GetBundleVersion args) (releases (remote w)) with
      | Some _ => map (reconcile (GetBundleVersion args) (basename bundle_path))
                      (releases (remote w))
      | None => releases (remote w)
                  ++ [created_release args (next_id (remote w))]
      end /\
    requests_of events
    = GetReleases (gh_org args) "llvm" (auth_of args)
      :: map (fun id => DeleteAsset (gh_org args) "llvm" id
                                    (GetBundleVersion args) (auth_of args))
             (doomed (GetBundleVersion args) (basename bundle_path)
                     (releases (remote w)))
      ++ match last_tagged (GetBundleVersion args) (releases (remote w)) with
         | Some _ => []
         | None => [create_request args]
         end.
Proof.
  intros Hup [Hrel Hast Hbelow _] Hfile.
  unfold UploadLlvm. cbv zeta.
  match goal with
  | |- exists _ _, bind _ (fun _ => bind _ (fun _ => bind _ (fun _ => bind _ ?k))) _ = _ /\ _ =>
      destruct (locate_run args (GetBundleVersion args) (basename bundle_path)
                           w k Hup Hast) as (events & E & R)
  end.
  rewrite E. clear E.
  destruct (last_tagged (GetBundleVersion args) (releases (remote w)))
    as [target |] eqn:Hlast; cbn [option_map].
  - rewrite upload_url_set.
    rewrite (bind_ok _ _ _ _ _ (eq_refl : ret _ _ = (Ok _, _))).
    unfold bind at 1. unfold open_rb. cbn [with_store files]. rewrite Hfile.
    eexists. eexists. split; [reflexivity |].
    cbn [with_store log remote releases].
    split; [reflexivity |]. split; [reflexivity |].
    change (requests_of (ERequest ?r :: events))
      with (r :: requests_of events).
    now rewrite R, List.app_nil_r.
  - pose proof (proj1 (last_tagged_none _ _) Hlast) as Hnone.
    cbn [unset].
    rewrite (reconcile_untagged _ _ _ Hnone).
    rewrite (doomed_untagged _ _ _ Hnone) in R |- *.
    set (w1 := with_store (releases (remote w)) _ w).
    assert (Hup1 : faults (remote w1) = []) by exact Hup.
    match goal with
    | |- exists _ _, bind ?m _ _ = _ /\ _ =>
        assert (C : m w1
                    = (Ok (Store.upload_url (next_id (remote w))),
                       mkWorld
                         (mkRemote
                            (releases (remote w)
                               ++ [created_release args (next_id (remote w))])
                            (next_id (remote w) + 1) [])
                         (files w) (objdump w)
                         (log w1 ++ [EPrint ("Releasing " +++ GetBundleVersion args
                                               +++ " on GitHub.");
                                     ERequest (create_request args)])))
    end.
    { unfold bind at 1. unfold print at 1.
      rewrite (bind_ok _ _ _ _ _ (http_up _ (emit _ w1) Hup1)).
      cbn [emit remote files objdump log Store.handle fst snd status_code body].
      unfold bind at 1. cbn [Z.eqb Pos.eqb negb]. unfold ret.
      subst w1. cbn [with_store remote releases next_id faults files objdump].
      rewrite Hup, <- List.app_assoc. reflexivity. }
    rewrite (bind_ok _ _ _ _ _ C). clear C.
    unfold bind at 1. unfold open_rb. cbn [files]. rewrite Hfile.
    eexists. eexists. split; [reflexivity |].
    cbn [log remote releases]. subst w1. cbn [with_store log].
    rewrite <- List.app_assoc.
    split; [reflexivity |]. split; [reflexivity |].
    rewrite requests_of_app.
    change (requests_of (ERequest ?r :: events))
      with (r :: requests_of events).
    rewrite R. reflexivity.
Qed.

(** The theorem at a release that holds the archive twice over, on a
    machine where the archive is gone: one of the two is deleted. *)
Lemma UploadLlvm_missing_archive_witness :
  exists w',
    UploadLlvm example_args example_path archive_lost_world
    = (Raise (FileNotFoundError example_path), w') /\
    map (fun r => map asset_id (assets r)) (releases (remote w')) = [[3]].
Proof.
  destruct (UploadLlvm_missing_archive example_args example_path
              archive_lost_world eq_refl duplicated_world_ok eq_refl)
    as (w' & events & E & _ & Hrs & _).
  exists w'. split; [exact E |]. rewrite Hrs. reflexivity.
Defined.

Lemma same_id_same_release (rs : list Release) (r r0 : Release) :
  NoDup (map release_id rs) -> In r rs -> In r0 rs ->
  release_id r = release_id r0 -> r = r0.
Proof.
  induction rs as [| x rs IH]; cbn [map In]; intros Hnd Hr Hr0 Hid;
    [contradiction |].
  apply NoDup_cons_iff in Hnd. destruct Hnd as [Hx Hnd].
  destruct Hr as [-> | Hr], Hr0 as [-> | Hr0].
  - reflexivity.
  - exfalso. apply Hx. rewrite Hid. now apply in_map.
  - exfalso. apply Hx. rewrite <- Hid. now apply in_map.
  - now apply IH.
Qed.

Lemma filter_untagged_published (tag name : string) (target : Z) (a : Asset)
  (rs : list Release) :
  (forall r, In r rs -> tagged tag r = false -> release_id r <> target) ->
  filter (untagged tag)
         (map (fun r => receive target a (reconcile tag name r)) rs)
  = filter (untagged tag) rs.
Proof.
  induction rs as [| r rs IH]; intros Hother; [reflexivity |].
  cbn [map filter].
  replace (untagged tag (receive target a (reconcile tag name r)))
    with (untagged tag r) by (unfold untagged; now rewrite published_tagged).
  rewrite IH by (intros r' Hin; apply Hother; now right).
  assert (Hu : untagged tag r = negb (tagged tag r)) by reflexivity.
  rewrite Hu.
  destruct (tagged tag r) eqn:Ht; cbn [negb]; [reflexivity |].
  f_equal. unfold reconcile. rewrite Ht. unfold receive.
  destruct (Z.eqb_spec (release_id r) target) as [E | _]; [| reflexivity].
  exfalso. apply (Hother r); [now left | exact Ht | exact E].
Qed.

(** X20. A publish run on a store that is up and in order leaves alone
    what it is not about: the releases with another tag are as they were,
    no release is removed, the identifiers stay in order, and the files of
    the machine are untouched. *)
Theorem UploadLlvm_frame (args : Args) (bundle_path data : string) (w : World) :
  faults (remote w) = [] -> store_ok (remote w) ->
  lookup bundle_path (files w) = Some data ->
  exists w',
    UploadLlvm args bundle_path w = (Ok tt, w') /\
    filter (untagged (GetBundleVersion args)) (releases (remote w'))
    = filter (untagged (GetBundleVersion args)) (releases (remote w)) /\
    (exists added,
       map release_id (releases (remote w'))
       = map release_id (releases (remote w)) ++ added) /\
    store_ok (remote w') /\
    files w' = files w /\ objdump w' = objdump w.
Proof.
  intros Hup Hok Hfile.
  destruct (last_tagged (GetBundleVersion args) (releases (remote w)))
    as [target |] eqn:Hlast.
  - destruct (UploadLlvm_found args bundle_path data target w
                Hup Hok Hfile Hlast) as (events & E & _).
    eexists. split; [exact E |]. cbn [remote releases files objdump].
    split; [| split; [| split; [| split; reflexivity]]].
    + apply filter_untagged_published. intros r Hin Ht Hid.
      destruct (last_tagged_in _ _ _ Hlast) as (r0 & Hin0 & Ht0 & Hid0).
      assert (r = r0).
      { apply (same_id_same_release (releases (remote w)));
          [apply (release_ids_unique _ Hok) | assumption | assumption | congruence]. }
      congruence.
    + exists []. now rewrite published_release_ids, List.app_nil_r.
    + now apply store_ok_found.
  - destruct (UploadLlvm_creates args bundle_path data w Hup Hok Hfile Hlast)
      as (events & E & _).
    eexists. split; [exact E |]. cbn [remote releases files objdump].
    split; [| split; [| split; [| split; reflexivity]]].
    + rewrite filter_app. cbn [filter]. unfold untagged at 2, tagged.
      cbn [tag_name]. rewrite String.eqb_refl. cbn [negb].
      apply List.app_nil_r.
    + eexists. now rewrite map_app.
    + now apply store_ok_created.
Qed.

(** The theorem at the store that holds the archive twice over. *)
Lemma UploadLlvm_frame_witness :
  exists w',
    UploadLlvm example_args example_path duplicated_world = (Ok tt, w') /\
    filter (untagged "18.1.0") (releases (remote w'))
    = filter (untagged "18.1.0") (releases (remote duplicated_world)) /\
    map release_id (releases (remote w')) = [1] /\
    files w' = files duplicated_world.
Proof.
  destruct (UploadLlvm_frame example_args example_path "archive"
              duplicated_world eq_refl duplicated_world_ok eq_refl)
    as (w' & E & Hother & (added & Hids) & _ & Hfiles & _).
  exists w'. split; [exact E |]. split; [exact Hother |].
  split; [| exact Hfiles].
  pose proof E as E'. vm_compute in E'. injection E' as <-. reflexivity.
Defined.

(** ** Main: the name of the asset *)

Lemma exists_slash (s : string) :
  existsb (fun d => (d =? "/")%char) (list_ascii_of_string s)
  = negb (free_of "/" s).
Proof.
  induction s as [| c s IH]; cbn [list_ascii_of_string existsb free_of];
    [reflexivity |].
  rewrite IH. now destruct (c =? "/")%char, (free_of "/" s).
Qed.

Lemma basename_free (b : string) : free_of "/" b = true -> basename b = b.
Proof.
  destruct b as [| c r]; [reflexivity |]. cbn [free_of basename].
  intros H. apply andb_true_iff in H. destruct H as [Hc Hr].
  apply negb_true_iff in Hc. now rewrite Hc, exists_slash, Hr.
Qed.

Lemma basename_after_slash (a b : string) :
  free_of "/" b = true -> basename (a +++ String "/" b) = b.
Proof.
  intros Hb. induction a as [| c a IH]; cbn [append basename].
  - rewrite Ascii.eqb_refl. now apply basename_free.
  - destruct (c =? "/")%char; [exact IH |].
    rewrite exists_slash, free_of_append. cbn [free_of].
    rewrite Ascii.eqb_refl. cbn [negb andb]. now rewrite andb_false_r.
Qed.

Lemma ends_with_slash_inv (a : string) :
  ends_with_slash a = true -> exists a0, a = a0 +++ "/".
Proof.
  induction a as [| c a IH]; [discriminate |].
  cbn [ends_with_slash]. destruct a as [| d a].
  - intros H. apply Ascii.eqb_eq in H. subst c. now exists "".
  - intros H. destruct (IH H) as [a0 E]. exists (String c a0).
    cbn [append]. now rewrite <- E.
Qed.

(** The archive of a version and a target without slash, joined to any
    directory, is found by [os.path.basename]. *)
Lemma Main_asset_name (dir : string) (args : Args) (target : string) :
  free_of "/" (version args) = true -> free_of "/" target = true ->
  basename (path_join dir (BUNDLE_NAME (GetBundleVersion args) target
                             +++ ".tar.xz"))
  = BUNDLE_NAME (GetBundleVersion args) target +++ ".tar.xz".
Proof.
  intros Hv Ht.
  assert (Hfree : free_of "/" (BUNDLE_NAME (GetBundleVersion args) target
                                 +++ ".tar.xz") = true).
  { unfold BUNDLE_NAME. rewrite !free_of_append, Ht.
    assert (Htag : free_of "/" (GetBundleVersion args) = true).
    { unfold GetBundleVersion.
      destruct (release_candidate args) as [rc |]; [| exact Hv].
      destruct (truthy (Some rc)); [| exact Hv].
      rewrite !free_of_append, Hv. now rewrite str_free_of. }
    now rewrite Htag. }
  set (archive := BUNDLE_NAME (GetBundleVersion args) target +++ ".tar.xz") in *.
  assert (Hjoin : path_join dir archive
                  = if (dir =? "")%string || ends_with_slash dir
                    then dir +++ archive else dir +++ "/" +++ archive)
    by reflexivity.
  rewrite Hjoin.
  destruct (String.eqb_spec dir "") as [-> | _]; cbn [orb].
  - now apply basename_free.
  - destruct (ends_with_slash dir) eqn:Hs.
    + destruct (ends_with_slash_inv dir Hs) as [a0 ->].
      rewrite append_assoc. now apply basename_after_slash.
    + now apply basename_after_slash.
Qed.

(** X21. [Main], with a version and a target that hold no slash, a store
    that is up and in order and the archive in place, publishes the
    archive under its own file name, [clang+llvm-<tag>-<target>.tar.xz]:
    the last request of the run uploads the archive under that name, and
    afterwards a release with the tag of the run holds an asset of that
    name with the content of the archive. *)
Theorem Main_publishes_archive (dir : string) (args : Args)
  (target data : string) (w : World) :
  let archive := BUNDLE_NAME (GetBundleVersion args) target +++ ".tar.xz" in
  free_of "/" (version args) = true -> free_of "/" target = true ->
  faults (remote w) = [] -> store_ok (remote w) ->
  lookup (path_join dir archive) (files w) = Some data ->
  exists w' events id r a,
    Main dir args target w = (Ok tt, w') /\
    log w' = log w ++ events /\
    last (requests_of events) (GetReleases "" "" ("", ""))
    = PostAsset (Store.upload_endpoint id) archive "application/x-xz" data
                (auth_of args) /\
    In r (releases (remote w')) /\ release_id r = id /\
    tag_name r = GetBundleVersion args /\
    In a (assets r) /\ asset_name a = archive /\ asset_data a = data.
Proof.
  intros archive Hv Ht Hup Hok Hfile. unfold Main. cbv zeta.
  fold archive.
  pose proof (Main_asset_name dir args target Hv Ht) as Hname.
  fold archive in Hname.
  destruct (last_tagged (GetBundleVersion args) (releases (remote w)))
    as [found |] eqn:Hlast.
  - destruct (UploadLlvm_found args (path_join dir archive) data found w
                Hup Hok Hfile Hlast) as (events & E & R).
    destruct (last_tagged_in _ _ _ Hlast) as (r0 & Hin0 & Ht0 & Hid0).
    rewrite Hname in *.
    eexists. exists events, found. eexists. eexists.
    split; [exact E |]. cbn [log remote releases].
    split; [reflexivity |]. split.
    + rewrite R, app_comm_cons. apply last_last.
    + split; [apply in_map; exact Hin0 |].
      split; [unfold receive; destruct (release_id _ =? found);
              cbn [Store.set_assets release_id]; now rewrite reconcile_id |].
      split.
      * unfold receive. rewrite reconcile_id, Hid0, Z.eqb_refl.
        cbn [Store.set_assets tag_name]. rewrite reconcile_tag.
        unfold tagged in Ht0. now apply String.eqb_eq in Ht0.
      * unfold receive. rewrite reconcile_id, Hid0, Z.eqb_refl.
        cbn [Store.set_assets assets].
        split; [apply in_or_app; right; now left |].
        split; reflexivity.
  - destruct (UploadLlvm_creates args (path_join dir archive) data w
                Hup Hok Hfile Hlast) as (events & E & R).
    rewrite Hname in *.
    eexists. exists events, (next_id (remote w)). eexists. eexists.
    split; [exact E |]. cbn [log remote releases].
    split; [reflexivity |]. split.
    + rewrite R. unfold upload_request. now rewrite Hname.
    + split; [apply in_or_app; right; now left |].
      cbn [release_id tag_name assets].
      split; [reflexivity |]. split; [reflexivity |].
      split; [now left |]. split; reflexivity.
Qed.

(** The theorem at the run of the example. *)
Lemma Main_publishes_archive_witness :
  exists w' events id r a,
    Main "/work" example_args example_target (example_world []) = (Ok tt, w') /\
    log w' = log (example_world []) ++ events /\
    last (requests_of events) (GetReleases "" "" ("", ""))
    = PostAsset (Store.upload_endpoint id) example_name "application/x-xz"
                "archive" example_auth /\
    In r (releases (remote w')) /\ release_id r = id /\
    tag_name r = "18.1.0" /\
    In a (assets r) /\ asset_name a = example_name /\ asset_data a = "archive".
Proof.
  apply (Main_publishes_archive "/work" example_args example_target "archive"
                                (example_world [])).
  - reflexivity.
  - reflexivity.
  - reflexivity.
  - exact example_world_ok.
  - vm_compute. reflexivity.
Defined.

(** ** UploadLlvm: what it sends, whatever the store answers *)

Section SendsOnly.

Variable P : Request -> Prop.

Lemma sends_ret {A : Type} (a : A) : sends_only P (ret a).
Proof.
  intros w. exists []. cbn. rewrite List.app_nil_r. repeat split. constructor.
Qed.

Lemma sends_raise {A : Type} (e : exn) : sends_only P (raise e : M A).
Proof.
  intros w. exists []. cbn. rewrite List.app_nil_r. repeat split. constructor.
Qed.

Lemma sends_print (line : string) : sends_only P (print line).
Proof. intros w. exists [EPrint line]. cbn. repeat split. constructor. Qed.

Lemma sends_http (req : Request) : P req -> sends_only P (http req).
Proof.
  intros Hreq w. exists [ERequest req]. unfold http.
  destruct (Store.serve (remote w) req). cbn. repeat split.
  now repeat constructor.
Qed.

Lemma sends_open_rb (path : string) : sends_only P (open_rb path).
Proof.
  intros w. exists []. unfold open_rb.
  destruct (lookup path (files w)); cbn; rewrite List.app_nil_r;
    repeat split; constructor.
Qed.

Lemma sends_json_message (response : Response) :
  sends_only P (json_message response).
Proof.
  unfold json_message.
  destruct (body response); (apply sends_ret || apply sends_raise).
Qed.

Lemma sends_bind {A B : Type} (m : M A) (k : A -> M B) :
  sends_only P m -> (forall a, sends_only P (k a)) -> sends_only P (bind m k).
Proof.
  intros Hm Hk w. unfold bind.
  destruct (Hm w) as (ev1 & L1 & R1 & F1 & O1).
  destruct (m w) as [[a | e] w1]; cbn [snd] in *.
  - destruct (Hk a w1) as (ev2 & L2 & R2 & F2 & O2). exists (ev1 ++ ev2).
    rewrite L2, L1, <- List.app_assoc, requests_of_app.
    repeat split; [now apply Forall_app | congruence | congruence].
  - exists ev1. now repeat split.
Qed.

End SendsOnly.

Ltac sends :=
  repeat first
    [ apply sends_ret | apply sends_raise | apply sends_print
    | apply sends_open_rb | apply sends_json_message
    | apply sends_bind
    | match goal with
      | |- forall _, _ => intro
      | |- sends_only _ (if ?b then _ else _) => destruct b
      | |- sends_only _ (match ?x with _ => _ end) => destruct x
      end ].

Lemma sends_scan_assets (args : Args) (bundle_path : string)
  (l : list AssetJson) :
  sends_only (own_request args bundle_path)
             (scan_assets args (GetBundleVersion args) (basename bundle_path) l).
Proof.
  induction l as [| a l IH]; cbn [scan_assets]; [apply sends_ret |].
  destruct (negb (json_name a =? basename bundle_path)%string); [exact IH |].
  apply sends_bind; [apply sends_print | intros _].
  apply sends_bind; [apply sends_http; now cbn | intros response].
  sends.
Qed.

Lemma sends_scan_releases (args : Args) (bundle_path : string)
  (l : list ReleaseJson) :
  forall url,
    sends_only (own_request args bundle_path)
               (scan_releases args (GetBundleVersion args)
                              (basename bundle_path) l url).
Proof.
  induction l as [| r l IH]; intros url; cbn [scan_releases];
    [apply sends_ret |].
  destruct (negb (json_tag_name r =? GetBundleVersion args)%string);
    [apply IH |].
  apply sends_bind; [apply sends_print | intros _].
  apply sends_bind; [apply sends_scan_assets | intros _]. apply IH.
Qed.

(** X22. Whatever the state of the store and whatever it answers, a run of
    [UploadLlvm] sends nothing but requests of its own: the listing, the
    deletions and the creation go to the repository [llvm] of the
    organisation of the run, under the tag of the run, the upload has the
    name of the archive, and each carries the credentials of the run.  The
    run only adds to the log and writes no file. *)
Theorem UploadLlvm_own_requests (args : Args) (bundle_path : string) (w : World) :
  exists events,
    log (snd (UploadLlvm args bundle_path w)) = log w ++ events /\
    Forall (own_request args bundle_path) (requests_of events) /\
    files (snd (UploadLlvm args bundle_path w)) = files w /\
    objdump (snd (UploadLlvm args bundle_path w)) = objdump w.
Proof.
  assert (H : sends_only (own_request args bundle_path)
                         (UploadLlvm args bundle_path)); [| exact (H w)].
  unfold UploadLlvm. cbv zeta.
  apply sends_bind; [apply sends_http; now cbn | intros response].
  apply sends_bind; [sends | intros _].
  apply sends_bind; [sends | intros listing].
  apply sends_bind; [apply sends_scan_releases | intros url].
  apply sends_bind.
  - destruct (unset url); [| sends].
    apply sends_bind; [apply sends_print | intros _].
    apply sends_bind.
    + apply sends_http. unfold own_request. repeat split; reflexivity.
    + intros created. sends.
  - intros upload_url.
    apply sends_bind; [apply sends_open_rb | intros bundle].
    apply sends_bind; [apply sends_print | intros _].
    apply sends_bind; [apply sends_http; now cbn | intros uploaded].
    sends.
Qed.
